(** * pyswd: the ST-Link probe driver and the STM32 identification layer

    A shallow embedding of [swd/stlink.py] and [swd/devices/stm32.py].

    Python integers are [Z]; bytes received from the probe are [Byte.byte];
    command frames are Python lists of integers, hence [list Z]; Python
    [str] is [string] (the names handled here are ASCII); a raised exception
    is the [Err] branch of [result], carrying the exception class and the
    arguments of its constructor.  The USB driver ([swd.stlinkcom]) is an
    external collaborator: it is a record holding its constants and a
    responder, and every call of [xfer] is appended to a wire log. *)

From Stdlib Require Import ZArith List String Ascii Lia Bool Sorted.
From Stdlib.Strings Require Import Byte.
From stdpp Require Import base gmap sets list strings pretty.

Local Open Scope string_scope.
Local Open Scope list_scope.
Local Open Scope Z_scope.

(* ===================================================================== *)
(** ** Exceptions and results *)
(* ===================================================================== *)

(** The exception classes of the repository, followed by the Python
    built-ins that the modelled code can raise. *)
Inductive exn : Type :=
  | StlinkException (args : list string)
  | OutdatedStlinkFirmware (current_version minimal_version : string)
  | McuError (msg : string)
  | McuException (msg : string)
  | UnknownMcuDetected (dev_id : Z) (flash_size : option Z)
  | McuNotMatch (detected_mcu_names expected_mcu_names : list string)
  | ComException (msg : string)
  | IndexError
  | KeyError (msg : string)
  | TypeError
  | OverflowError.

Inductive result (A : Type) : Type :=
  | Ok (a : A)
  | Err (e : exn).
Arguments Ok {A} a.
Arguments Err {A} e.

(** [isinstance(e, StlinkException)]: the class itself or its subclass. *)
Definition is_StlinkException (e : exn) : bool :=
  match e with
  | StlinkException _ | OutdatedStlinkFirmware _ _ => true
  | _ => false
  end.

(** [isinstance(e, OutdatedStlinkFirmware)]. *)
Definition is_OutdatedStlinkFirmware (e : exn) : bool :=
  match e with
  | OutdatedStlinkFirmware _ _ => true
  | _ => false
  end.

(** [isinstance(e, McuError)]: the root of [swd/devices/mcu.py]. *)
Definition is_McuError (e : exn) : bool :=
  match e with
  | McuError _ | McuException _ | UnknownMcuDetected _ _ | McuNotMatch _ _ =>
      true
  | _ => false
  end.

(** An exception of one of the repository's own hierarchies. *)
Definition in_taxonomy (e : exn) : bool :=
  is_StlinkException e || is_McuError e.

(* ===================================================================== *)
(** ** Python primitives *)
(* ===================================================================== *)

Definition u8 (b : byte) : Z := Z.of_N (Byte.to_N b).

(** [seq[a:b]] for non-negative [a] and [b]. *)
Definition slice {A} (a b : nat) (l : list A) : list A :=
  take (b - a) (drop a l).

(** [seq[i]] for a non-negative [i]. *)
Definition index {A} (l : list A) (i : nat) : result A :=
  match l !! i with
  | Some x => Ok x
  | None => Err IndexError
  end.

(** [int.from_bytes(bs, byteorder='little')]. *)
Fixpoint from_bytes_little (bs : list byte) : Z :=
  match bs with
  | [] => 0
  | b :: rest => u8 b + 256 * from_bytes_little rest
  end.

(** [int.from_bytes(bs, byteorder='big')]. *)
Definition from_bytes_big (bs : list byte) : Z :=
  fold_left (fun acc b => acc * 256 + u8 b) bs 0.

Fixpoint le_digits (n : nat) (x : Z) : list Z :=
  match n with
  | O => []
  | S n' => x mod 256 :: le_digits n' (x / 256)
  end.

(** [list(number.to_bytes(length, byteorder='little'))]; Python raises
    [OverflowError] for a negative number and for one that does not fit. *)
Definition to_bytes_little (length : nat) (number : Z) : result (list Z) :=
  if (number <? 0) || (2 ^ (8 * Z.of_nat length) <=? number)
  then Err OverflowError
  else Ok (le_digits length number).

(** Truth value of an optional integer: [None] and [0] are false. *)
Definition truthy (x : option Z) : bool :=
  match x with
  | Some n => negb (n =? 0)
  | None => false
  end.

(** [str.startswith]. *)
Fixpoint startswith (s p : string) : bool :=
  match p, s with
  | EmptyString, _ => true
  | String _ _, EmptyString => false
  | String a p', String b s' => if Ascii.eqb a b then startswith s' p' else false
  end.

(** [s[:n]]. *)
Fixpoint str_take (n : nat) (s : string) : string :=
  match n, s with
  | S n', String c s' => String c (str_take n' s')
  | _, _ => EmptyString
  end.

(** [str.upper] on ASCII: the letters a..z move to A..Z. *)
Definition upper_char (c : ascii) : ascii :=
  let n := nat_of_ascii c in
  if ((97 <=? n) && (n <=? 122))%nat then ascii_of_nat (n - 32) else c.

Fixpoint upper (s : string) : string :=
  match s with
  | EmptyString => EmptyString
  | String c s' => String (upper_char c) (upper s')
  end.

(** [l = list(s); l[i] = c; ''.join(l)] for an index inside the string. *)
Fixpoint str_set (i : nat) (c : ascii) (s : string) : string :=
  match s, i with
  | EmptyString, _ => EmptyString
  | String _ s', O => String c s'
  | String d s', S i' => String d (str_set i' c s')
  end.

(* ===================================================================== *)
(** ** The transport and the wire log *)
(* ===================================================================== *)

(** One call [com.xfer(tx, data=..., rx_length=...)]. *)
Record xfer_call : Type := XferCall {
  tx : list Z;
  data : option (list Z);
  rx_length : option Z
}.

Definition trace : Type := list xfer_call.

(** The USB driver object: its generation tag, its transfer cap, and what it
    answers to a call given the calls made before. *)
Record Com : Type := {
  com_version : string;
  STLINK_MAXIMUM_TRANSFER_SIZE : Z;
  com_xfer : trace -> xfer_call -> result (list byte)
}.

(** Computations that talk to the probe: the state is the wire log. *)
Definition M (A : Type) : Type := trace -> result A * trace.

Definition ret {A} (a : A) : M A := fun tr => (Ok a, tr).
Definition raise {A} (e : exn) : M A := fun tr => (Err e, tr).
Definition bind {A B} (m : M A) (k : A -> M B) : M B :=
  fun tr =>
    match m tr with
    | (Ok a, tr') => k a tr'
    | (Err e, tr') => (Err e, tr')
    end.
Definition lift {A} (r : result A) : M A := fun tr => (r, tr).

Notation "x <- m ;; k" := (bind m (fun x => k))
  (at level 100, m at next level, right associativity).
Notation "m ;;; k" := (bind m (fun _ => k))
  (at level 100, right associativity).

Definition xfer (com : Com) (tx : list Z) (data : option (list Z))
    (rx_length : option Z) : M (list byte) :=
  fun tr =>
    let call := XferCall tx data rx_length in
    (com_xfer com tr call, tr ++ [call]).

(* ===================================================================== *)
(** ** [swd/stlink.py]: command bytes *)
(* ===================================================================== *)

Module CMD.
Definition GET_VERSION : Z := 0xf1.
Definition GET_CURRENT_MODE : Z := 0xf5.
Definition GET_TARGET_VOLTAGE : Z := 0xf7.
Definition GET_VERSION_EX : Z := 0xfb.

Module MODE.
Definition DFU : Z := 0x00.
Definition MASS : Z := 0x01.
Definition DEBUG : Z := 0x02.
Definition SWIM : Z := 0x03.
Definition BOOTLOADER : Z := 0x04.
End MODE.

Module DFU.
Definition EXIT : Z := 0x07.
Definition COMMAND : Z := 0xf3.
End DFU.

Module SWIM.
Definition ENTER : Z := 0x00.
Definition EXIT : Z := 0x01.
Definition COMMAND : Z := 0xf4.
End SWIM.

Module DEBUG.
Definition READMEM_32BIT : Z := 0x07.
Definition WRITEMEM_32BIT : Z := 0x08.
Definition READMEM_8BIT : Z := 0x0c.
Definition WRITEMEM_8BIT : Z := 0x0d.
Definition EXIT : Z := 0x21.
Definition ENTER_SWD : Z := 0xa3.
Definition COMMAND : Z := 0xf2.

Module APIV2.
Definition ENTER : Z := 0x30.
Definition READ_IDCODES : Z := 0x31.
Definition READREG : Z := 0x33.
Definition WRITEREG : Z := 0x34.
Definition WRITEDEBUGREG : Z := 0x35.
Definition READDEBUGREG : Z := 0x36.
Definition READALLREGS : Z := 0x3a.
Definition SWD_SET_FREQ : Z := 0x43.
Definition READMEM_16BIT : Z := 0x47.
Definition WRITEMEM_16BIT : Z := 0x48.
End APIV2.

Module APIV3.
Definition SET_COM_FREQ : Z := 0x61.
Definition GET_COM_FREQ : Z := 0x62.
End APIV3.
End DEBUG.
End CMD.

(** [Stlink.CmdBuilder]: the command is a list that grows at its end. *)
Module CmdBuilder.
Definition init (cmd : Z) : list Z := [cmd].
Definition add_u8 (cmd : list Z) (number : Z) : list Z := cmd ++ [number].
Definition add_u16 (cmd : list Z) (number : Z) : result (list Z) :=
  match to_bytes_little 2 number with
  | Ok bs => Ok (cmd ++ bs)
  | Err e => Err e
  end.
Definition add_u32 (cmd : list Z) (number : Z) : result (list Z) :=
  match to_bytes_little 4 number with
  | Ok bs => Ok (cmd ++ bs)
  | Err e => Err e
  end.
End CmdBuilder.

Definition _SWD_FREQ : list (Z * Z) :=
  [ (4000000, 0);
    (1800000, 1);
    (1200000, 2);
    (950000, 3);
    (480000, 7);
    (240000, 15);
    (125000, 31);
    (100000, 40);
    (50000, 79);
    (25000, 158) ].

Definition _STLINK_MAXIMUM_8BIT_DATA : Z := 64.

(* ===================================================================== *)
(** ** [Stlink.StlinkVersion] *)
(* ===================================================================== *)

(** The dictionary built by [_read_version]: the keys ['stlink'] and
    ['dev'] are always written, the others may be absent. *)
Record version_dict : Type := {
  d_stlink : Z;
  d_dev : string;
  d_jtag : option Z;
  d_swim : option Z;
  d_mass : option Z;
  d_api : option Z;
  d_bridge : option Z
}.

Record StlinkVersion : Type := {
  _stlink : Z;
  _jtag : option Z;
  _swim : option Z;
  _mass : option Z;
  _api : option Z;
  _bridge : option Z;
  _str : string
}.

(** [f"{x}"] for a value got with [dict.get]. *)
Definition fmt (x : option Z) : string :=
  match x with
  | Some n => pretty n
  | None => "None"
  end.

(** [if x: s += f"<letter>{x}"]. *)
Definition add_part (s letter : string) (x : option Z) : string :=
  if truthy x then s +:+ letter +:+ fmt x else s.

Definition StlinkVersion_init (version : version_dict) : StlinkVersion :=
  let s := "ST-Link/" +:+ d_dev version in
  let s := s +:+ " V" +:+ pretty (d_stlink version) in
  let s := add_part s "J" (d_jtag version) in
  let s := add_part s "S" (d_swim version) in
  let s := add_part s "M" (d_mass version) in
  let s := add_part s "B" (d_bridge version) in
  {| _stlink := d_stlink version;
     _jtag := d_jtag version;
     _swim := d_swim version;
     _mass := d_mass version;
     _api := d_api version;
     _bridge := d_bridge version;
     _str := s |}.

(** [x < n] and [x <= n] where [x] may be [None]: Python 3 raises
    [TypeError] when it compares [None] with an integer. *)
Definition py_lt (x : option Z) (n : Z) : result bool :=
  match x with
  | Some a => Ok (a <? n)
  | None => Err TypeError
  end.

Definition py_le (x : option Z) (n : Z) : result bool :=
  match x with
  | Some a => Ok (a <=? n)
  | None => Err TypeError
  end.

(* ===================================================================== *)
(** ** [Stlink]: the session *)
(* ===================================================================== *)

Record Stlink : Type := {
  _com : Com;
  _version : StlinkVersion
}.

Definition maximum_8bit_data (self : Stlink) : Z := _STLINK_MAXIMUM_8BIT_DATA.
Definition maximum_16bit_data (self : Stlink) : Z :=
  STLINK_MAXIMUM_TRANSFER_SIZE (_com self).
Definition maximum_32bit_data (self : Stlink) : Z :=
  STLINK_MAXIMUM_TRANSFER_SIZE (_com self).

Definition _read_version (com : Com) : M StlinkVersion :=
  let cmd := CmdBuilder.add_u8 (CmdBuilder.init CMD.GET_VERSION) 0x80 in
  res <- xfer com cmd None (Some 6) ;;
  let ver := from_bytes_big (slice 0 2 res) in
  let ver_stlink := Z.land (Z.shiftr ver 12) 0xf in
  if ver_stlink =? 2 then
    let jtag := Z.land (Z.shiftr ver 6) 0x3f in
    let api := if jtag <=? 11 then 1 else 2 in
    if String.eqb (com_version com) "V2" then
      ret (StlinkVersion_init
             {| d_stlink := ver_stlink; d_dev := com_version com;
                d_jtag := Some jtag; d_swim := Some (Z.land ver 0x3f);
                d_mass := None; d_api := Some api; d_bridge := None |})
    else if String.eqb (com_version com) "V2-1" then
      ret (StlinkVersion_init
             {| d_stlink := ver_stlink; d_dev := com_version com;
                d_jtag := Some jtag; d_swim := None;
                d_mass := Some (Z.land ver 0x3f); d_api := Some api;
                d_bridge := None |})
    else
      ret (StlinkVersion_init
             {| d_stlink := ver_stlink; d_dev := com_version com;
                d_jtag := Some jtag; d_swim := None;
                d_mass := None; d_api := Some api; d_bridge := None |})
  else if ver_stlink =? 3 then
    ver_ex <- xfer com [CMD.GET_VERSION_EX; 0x80] None (Some 16) ;;
    swim <- lift (index ver_ex 1) ;;
    jtag <- lift (index ver_ex 2) ;;
    mass <- lift (index ver_ex 3) ;;
    bridge <- lift (index ver_ex 4) ;;
    ret (StlinkVersion_init
           {| d_stlink := ver_stlink; d_dev := com_version com;
              d_jtag := Some (u8 jtag); d_swim := Some (u8 swim);
              d_mass := Some (u8 mass); d_api := Some 3;
              d_bridge := Some (u8 bridge) |})
  else
    ret (StlinkVersion_init
           {| d_stlink := ver_stlink; d_dev := com_version com;
              d_jtag := None; d_swim := None; d_mass := None;
              d_api := None; d_bridge := None |}).

Definition _leave_state (self : Stlink) : M unit :=
  res <- xfer (_com self) [CMD.GET_CURRENT_MODE] None (Some 2) ;;
  mode <- lift (index res 0) ;;
  if u8 mode =? CMD.MODE.DFU then
    xfer (_com self) [CMD.DFU.COMMAND; CMD.DFU.EXIT] None None ;;; ret tt
  else if u8 mode =? CMD.MODE.DEBUG then
    xfer (_com self) [CMD.DEBUG.COMMAND; CMD.DEBUG.EXIT] None None ;;; ret tt
  else if u8 mode =? CMD.MODE.SWIM then
    xfer (_com self) [CMD.SWIM.COMMAND; CMD.SWIM.EXIT] None None ;;; ret tt
  else ret tt.

(** The [for] loop of [_set_swd_freq_v2] over the rows still to visit; the
    statement after the loop is the empty case. *)
Fixpoint _set_swd_freq_v2_rows (self : Stlink) (swd_frequency : Z)
    (rows : list (Z * Z)) : M unit :=
  match rows with
  | [] => raise (StlinkException ["Selected SWD frequency is too low"])
  | (freq, data) :: rows' =>
      if swd_frequency >=? freq then
        let cmd :=
          [CMD.DEBUG.COMMAND; CMD.DEBUG.APIV2.SWD_SET_FREQ; data] in
        res <- xfer (_com self) cmd None (Some 2) ;;
        status <- lift (index res 0) ;;
        if negb (u8 status =? 0x80)
        then raise (StlinkException ["Error switching SWD frequency"])
        else ret tt
      else _set_swd_freq_v2_rows self swd_frequency rows'
  end.

Definition _set_swd_freq_v2 (self : Stlink) (swd_frequency : Z) : M unit :=
  outdated <- lift (py_lt (_jtag (_version self)) 22) ;;
  if outdated : bool
  then raise (OutdatedStlinkFirmware (_str (_version self)) "J22")
  else _set_swd_freq_v2_rows self swd_frequency _SWD_FREQ.

(** The [while i < res[8]] loop of [_set_swd_freq_v3].  [remaining] is
    [res[8] - i], so the loop test is [remaining > 0]; the result is the
    pair [(i, freq_khz)] with which the loop is left. *)
Fixpoint _set_swd_freq_v3_scan (res : list byte) (swd_frequency : Z)
    (remaining i : nat) (freq_khz : Z) : nat * Z :=
  match remaining with
  | O => (i, freq_khz)
  | S remaining' =>
      let freq_khz :=
        from_bytes_little (slice (12 + 4 * i) (15 + 4 * i) res) in
      if swd_frequency / 1000 >=? freq_khz
      then (i, freq_khz)
      else _set_swd_freq_v3_scan res swd_frequency remaining' (S i) freq_khz
  end.

Definition _set_swd_freq_v3 (self : Stlink) (swd_frequency : Z) : M unit :=
  outdated <- lift (py_lt (_api (_version self)) 3) ;;
  if outdated : bool
  then raise (OutdatedStlinkFirmware (_str (_version self)) "V3")
  else
    res <- xfer (_com self)
             [CMD.DEBUG.COMMAND; CMD.DEBUG.APIV3.GET_COM_FREQ; 0]
             None (Some 52) ;;
    count <- lift (index res 8) ;;
    let '(i, freq_khz) :=
      _set_swd_freq_v3_scan res swd_frequency (Z.to_nat (u8 count)) 0 0 in
    if Z.of_nat i =? u8 count
    then raise (StlinkException ["Requested SWD frequency is too low"])
    else
      khz <- lift (to_bytes_little 4 freq_khz) ;;
      let cmd :=
        [CMD.DEBUG.COMMAND; CMD.DEBUG.APIV3.SET_COM_FREQ; 0x00; 0x00]
        ++ khz in
      res <- xfer (_com self) cmd None (Some 2) ;;
      status <- lift (index res 0) ;;
      if negb (u8 status =? 0x80)
      then raise (StlinkException ["Error switching SWD frequency"])
      else ret tt.

Definition _set_swd_freq (self : Stlink) (swd_frequency : Z) : M unit :=
  if _stlink (_version self) =? 2 then _set_swd_freq_v2 self swd_frequency
  else if _stlink (_version self) =? 3 then _set_swd_freq_v3 self swd_frequency
  else ret tt.

Definition _enter_debug_swd (self : Stlink) : M unit :=
  let cmd :=
    [CMD.DEBUG.COMMAND; CMD.DEBUG.APIV2.ENTER; CMD.DEBUG.ENTER_SWD] in
  xfer (_com self) cmd None (Some 2) ;;; ret tt.

(** [Stlink.__init__] with the driver given. *)
Definition Stlink_init (swd_frequency : option Z) (com : Com) : M Stlink :=
  version <- _read_version com ;;
  let self := {| _com := com; _version := version |} in
  _leave_state self ;;;
  (match swd_frequency with
   | Some f => if f =? 0 then ret tt else _set_swd_freq self f
   | None => ret tt
   end) ;;;
  _enter_debug_swd self ;;;
  ret self.

(* ===================================================================== *)
(** ** [Stlink]: target access *)
(* ===================================================================== *)

Definition get_idcode (self : Stlink) : M Z :=
  let cmd := [CMD.DEBUG.COMMAND; CMD.DEBUG.APIV2.READ_IDCODES] in
  res <- xfer (_com self) cmd None (Some 12) ;;
  let idcode := from_bytes_little (slice 4 8 res) in
  if idcode =? 0
  then raise (StlinkException ["No IDCODE, probably MCU is not connected"])
  else ret idcode.

Definition get_reg (self : Stlink) (register : Z) : M Z :=
  let cmd := [CMD.DEBUG.COMMAND; CMD.DEBUG.APIV2.READREG; register] in
  res <- xfer (_com self) cmd None (Some 8) ;;
  ret (from_bytes_little (slice 4 8 res)).

Definition get_mem32 (self : Stlink) (address : Z) : M Z :=
  if negb (address mod 4 =? 0)
  then raise (StlinkException ["Address is not aligned to 4 Bytes"])
  else
    a <- lift (to_bytes_little 4 address) ;;
    let cmd :=
      [CMD.DEBUG.COMMAND; CMD.DEBUG.APIV2.READDEBUGREG] ++ a in
    res <- xfer (_com self) cmd None (Some 8) ;;
    ret (from_bytes_little (slice 4 8 res)).

Definition set_mem32 (self : Stlink) (address data : Z) : M unit :=
  if negb (address mod 4 =? 0)
  then raise (StlinkException ["Address is not aligned to 4 Bytes"])
  else
    a <- lift (to_bytes_little 4 address) ;;
    d <- lift (to_bytes_little 4 data) ;;
    let cmd :=
      ([CMD.DEBUG.COMMAND; CMD.DEBUG.APIV2.WRITEDEBUGREG] ++ a) ++ d in
    xfer (_com self) cmd None (Some 2) ;;; ret tt.

Definition read_mem8 (self : Stlink) (address size : Z) : M (list byte) :=
  if size >? maximum_8bit_data self
  then raise (StlinkException
                ["Too many Bytes to read (maximum is "
                 +:+ pretty (maximum_8bit_data self) +:+ " Bytes)"])
  else
    a <- lift (to_bytes_little 4 address) ;;
    n <- lift (to_bytes_little 4 size) ;;
    let cmd := ([CMD.DEBUG.COMMAND; CMD.DEBUG.READMEM_8BIT] ++ a) ++ n in
    xfer (_com self) cmd None (Some size).

Definition write_mem8 (self : Stlink) (address : Z) (data : list Z) : M unit :=
  if Z.of_nat (length data) >? maximum_8bit_data self
  then raise (StlinkException
                ["Too many Bytes to write (maximum is "
                 +:+ pretty (maximum_8bit_data self) +:+ " Bytes)"])
  else
    a <- lift (to_bytes_little 4 address) ;;
    n <- lift (to_bytes_little 4 (Z.of_nat (length data))) ;;
    let cmd := ([CMD.DEBUG.COMMAND; CMD.DEBUG.WRITEMEM_8BIT] ++ a) ++ n in
    xfer (_com self) cmd (Some data) None ;;; ret tt.

(** The version test that opens [read_mem16] and [write_mem16]:
    [api <= 2 and jtag < 29], with Python's short-circuit [and]. *)
Definition mem16_gate (self : Stlink) : result bool :=
  match py_le (_api (_version self)) 2 with
  | Err e => Err e
  | Ok false => Ok false
  | Ok true => py_lt (_jtag (_version self)) 29
  end.

Definition read_mem16 (self : Stlink) (address size : Z) : M (list byte) :=
  old <- lift (mem16_gate self) ;;
  if old : bool
  then raise (StlinkException [_str (_version self); "J29"])
  else if negb (address mod 2 =? 0)
  then raise (StlinkException ["Address is not aligned to 2 Bytes"])
  else if negb (size mod 2 =? 0)
  then raise (StlinkException ["Size is not aligned to 2 Bytes"])
  else if size >? maximum_16bit_data self
  then raise (StlinkException
                ["Too many Bytes to read (maximum is "
                 +:+ pretty (maximum_16bit_data self) +:+ " Bytes)"])
  else
    a <- lift (to_bytes_little 4 address) ;;
    n <- lift (to_bytes_little 4 size) ;;
    let cmd :=
      ([CMD.DEBUG.COMMAND; CMD.DEBUG.APIV2.READMEM_16BIT] ++ a) ++ n in
    xfer (_com self) cmd None (Some size).

Definition write_mem16 (self : Stlink) (address : Z) (data : list Z)
    : M unit :=
  old <- lift (mem16_gate self) ;;
  if old : bool
  then raise (StlinkException [_str (_version self); "J29"])
  else if negb (address mod 2 =? 0)
  then raise (StlinkException ["Address is not aligned to 2 Bytes"])
  else if negb (Z.of_nat (length data) mod 2 =? 0)
  then raise (StlinkException ["Size is not aligned to 2 Bytes"])
  else if Z.of_nat (length data) >? maximum_16bit_data self
  then raise (StlinkException
                ["Too many Bytes to write (maximum is "
                 +:+ pretty (maximum_16bit_data self) +:+ " Bytes)"])
  else
    a <- lift (to_bytes_little 4 address) ;;
    n <- lift (to_bytes_little 4 (Z.of_nat (length data))) ;;
    let cmd :=
      ([CMD.DEBUG.COMMAND; CMD.DEBUG.APIV2.WRITEMEM_16BIT] ++ a) ++ n in
    xfer (_com self) cmd (Some data) None ;;; ret tt.

Definition read_mem32 (self : Stlink) (address size : Z) : M (list byte) :=
  if negb (address mod 4 =? 0)
  then raise (StlinkException ["Address is not aligned to 4 Bytes"])
  else if negb (size mod 4 =? 0)
  then raise (StlinkException ["Size is not aligned to 4 Bytes"])
  else if size >? maximum_32bit_data self
  then raise (StlinkException
                ["Too many Bytes to read (maximum is "
                 +:+ pretty (maximum_32bit_data self) +:+ " Bytes)"])
  else
    a <- lift (to_bytes_little 4 address) ;;
    n <- lift (to_bytes_little 4 size) ;;
    let cmd := ([CMD.DEBUG.COMMAND; CMD.DEBUG.READMEM_32BIT] ++ a) ++ n in
    xfer (_com self) cmd None (Some size).

Definition write_mem32 (self : Stlink) (address : Z) (data : list Z)
    : M unit :=
  if negb (address mod 4 =? 0)
  then raise (StlinkException ["Address is not aligned to 4 Bytes"])
  else if negb (Z.of_nat (length data) mod 4 =? 0)
  then raise (StlinkException ["Size is not aligned to 4 Bytes"])
  else if Z.of_nat (length data) >? maximum_32bit_data self
  then raise (StlinkException
                ["Too many Bytes to write (maximum is "
                 +:+ pretty (maximum_32bit_data self) +:+ " Bytes)"])
  else
    a <- lift (to_bytes_little 4 address) ;;
    n <- lift (to_bytes_little 4 (Z.of_nat (length data))) ;;
    let cmd := ([CMD.DEBUG.COMMAND; CMD.DEBUG.WRITEMEM_32BIT] ++ a) ++ n in
    xfer (_com self) cmd (Some data) None ;;; ret tt.

(** The eight memory operations with their arguments, and the run of one of
    them with its value dropped. *)
Inductive mem_op : Type :=
  | Get_mem32 (address : Z)
  | Set_mem32 (address data : Z)
  | Read_mem8 (address size : Z)
  | Write_mem8 (address : Z) (data : list Z)
  | Read_mem16 (address size : Z)
  | Write_mem16 (address : Z) (data : list Z)
  | Read_mem32 (address size : Z)
  | Write_mem32 (address : Z) (data : list Z).

Definition run_mem_op (self : Stlink) (op : mem_op) : M unit :=
  match op with
  | Get_mem32 a => get_mem32 self a ;;; ret tt
  | Set_mem32 a d => set_mem32 self a d
  | Read_mem8 a n => read_mem8 self a n ;;; ret tt
  | Write_mem8 a d => write_mem8 self a d
  | Read_mem16 a n => read_mem16 self a n ;;; ret tt
  | Write_mem16 a d => write_mem16 self a d
  | Read_mem32 a n => read_mem32 self a n ;;; ret tt
  | Write_mem32 a d => write_mem32 self a d
  end.

(** The preconditions of the access table, negated: the firmware gate of
    the 16-bit operations, alignment of address and size, the size cap. *)
Definition firmware_gate_fails (self : Stlink) : bool :=
  match _api (_version self), _jtag (_version self) with
  | Some api, Some jtag => (api <=? 2) && (jtag <? 29)
  | _, _ => false
  end.

Definition misaligned (width x : Z) : bool := negb (x mod width =? 0).

Definition violates_precondition (self : Stlink) (op : mem_op) : bool :=
  let len (d : list Z) := Z.of_nat (length d) in
  let cap := STLINK_MAXIMUM_TRANSFER_SIZE (_com self) in
  match op with
  | Get_mem32 a => misaligned 4 a
  | Set_mem32 a _ => misaligned 4 a
  | Read_mem8 _ n => 64 <? n
  | Write_mem8 _ d => 64 <? len d
  | Read_mem16 a n =>
      firmware_gate_fails self || misaligned 2 a || misaligned 2 n
      || (cap <? n)
  | Write_mem16 a d =>
      firmware_gate_fails self || misaligned 2 a || misaligned 2 (len d)
      || (cap <? len d)
  | Read_mem32 a n => misaligned 4 a || misaligned 4 n || (cap <? n)
  | Write_mem32 a d =>
      misaligned 4 a || misaligned 4 (len d) || (cap <? len d)
  end.

(* ===================================================================== *)
(** ** [swd/devices/stm32.py]: identification of the MCU *)
(* ===================================================================== *)

(** Modelled from the spec: [swd.devices.memory.KILO], a constant of a
    module that is not part of the sources at hand; the flash-size register
    holds kilobytes and the identification multiplies it by 1024. *)
Definition KILO : Z := 1024.

Section Stm32.

(** What is outside [stm32.py]: the value stored under ['memory'] in a
    catalog entry with [MemoryRegions(memory).get_size(name)] on it, and the
    two reads of the [Swd] object, which may raise. *)
Variable memory : Type.
Variable get_size : memory -> string -> Z.
Variable swd_get_mem32 : Z -> result Z.
Variable swd_get_mem16 : Z -> result Z.

(** A catalog entry: a dictionary whose keys ['mcu_name'] and ['memory'] are
    read with [mcu[key]], the others with [get] or after [key in mcu]. *)
Record mcu_spec : Type := {
  mcu_name : string;
  dev_id : option Z;
  flash_size_reg : option Z;
  svd_file : option string;
  mcu_memory : memory
}.

(** The class attributes that a family overrides. *)
Variable _NAME : string.
Variable _IDCODE_REG : Z.
Variable _FLASH_SIZE_REG : option Z.
Variable _MCUS : list mcu_spec.

Record Stm32 : Type := {
  _mcus : list mcu_spec;
  _flash_size : Z
}.

Definition _load_devid_from_idcode (address : Z) : result Z :=
  match swd_get_mem32 address with
  | Ok idcode => Ok (Z.land idcode 0x00000fff)
  | Err e => Err e
  end.

Definition _load_flash_size (address : Z) : result Z :=
  swd_get_mem16 address.

(** [_select_by_specs(specs, **arguments)]: a keyword is the accessor of
    its key; a spec is appended once for every keyword it agrees with. *)
Definition _select_by_specs (specs : list mcu_spec)
    (arguments : list ((mcu_spec -> option Z) * Z)) : list mcu_spec :=
  flat_map
    (fun spec =>
       flat_map
         (fun kv : (mcu_spec -> option Z) * Z =>
            if bool_decide (fst kv spec = Some (snd kv)) then [spec] else [])
         arguments)
    specs.

Definition _selet_mcus_by_flash_size (mcus : list mcu_spec) (flash_size : Z)
    : list mcu_spec :=
  List.filter (fun mcu => flash_size =? get_size (mcu_memory mcu) "FLASH") mcus.

(** [{mcu[key] for mcu in mcus if key in mcu}]. *)
Definition _mcu_values {V} `{Countable V} (mcus : list mcu_spec)
    (key : mcu_spec -> option V) : gset V :=
  list_to_set (omap key mcus).

(** [values.pop()] is reached with at most one element in the set. *)
Definition _mcu_value {V} `{Countable V} (mcus : list mcu_spec)
    (key : mcu_spec -> option V) : result V :=
  let values := _mcu_values mcus key in
  if (1 <? size values)%nat
  then Err (McuError "Error, more values in MCUs under key")
  else
    match elements values with
    | x :: _ => Ok x
    | [] => Err (KeyError "pop from an empty set")
    end.

(** [_is_expected_mcu]: [expected_mcus] is [None] or a set of names. *)
Definition _is_expected_mcu (mcu : mcu_spec)
    (expected_mcus : option (gset string)) : bool :=
  match expected_mcus with
  | None => true
  | Some names =>
      if bool_decide (names = ∅) then true
      else existsb (fun name => startswith (mcu_name mcu) name) (elements names)
  end.

Definition _fix_mcu_name (mcu_name : string) : string :=
  if (9 <? String.length mcu_name)%nat
  then str_set 9 "x"%char mcu_name
  else mcu_name.

(** The body of the [for] loop of [_fix_mcu_names]: the test is made on the
    upper-cased name, the name handed to [_fix_mcu_name] is the caller's. *)
Definition _fix_mcu_names_step (fixed_names : gset string)
    (mcu_name : string) : gset string :=
  let fixed_name := upper mcu_name in
  if startswith fixed_name (str_take (String.length fixed_name) _NAME)
  then
    let fixed_name := _fix_mcu_name mcu_name in
    fixed_names ∪ {[ fixed_name ]}
  else fixed_names.

Definition _fix_mcu_names (mcu_names : list string) : option (gset string) :=
  match mcu_names with
  | [] => None
  | _ => Some (fold_left _fix_mcu_names_step mcu_names ∅)
  end.

Definition _select_mcus_by_expected (mcus : list mcu_spec)
    (expected_mcus : list string) : list mcu_spec :=
  let expected_mcus_fixed := _fix_mcu_names expected_mcus in
  match expected_mcus_fixed with
  | None => []
  | Some names =>
      if bool_decide (names = ∅) then []
      else List.filter (fun mcu => _is_expected_mcu mcu expected_mcus_fixed) mcus
  end.

Definition _get_mcu_names (mcus : list mcu_spec) : list string :=
  map mcu_name mcus.

(** [Stm32.__init__]; [expected_mcus] is [None] or a list of names. *)
Definition Stm32_init (expected_mcus : option (list string)) : result Stm32 :=
  let key_dev_id := dev_id in
  match _load_devid_from_idcode _IDCODE_REG with
  | Err e => Err e
  | Ok dev_id =>
      let mcus := _select_by_specs _MCUS [(key_dev_id, dev_id)] in
      match mcus with
      | [] => Err (UnknownMcuDetected dev_id None)
      | _ =>
          let flash_size_reg_addr :=
            if truthy _FLASH_SIZE_REG
            then Ok (default 0 _FLASH_SIZE_REG)
            else _mcu_value mcus flash_size_reg in
          match flash_size_reg_addr with
          | Err e => Err e
          | Ok flash_size_reg_addr =>
              match _load_flash_size flash_size_reg_addr with
              | Err e => Err e
              | Ok raw =>
                  let flash_size := raw * KILO in
                  let mcus := _selet_mcus_by_flash_size mcus flash_size in
                  match mcus with
                  | [] => Err (UnknownMcuDetected dev_id (Some flash_size))
                  | _ =>
                      match expected_mcus with
                      | Some ((_ :: _) as expected) =>
                          let selected_mcus :=
                            _select_mcus_by_expected mcus expected in
                          match selected_mcus with
                          | [] => Err (McuNotMatch (_get_mcu_names mcus)
                                         expected)
                          | _ => Ok {| _mcus := selected_mcus;
                                       _flash_size := flash_size |}
                          end
                      | _ => Ok {| _mcus := mcus;
                                   _flash_size := flash_size |}
                      end
                  end
              end
          end
      end
  end.

(** The [name] property. *)
Definition Stm32_name (self : Stm32) : string :=
  String.concat " / " (_get_mcu_names (_mcus self)).

End Stm32.

(* ===================================================================== *)
(** * Vocabulary of the statements, probes and catalogs used as instances *)
(* ===================================================================== *)

(** The suffix that a minor number contributes to the version string, in
    the words of the data model: nothing for an absent or zero value. *)
Definition component (letter : string) (x : option Z) : string :=
  match x with
  | Some n => if n =? 0 then "" else letter +:+ pretty n
  | None => ""
  end.

Definition with_jtag (x : option Z) (d : version_dict) : version_dict :=
  {| d_stlink := d_stlink d; d_dev := d_dev d; d_jtag := x;
     d_swim := d_swim d; d_mass := d_mass d; d_api := d_api d;
     d_bridge := d_bridge d |}.

Definition with_swim (x : option Z) (d : version_dict) : version_dict :=
  {| d_stlink := d_stlink d; d_dev := d_dev d; d_jtag := d_jtag d;
     d_swim := x; d_mass := d_mass d; d_api := d_api d;
     d_bridge := d_bridge d |}.

Definition with_mass (x : option Z) (d : version_dict) : version_dict :=
  {| d_stlink := d_stlink d; d_dev := d_dev d; d_jtag := d_jtag d;
     d_swim := d_swim d; d_mass := x; d_api := d_api d;
     d_bridge := d_bridge d |}.

Definition with_bridge (x : option Z) (d : version_dict) : version_dict :=
  {| d_stlink := d_stlink d; d_dev := d_dev d; d_jtag := d_jtag d;
     d_swim := d_swim d; d_mass := d_mass d; d_api := d_api d;
     d_bridge := x |}.

Definition GET_VERSION_call : xfer_call := XferCall [0xf1; 0x80] None (Some 6).
Definition GET_VERSION_EX_call : xfer_call :=
  XferCall [0xfb; 0x80] None (Some 16).

(** A "V2-1" probe whose every answer starts with the version word
    [0x2360]. *)
Definition probe_v2_1 : Com :=
  {| com_version := "V2-1";
     STLINK_MAXIMUM_TRANSFER_SIZE := 1024;
     com_xfer := fun _ _ => Ok [x23; x60; x00; x00; x00; x00] |}.

Definition READ_IDCODES_call : xfer_call := XferCall [0xf2; 0x31] None (Some 12).

(** A probe that answers every call with twelve bytes holding the IDCODE
    [0x0BB11477] at offset 4. *)
Definition probe_idcode : Com :=
  {| com_version := "V2";
     STLINK_MAXIMUM_TRANSFER_SIZE := 1024;
     com_xfer := fun _ _ =>
       Ok [x80; x00; x00; x00; x77; x14; xb1; x0b; x00; x00; x00; x00] |}.

Definition session (com : Com) (version : version_dict) : Stlink :=
  {| _com := com; _version := StlinkVersion_init version |}.

Definition v2j28 : version_dict :=
  {| d_stlink := 2; d_dev := "V2"; d_jtag := Some 28; d_swim := Some 7;
     d_mass := None; d_api := Some 2; d_bridge := None |}.

Definition SWD_SET_FREQ_call (opcode : Z) : xfer_call :=
  XferCall [0xf2; 0x43; opcode] None (Some 2).

(** The row that the walk over a table picks, in the words of the design:
    the first one whose frequency does not exceed the request. *)
Definition first_row_at_most (swd_frequency : Z) (rows : list (Z * Z))
    : option (Z * Z) :=
  List.find (fun row => fst row <=? swd_frequency) rows.

(** What the exchange that sets the frequency yields, given the answer. *)
Definition set_freq_outcome (answer : result (list byte)) : result unit :=
  match answer with
  | Err e => Err e
  | Ok [] => Err IndexError
  | Ok (status :: _) =>
      if u8 status =? 0x80 then Ok tt
      else Err (StlinkException ["Error switching SWD frequency"])
  end.

(** A "V2" probe that acknowledges every call with [[0x80, 0x00]]. *)
Definition probe_ack : Com :=
  {| com_version := "V2";
     STLINK_MAXIMUM_TRANSFER_SIZE := 1024;
     com_xfer := fun _ _ => Ok [x80; x00] |}.

Definition v2j22 : version_dict :=
  {| d_stlink := 2; d_dev := "V2"; d_jtag := Some 22; d_swim := Some 4;
     d_mass := None; d_api := Some 2; d_bridge := None |}.

Definition v2j21 : version_dict :=
  {| d_stlink := 2; d_dev := "V2"; d_jtag := Some 21; d_swim := Some 4;
     d_mass := None; d_api := Some 2; d_bridge := None |}.

(** The precondition that the access table states for the 16-bit
    operations: [api >= 2 and (V3 or jtag >= 29)]. *)
Definition mem16_table_precondition (v : StlinkVersion) : bool :=
  match _api v, _jtag v with
  | Some api, Some jtag =>
      (2 <=? api) && ((_stlink v =? 3) || (29 <=? jtag))
  | _, _ => false
  end.

Definition GET_COM_FREQ_call : xfer_call :=
  XferCall [0xf2; 0x62; 0] None (Some 52).

Definition SET_COM_FREQ_call (khz : list Z) : xfer_call :=
  XferCall ([0xf2; 0x61; 0; 0] ++ khz) None (Some 2).

(** The advertised entry [i] in the words of the protocol description: the
    32-bit little-endian value held by the 4 bytes at offset [12 + 4 * i]. *)
Definition entry_khz_u32 (res : list byte) (i : nat) : Z :=
  from_bytes_little (slice (12 + 4 * i) (16 + 4 * i) res).

(** The entry as the loop reads it: the bytes [12 + 4 * i] up to, and not
    including, [15 + 4 * i]. *)
Definition entry_khz_read (res : list byte) (i : nat) : Z :=
  from_bytes_little (slice (12 + 4 * i) (15 + 4 * i) res).

(** A V3 probe that advertises one frequency, [0x01000000] kHz, and
    acknowledges [SET_COM_FREQ]. *)
Definition probe_v3_one_entry : Com :=
  {| com_version := "V3";
     STLINK_MAXIMUM_TRANSFER_SIZE := 1024;
     com_xfer := fun _ call =>
       if bool_decide (tx call = [0xf2; 0x62; 0])
       then Ok ([x80; x00; x00; x00; x00; x00; x00; x00;
                 x01; x00; x00; x00;
                 x00; x00; x00; x01] ++ replicate 36 x00)
       else Ok [x80; x00] |}.

Definition v3j5 : version_dict :=
  {| d_stlink := 3; d_dev := "V3"; d_jtag := Some 5; d_swim := Some 1;
     d_mass := Some 3; d_api := Some 3; d_bridge := Some 2 |}.

Arguments mcu_name {memory} _.
Arguments dev_id {memory} _.
Arguments flash_size_reg {memory} _.
Arguments svd_file {memory} _.
Arguments mcu_memory {memory} _.
Arguments _mcus {memory} _.
Arguments _flash_size {memory} _.
Arguments _is_expected_mcu {memory} mcu expected_mcus.
Arguments _select_mcus_by_expected {memory} _NAME mcus expected_mcus.
Arguments _select_by_specs {memory} specs arguments.
Arguments _selet_mcus_by_flash_size {memory} get_size mcus flash_size.
Arguments _mcu_values {memory V _ _} mcus key.
Arguments _mcu_value {memory V _ _} mcus key.
Arguments _get_mcu_names {memory} mcus.
Arguments Stm32_init {memory} get_size swd_get_mem32 swd_get_mem16
  _NAME _IDCODE_REG _FLASH_SIZE_REG _MCUS expected_mcus.

(** The test of [_fix_mcu_names] on a name: its upper-cased form starts with
    the family name cut to the length of the name. *)
Definition matches_family (_NAME mcu_name : string) : bool :=
  startswith (upper mcu_name)
    (str_take (String.length (upper mcu_name)) _NAME).

(** The set of canonical names, empty when there is none. *)
Definition canonical_names (_NAME : string) (mcu_names : list string)
    : gset string :=
  default ∅ (_fix_mcu_names _NAME mcu_names).

(** Two catalog entries of the F103 line, without memory description. *)
Definition stm32f103x8 : mcu_spec unit :=
  {| mcu_name := "STM32F103x8"; dev_id := Some 0x410;
     flash_size_reg := None; svd_file := None; mcu_memory := tt |}.

Definition stm32f103xB : mcu_spec unit :=
  {| mcu_name := "STM32F103xB"; dev_id := Some 0x410;
     flash_size_reg := None; svd_file := None; mcu_memory := tt |}.

(** Modelled from the spec: [swd.devices.memory.MemoryRegions], which is
    not part of the sources at hand; a memory map is an ordered list of
    regions with a name, an address and a size in bytes, and [get_size]
    gives the size of the region of that name, or 0. *)
Record region : Type := {
  region_name : string;
  region_address : Z;
  region_size : Z
}.

Definition regions_get_size (regions : list region) (name : string) : Z :=
  match List.find (fun r => String.eqb (region_name r) name) regions with
  | Some r => region_size r
  | None => 0
  end.

(** A small F1 catalog and a target that reports [DEV_ID] 0x410 and 64 KB
    of flash. *)
Definition f103_memory (flash_kb : Z) : list region :=
  [ {| region_name := "FLASH"; region_address := 0x08000000;
       region_size := flash_kb * 1024 |};
    {| region_name := "SRAM"; region_address := 0x20000000;
       region_size := 20 * 1024 |} ].

Definition f1_catalog : list (mcu_spec (list region)) :=
  [ {| mcu_name := "STM32F103x8"; dev_id := Some 0x410;
       flash_size_reg := None; svd_file := None;
       mcu_memory := f103_memory 64 |};
    {| mcu_name := "STM32F103xB"; dev_id := Some 0x410;
       flash_size_reg := None; svd_file := None;
       mcu_memory := f103_memory 128 |};
    {| mcu_name := "STM32F100x8"; dev_id := Some 0x420;
       flash_size_reg := None; svd_file := None;
       mcu_memory := f103_memory 64 |} ].

Definition f1_get_mem32 (address : Z) : result Z :=
  if address =? 0xe0042000 then Ok 0x20036410 else Ok 0.

Definition f1_get_mem16 (address : Z) : result Z :=
  if address =? 0x1ffff7e0 then Ok 64 else Ok 0.

(* ===================================================================== *)
(** * Further functions of the sources *)
(* ===================================================================== *)

(** [range(start, stop, step)] for a positive step and natural bounds: its
    length is the number of steps that fit, rounded up. *)
Definition py_range (start stop step : nat) : list nat :=
  map (fun k => (start + k * step)%nat)
    (seq 0 ((stop - start + step - 1) / step)).

Definition get_reg_all (self : Stlink) : M (list Z) :=
  let cmd := [CMD.DEBUG.COMMAND; CMD.DEBUG.APIV2.READALLREGS] in
  res <- xfer (_com self) cmd None (Some 88) ;;
  ret (map (fun index => from_bytes_little (slice index (index + 4) res))
         (py_range 4 (length res) 4)).

Definition set_reg (self : Stlink) (register data : Z) : M unit :=
  d <- lift (to_bytes_little 4 data) ;;
  let cmd :=
    [CMD.DEBUG.COMMAND; CMD.DEBUG.APIV2.WRITEREG; register] ++ d in
  xfer (_com self) cmd None (Some 2) ;;; ret tt.

(** The [memory_regions] property of [Stm32]; [MemoryRegions] is the
    constructor of [swd.devices.memory], applied to the value under
    ['memory']. *)
Definition memory_regions {memory regions : Type}
    (MemoryRegions : memory -> regions) (self : Stm32 memory)
    : result regions :=
  if (1 <? length (_mcus self))%nat
  then Err (McuException "Error, more regions found")
  else
    match _mcus self with
    | mcu :: _ => Ok (MemoryRegions (mcu_memory mcu))
    | [] => Err (McuException "Device has not defined memory regions")
    end.

(** [Stm32.load_svd]: [resource_filename] stands for
    [pkg_resources.resource_filename('swd', _)] and [swd_load_svd] for the
    method of the [Swd] object; the value is the list of the files handed to
    [swd_load_svd], which Python does not return. *)
Definition load_svd {memory : Type} (resource_filename : string -> string)
    (swd_load_svd : string -> result unit) (self : Stm32 memory)
    : result (list string) :=
  let svd_files := _mcu_values (_mcus self) svd_file in
  if (size svd_files =? 1)%nat then
    match elements svd_files with
    | x :: _ =>
        let svd_file := resource_filename x in
        match swd_load_svd svd_file with
        | Ok _ => Ok [svd_file]
        | Err e => Err e
        end
    | [] => Err (KeyError "pop from an empty set")
    end
  else if (1 <? size svd_files)%nat
  then Err (McuException "Specify MCU to load SVD file")
  else Ok [].

(* ===================================================================== *)
(** * Vocabulary of the further statements *)
(* ===================================================================== *)

(** The value of a little-endian sequence of integers. *)
Fixpoint le_value (bs : list Z) : Z :=
  match bs with
  | [] => 0
  | b :: rest => b + 256 * le_value rest
  end.

Definition is_u8 (b : Z) : Prop := 0 <= b < 256.

Definition in_u32 (x : Z) : bool := (0 <=? x) && (x <? 2 ^ 32).

Definition zlen (d : list Z) : Z := Z.of_nat (length d).

(** The exchange that the access table gives for a memory operation. *)
Definition mem_frame (op : mem_op) : xfer_call :=
  match op with
  | Get_mem32 a =>
      XferCall ([0xf2; 0x36] ++ le_digits 4 a) None (Some 8)
  | Set_mem32 a d =>
      XferCall ([0xf2; 0x35] ++ le_digits 4 a ++ le_digits 4 d) None (Some 2)
  | Read_mem8 a n =>
      XferCall ([0xf2; 0x0c] ++ le_digits 4 a ++ le_digits 4 n) None (Some n)
  | Write_mem8 a d =>
      XferCall ([0xf2; 0x0d] ++ le_digits 4 a ++ le_digits 4 (zlen d))
        (Some d) None
  | Read_mem16 a n =>
      XferCall ([0xf2; 0x47] ++ le_digits 4 a ++ le_digits 4 n) None (Some n)
  | Write_mem16 a d =>
      XferCall ([0xf2; 0x48] ++ le_digits 4 a ++ le_digits 4 (zlen d))
        (Some d) None
  | Read_mem32 a n =>
      XferCall ([0xf2; 0x07] ++ le_digits 4 a ++ le_digits 4 n) None (Some n)
  | Write_mem32 a d =>
      XferCall ([0xf2; 0x08] ++ le_digits 4 a ++ le_digits 4 (zlen d))
        (Some d) None
  end.

(** The address, and the size or the value, fit 32 bits unsigned. *)
Definition mem_fields_in_range (op : mem_op) : bool :=
  match op with
  | Get_mem32 a => in_u32 a
  | Set_mem32 a d => in_u32 a && in_u32 d
  | Read_mem8 a n | Read_mem16 a n | Read_mem32 a n => in_u32 a && in_u32 n
  | Write_mem8 a d | Write_mem16 a d | Write_mem32 a d =>
      in_u32 a && in_u32 (zlen d)
  end.

Definition is_mem16 (op : mem_op) : bool :=
  match op with
  | Read_mem16 _ _ | Write_mem16 _ _ => true
  | _ => false
  end.

Definition drop_value {A} (r : result A) : result unit :=
  match r with
  | Ok _ => Ok tt
  | Err e => Err e
  end.

Definition GET_CURRENT_MODE_call : xfer_call := XferCall [0xf5] None (Some 2).

Definition ENTER_SWD_call : xfer_call :=
  XferCall [0xf2; 0x30; 0xa3] None (Some 2).

(** The exit command that answers a mode byte, if any. *)
Definition exit_calls (mode : Z) : list xfer_call :=
  if mode =? 0 then [XferCall [0xf3; 0x07] None None]
  else if mode =? 2 then [XferCall [0xf2; 0x21] None None]
  else if mode =? 3 then [XferCall [0xf4; 0x01] None None]
  else [].

Definition READALLREGS_call : xfer_call := XferCall [0xf2; 0x3a] None (Some 88).

(** A probe that answers 88 bytes to every call, the byte at index [k]
    being [k mod 4]. *)
Definition probe_regs : Com :=
  {| com_version := "V2";
     STLINK_MAXIMUM_TRANSFER_SIZE := 1024;
     com_xfer := fun _ _ =>
       Ok (concat (replicate 22 [x00; x01; x02; x03])) |}.

(** A V3 probe that advertises 24000, 8000 and 3300 kHz. *)
Definition probe_v3_three_entries : Com :=
  {| com_version := "V3";
     STLINK_MAXIMUM_TRANSFER_SIZE := 1024;
     com_xfer := fun _ call =>
       if bool_decide (tx call = [0xf2; 0x62; 0])
       then Ok ([x80; x00; x00; x00; x00; x00; x00; x00;
                 x03; x00; x00; x00;
                 xc0; x5d; x00; x00;
                 x40; x1f; x00; x00;
                 xe4; x0c; x00; x00] ++ replicate 28 x00)
       else Ok [x80; x00] |}.


(** A "V2" probe at J37S7 in DEBUG mode: the answer depends on the
    command byte. *)
Definition probe_v2_debug : Com :=
  {| com_version := "V2";
     STLINK_MAXIMUM_TRANSFER_SIZE := 1024;
     com_xfer := fun _ call =>
       match tx call with
       | 0xf1 :: _ => Ok [x29; x47; x83; x04; x48; x37]
       | 0xf5 :: _ => Ok [x02; x00]
       | _ => Ok [x80; x00]
       end |}.

Definition f1_catalog_svd : list (mcu_spec (list region)) :=
  [ {| mcu_name := "STM32F103x8"; dev_id := Some 0x410;
       flash_size_reg := Some 0x1ffff7e0; svd_file := Some "svd/STM32F103.svd";
       mcu_memory := f103_memory 64 |};
    {| mcu_name := "STM32F101x8"; dev_id := Some 0x410;
       flash_size_reg := Some 0x1ffff7e0; svd_file := Some "svd/STM32F101.svd";
       mcu_memory := f103_memory 64 |} ].

(** The version test lets a 16-bit operation through; the other operations
    have none. *)
Definition gate_passes (self : Stlink) (op : mem_op) : bool :=
  if is_mem16 op
  then match mem16_gate self with
       | Ok false => true
       | _ => false
       end
  else true.

(** Everything that a memory operation checks before it calls [xfer]. *)
Definition sendable (self : Stlink) (op : mem_op) : bool :=
  negb (violates_precondition self op) && mem_fields_in_range op
  && gate_passes self op.

Definition WRITEREG_call (register data : Z) : xfer_call :=
  XferCall ([0xf2; 0x34; register] ++ le_digits 4 data) None (Some 2).

(** A computation only appends to the wire log. *)
Definition appends {A} (m : M A) : Prop :=
  forall tr, exists l, snd (m tr) = tr ++ l.

(** The optional frequency step of [Stlink.__init__]. *)
Definition frequency_step (swd_frequency : option Z) (self : Stlink)
    : M unit :=
  match swd_frequency with
  | Some f => if f =? 0 then ret tt else _set_swd_freq self f
  | None => ret tt
  end.

Definition v2j37 : version_dict :=
  {| d_stlink := 2; d_dev := "V2"; d_jtag := Some 37; d_swim := Some 7;
     d_mass := None; d_api := Some 2; d_bridge := None |}.

(** The two first steps of the identification: the catalog entries that
    carry the device id of an IDCODE, and the address of the flash-size
    register, the family's own or the one the candidates agree on. *)
Definition candidates_by_dev_id {memory} (_MCUS : list (mcu_spec memory))
    (idcode : Z) : list (mcu_spec memory) :=
  _select_by_specs _MCUS [(dev_id, Z.land idcode 0xfff)].

Definition flash_size_reg_address {memory} (_FLASH_SIZE_REG : option Z)
    (mcus : list (mcu_spec memory)) : result Z :=
  if truthy _FLASH_SIZE_REG
  then Ok (default 0 _FLASH_SIZE_REG)
  else _mcu_value mcus flash_size_reg.

(** The end of the identification, once the candidates of the right flash
    size are known. *)
Definition identification_result {memory} (_NAME : string)
    (sized : list (mcu_spec memory)) (flash_size : Z)
    (expected_mcus : option (list string)) : result (Stm32 memory) :=
  match expected_mcus with
  | Some (n :: names) =>
      match _select_mcus_by_expected _NAME sized (n :: names) with
      | [] => Err (McuNotMatch (map mcu_name sized) (n :: names))
      | selected => Ok {| _mcus := selected; _flash_size := flash_size |}
      end
  | _ => Ok {| _mcus := sized; _flash_size := flash_size |}
  end.

(** A target of the F1 catalog whose flash-size register reads 256. *)
Definition f1_get_mem16_256 (address : Z) : result Z :=
  if address =? 0x1ffff7e0 then Ok 256 else Ok 0.

(** A target whose device id is in no catalog. *)
Definition unknown_get_mem32 (address : Z) : result Z :=
  if address =? 0xe0042000 then Ok 0x10006999 else Ok 0.

Definition READREG_call (register : Z) : xfer_call :=
  XferCall [0xf2; 0x33; register] None (Some 8).

(* ===================================================================== *)
(** * Properties *)
(* ===================================================================== *)

Lemma u8_range b : 0 <= u8 b < 256.
Proof.
  unfold u8. pose proof (Byte.to_N_bounded b) as H.
  split; [apply N2Z.is_nonneg|]. lia.
Qed.


(** ** Strings and the monad *)

Lemma str_app_cons (x : ascii) (a b : string) :
  String x a +:+ b = String x (a +:+ b).
Proof. reflexivity. Qed.

Lemma str_app_nil (b : string) : "" +:+ b = b.
Proof. reflexivity. Qed.

Lemma str_app_assoc (a b c : string) : (a +:+ b) +:+ c = a +:+ (b +:+ c).
Proof.
  induction a as [|x a IH]; [reflexivity|].
  rewrite !str_app_cons. now rewrite IH.
Qed.

Lemma str_app_length (a b : string) :
  String.length (a +:+ b) = (String.length a + String.length b)%nat.
Proof.
  induction a as [|x a IH]; [reflexivity|].
  rewrite str_app_cons. simpl. now rewrite IH.
Qed.

Lemma str_app_empty_r (a : string) : a +:+ "" = a.
Proof.
  induction a as [|x a IH]; [reflexivity|].
  rewrite str_app_cons. now rewrite IH.
Qed.

Lemma pretty_nonzero (n : Z) : n <> 0 -> pretty n <> "0".
Proof.
  intros Hn Heq. apply Hn.
  apply (inj (pretty : Z -> string)). exact Heq.
Qed.

Ltac run_monad :=
  unfold bind, ret, raise, lift, xfer in *; simpl in *.

(** ** The version string *)

Lemma add_part_component (s letter : string) (x : option Z) :
  add_part s letter x = s +:+ component letter x.
Proof.
  unfold add_part, component, truthy, fmt.
  destruct x as [n|]; [destruct (n =? 0)|]; simpl;
    now rewrite ?str_app_empty_r.
Qed.

Lemma component_not_zero (letter : string) (x : option Z) :
  component letter x <> letter +:+ "0".
Proof.
  unfold component. destruct x as [n|].
  - destruct (Z.eqb_spec n 0) as [->|Hn].
    + intros H. apply (f_equal String.length) in H.
      rewrite str_app_length in H. simpl in H. lia.
    + intros H. apply (inj (String.app letter)) in H.
      now apply (pretty_nonzero n).
  - intros H. apply (f_equal String.length) in H.
    rewrite str_app_length in H. simpl in H. lia.
Qed.

(** C10.  The version string is the header ["ST-Link/<dev> V<major>"]
    followed by the J, S, M and B components, where a component whose value
    is absent or zero contributes nothing: a version with a zero minor has
    the same string as the version without that minor, and no component is
    ever its letter followed by ["0"]. *)
Theorem version_str_omits_zero_components (d : version_dict) :
  _str (StlinkVersion_init d)
    = "ST-Link/" +:+ d_dev d +:+ " V" +:+ pretty (d_stlink d)
      +:+ component "J" (d_jtag d) +:+ component "S" (d_swim d)
      +:+ component "M" (d_mass d) +:+ component "B" (d_bridge d)
  /\ _str (StlinkVersion_init (with_jtag (Some 0) d))
       = _str (StlinkVersion_init (with_jtag None d))
  /\ _str (StlinkVersion_init (with_swim (Some 0) d))
       = _str (StlinkVersion_init (with_swim None d))
  /\ _str (StlinkVersion_init (with_mass (Some 0) d))
       = _str (StlinkVersion_init (with_mass None d))
  /\ _str (StlinkVersion_init (with_bridge (Some 0) d))
       = _str (StlinkVersion_init (with_bridge None d))
  /\ (forall letter x, component letter x <> letter +:+ "0")
  /\ (forall s letter, add_part s letter (Some 0) = s).
Proof.
  repeat split.
  - unfold StlinkVersion_init; simpl.
    rewrite !add_part_component, !str_app_assoc. reflexivity.
  - intros letter x. apply component_not_zero.
Qed.

(** ** The version handshake *)

Lemma from_bytes_big_2 (b0 b1 : byte) (rest : list byte) :
  from_bytes_big (slice 0 2 (b0 :: b1 :: rest)) = u8 b0 * 256 + u8 b1.
Proof. unfold from_bytes_big, slice. simpl. lia. Qed.

(** C6.  The handshake sends [[0xF1, 0x80]] and reads the first two bytes of
    the answer as the big-endian word [ver]; the major is
    [(ver >> 12) & 0xF].  With major 2, [jtag = (ver >> 6) & 0x3F], the API
    level is 1 for [jtag <= 11] and 2 above, and the low six bits are the
    SWIM minor on a "V2" transport and the mass-storage minor on a "V2-1"
    transport.  With major 3 the extended version is asked for and the API
    level is 3. *)
Theorem read_version_decodes (com : Com) (tr : trace)
    (b0 b1 : byte) (rest : list byte) :
  com_xfer com tr GET_VERSION_call = Ok (b0 :: b1 :: rest) ->
  let ver := u8 b0 * 256 + u8 b1 in
  let major := Z.land (Z.shiftr ver 12) 0xf in
  let jtag := Z.land (Z.shiftr ver 6) 0x3f in
  let low := Z.land ver 0x3f in
  (major = 2 ->
     exists v,
       _read_version com tr = (Ok v, tr ++ [GET_VERSION_call])
       /\ _stlink v = 2
       /\ _jtag v = Some jtag
       /\ _api v = Some (if jtag <=? 11 then 1 else 2)
       /\ _bridge v = None
       /\ (com_version com = "V2" -> _swim v = Some low /\ _mass v = None)
       /\ (com_version com = "V2-1" -> _mass v = Some low /\ _swim v = None))
  /\ (major = 3 ->
        forall e0 s j m b tail,
          com_xfer com (tr ++ [GET_VERSION_call]) GET_VERSION_EX_call
            = Ok (e0 :: s :: j :: m :: b :: tail) ->
          exists v,
            _read_version com tr
              = (Ok v, tr ++ [GET_VERSION_call; GET_VERSION_EX_call])
            /\ _stlink v = 3
            /\ _api v = Some 3
            /\ _swim v = Some (u8 s) /\ _jtag v = Some (u8 j)
            /\ _mass v = Some (u8 m) /\ _bridge v = Some (u8 b))
  /\ (major = 3 ->
        forall v tr', _read_version com tr = (Ok v, tr') ->
          _stlink v = 3 /\ _api v = Some 3).
Proof.
  intros Hres ver major jtag low.
  assert (Hver : from_bytes_big (slice 0 2 (b0 :: b1 :: rest)) = ver)
    by apply from_bytes_big_2.
  assert (Hrun : forall k : list byte -> M StlinkVersion,
             bind (xfer com [0xf1; 0x80] None (Some 6)) k tr
             = k (b0 :: b1 :: rest) (tr ++ [GET_VERSION_call])).
  { intros k. unfold bind, xfer. cbv zeta.
    unfold GET_VERSION_call in Hres. now rewrite Hres. }
  unfold _read_version.
  change (CmdBuilder.add_u8 (CmdBuilder.init CMD.GET_VERSION) 128)
    with [0xf1; 0x80].
  rewrite Hrun. cbv zeta. rewrite Hver. fold major jtag low.
  split; [|split].
  - intros Hmajor. rewrite Hmajor. change (2 =? 2) with true. cbv iota.
    destruct (String.eqb_spec (com_version com) "V2") as [HV2|HV2].
    + eexists. split; [reflexivity|]. simpl.
      repeat split; try reflexivity; congruence.
    + destruct (String.eqb_spec (com_version com) "V2-1") as [HV21|HV21].
      * eexists. split; [reflexivity|]. simpl.
        repeat split; try reflexivity; congruence.
      * eexists. split; [reflexivity|]. simpl.
        repeat split; try reflexivity; congruence.
  - intros Hmajor e0 s j m b tail Hex.
    rewrite Hmajor. change (3 =? 2) with false. change (3 =? 3) with true.
    cbv iota.
    unfold bind, xfer, lift, ret, index. cbv zeta.
    change (XferCall [CMD.GET_VERSION_EX; 128] None (Some 16))
      with GET_VERSION_EX_call.
    rewrite Hex. simpl.
    eexists. split; [rewrite <- app_assoc; reflexivity|].
    repeat split; reflexivity.
  - intros Hmajor v tr'.
    rewrite Hmajor. change (3 =? 2) with false. change (3 =? 3) with true.
    cbv iota.
    unfold bind, xfer, lift, ret, index. cbv zeta.
    match goal with
    | |- context [com_xfer com ?t ?c] =>
        destruct (com_xfer com t c) as [ver_ex|e]; simpl; [|discriminate]
    end.
    destruct (ver_ex !! 1%nat); simpl; [|discriminate].
    destruct (ver_ex !! 2%nat); simpl; [|discriminate].
    destruct (ver_ex !! 3%nat); simpl; [|discriminate].
    destruct (ver_ex !! 4%nat); simpl; [|discriminate].
    intros H. injection H as <- _. split; reflexivity.
Qed.

Lemma read_version_decodes_witness :
  com_xfer probe_v2_1 [] GET_VERSION_call
    = Ok [x23; x60; x00; x00; x00; x00]
  /\ exists v,
       _read_version probe_v2_1 [] = (Ok v, [GET_VERSION_call])
       /\ _stlink v = 2 /\ _jtag v = Some 13 /\ _api v = Some 2
       /\ _mass v = Some 32 /\ _swim v = None
       /\ _str v = "ST-Link/V2-1 V2J13M32".
Proof.
  split; [reflexivity|].
  destruct (read_version_decodes probe_v2_1 [] x23 x60 [x00; x00; x00; x00]
              eq_refl) as [Hv2 _].
  destruct (Hv2 eq_refl) as (v & Hrun & Hmajor & Hjtag & Hapi & _ & _ & H21).
  destruct (H21 eq_refl) as [Hmass Hswim].
  exists v. repeat split; try assumption.
  vm_compute in Hrun. injection Hrun as <-. reflexivity.
Defined.

(** ** The IDCODE *)

Lemma from_bytes_little_4 (b0 b1 b2 b3 : byte) :
  from_bytes_little [b0; b1; b2; b3]
  = u8 b0 + 2 ^ 8 * u8 b1 + 2 ^ 16 * u8 b2 + 2 ^ 24 * u8 b3.
Proof. simpl. lia. Qed.

(** C7.  [get_idcode] sends [[0xF2, 0x31]], reads the little-endian word
    held by the bytes 4 to 7 of the answer, raises the "No IDCODE"
    [StlinkException] exactly when that word is 0 and returns the word
    otherwise; whatever the probe answers, a returned IDCODE is not 0. *)
Theorem get_idcode_never_zero (self : Stlink) (tr : trace) :
  (forall res,
     com_xfer (_com self) tr READ_IDCODES_call = Ok res ->
     let idcode := from_bytes_little (slice 4 8 res) in
     get_idcode self tr
     = (if idcode =? 0
        then Err (StlinkException ["No IDCODE, probably MCU is not connected"])
        else Ok idcode,
        tr ++ [READ_IDCODES_call]))
  /\ (forall p0 p1 p2 p3 b4 b5 b6 b7 tail,
        from_bytes_little
          (slice 4 8 (p0 :: p1 :: p2 :: p3 :: b4 :: b5 :: b6 :: b7 :: tail))
        = u8 b4 + 2 ^ 8 * u8 b5 + 2 ^ 16 * u8 b6 + 2 ^ 24 * u8 b7)
  /\ (forall idcode tr', get_idcode self tr = (Ok idcode, tr') -> idcode <> 0).
Proof.
  split; [|split].
  - intros res Hres idcode. unfold get_idcode, bind, xfer. cbv zeta.
    change (XferCall [CMD.DEBUG.COMMAND; CMD.DEBUG.APIV2.READ_IDCODES]
              None (Some 12)) with READ_IDCODES_call.
    rewrite Hres. fold idcode. now destruct (idcode =? 0).
  - intros. unfold slice. simpl. lia.
  - intros idcode tr'. unfold get_idcode, bind, xfer. cbv zeta.
    match goal with
    | |- context [com_xfer ?c ?t ?x] =>
        destruct (com_xfer c t x) as [res|e]; [|discriminate]
    end.
    destruct (Z.eqb_spec (from_bytes_little (slice 4 8 res)) 0) as [H0|H0].
    + discriminate.
    + unfold ret. intros H. injection H as <- _. exact H0.
Qed.

Lemma get_idcode_never_zero_witness :
  get_idcode (session probe_idcode v2j28) []
    = (Ok 0x0BB11477, [READ_IDCODES_call])
  /\ 0x0BB11477 <> 0.
Proof.
  assert (Hrun : get_idcode (session probe_idcode v2j28) []
                 = (Ok 0x0BB11477, [READ_IDCODES_call])) by reflexivity.
  split; [exact Hrun|].
  destruct (get_idcode_never_zero (session probe_idcode v2j28) [])
    as (_ & _ & Hnz).
  exact (Hnz _ _ Hrun).
Defined.

(** ** SWD frequency on a V2 probe *)

Lemma set_swd_freq_v2_rows_find (self : Stlink) (swd_frequency : Z)
    (rows : list (Z * Z)) (tr : trace) :
  _set_swd_freq_v2_rows self swd_frequency rows tr
  = match first_row_at_most swd_frequency rows with
    | None =>
        (Err (StlinkException ["Selected SWD frequency is too low"]), tr)
    | Some (_, opcode) =>
        (set_freq_outcome (com_xfer (_com self) tr (SWD_SET_FREQ_call opcode)),
         tr ++ [SWD_SET_FREQ_call opcode])
    end.
Proof.
  induction rows as [|[freq opcode] rows IH]; [reflexivity|].
  unfold first_row_at_most in *. simpl. rewrite Z.geb_leb.
  destruct (freq <=? swd_frequency); [|exact IH].
  unfold bind, xfer, lift, index, raise, ret. cbv zeta.
  change (XferCall [CMD.DEBUG.COMMAND; CMD.DEBUG.APIV2.SWD_SET_FREQ; opcode]
            None (Some 2)) with (SWD_SET_FREQ_call opcode).
  destruct (com_xfer (_com self) tr (SWD_SET_FREQ_call opcode))
    as [[|status tail]|e]; simpl; try reflexivity.
  now destruct (u8 status =? 128).
Qed.

Lemma _SWD_FREQ_descending :
  StronglySorted (fun a b : Z * Z => fst b < fst a) _SWD_FREQ.
Proof.
  unfold _SWD_FREQ. repeat constructor; simpl; lia.
Qed.

(** C5.  On a V2 probe: with [jtag < 22] the request fails with
    [OutdatedStlinkFirmware(version, "J22")] and nothing is sent.  Otherwise
    the first row of the table, which is in descending order, whose
    frequency is at most the request is taken, [[0xF2, 0x43, opcode]] is
    sent for a two-byte answer, and the call succeeds when the first byte
    of the answer is [0x80] and fails with "Error switching SWD frequency"
    when it is not; with no such row it fails with "Selected SWD frequency
    is too low" and nothing is sent.  A request of 1 MHz takes the row
    (950000, 3). *)
Theorem set_swd_freq_v2_first_row (self : Stlink) (swd_frequency jtag : Z)
    (tr : trace) :
  _jtag (_version self) = Some jtag ->
  (jtag < 22 ->
     _set_swd_freq_v2 self swd_frequency tr
     = (Err (OutdatedStlinkFirmware (_str (_version self)) "J22"), tr))
  /\ (22 <= jtag ->
        match first_row_at_most swd_frequency _SWD_FREQ with
        | None =>
            _set_swd_freq_v2 self swd_frequency tr
            = (Err (StlinkException ["Selected SWD frequency is too low"]),
               tr)
        | Some (hz, opcode) =>
            In (hz, opcode) _SWD_FREQ /\ hz <= swd_frequency
            /\ (forall hz' opcode',
                  In (hz', opcode') _SWD_FREQ -> hz' <= swd_frequency ->
                  hz' <= hz)
            /\ forall status tail,
                 com_xfer (_com self) tr (SWD_SET_FREQ_call opcode)
                   = Ok (status :: tail) ->
                 _set_swd_freq_v2 self swd_frequency tr
                 = (if u8 status =? 0x80 then Ok tt
                    else Err (StlinkException
                                ["Error switching SWD frequency"]),
                    tr ++ [SWD_SET_FREQ_call opcode])
        end)
  /\ StronglySorted (fun a b : Z * Z => fst b < fst a) _SWD_FREQ
  /\ first_row_at_most 1000000 _SWD_FREQ = Some (950000, 3)
  /\ first_row_at_most 10000 _SWD_FREQ = None.
Proof.
  intros Hjtag.
  assert (Hrun : _set_swd_freq_v2 self swd_frequency tr
                 = if jtag <? 22
                   then (Err (OutdatedStlinkFirmware (_str (_version self))
                                "J22"), tr)
                   else _set_swd_freq_v2_rows self swd_frequency _SWD_FREQ tr).
  { unfold _set_swd_freq_v2, bind, lift, py_lt, raise. rewrite Hjtag.
    now destruct (jtag <? 22). }
  split; [|split; [|split; [|split]]].
  - intros Hlt. rewrite Hrun.
    now destruct (Z.ltb_spec jtag 22) as [_|Hge]; [|lia].
  - intros Hge. rewrite Hrun.
    destruct (Z.ltb_spec jtag 22) as [Hlt|_]; [lia|].
    rewrite set_swd_freq_v2_rows_find.
    destruct (first_row_at_most swd_frequency _SWD_FREQ)
      as [[hz opcode]|] eqn:Hfind; [|reflexivity].
    unfold first_row_at_most in Hfind.
    pose proof (find_some _ _ Hfind) as [Hin Hle]. simpl in Hle.
    apply Z.leb_le in Hle.
    split; [exact Hin|]. split; [exact Hle|]. split.
    + intros hz' opcode' Hin' Hle'.
      revert Hfind Hin'. generalize _SWD_FREQ_descending.
      generalize _SWD_FREQ as rows.
      induction rows as [|[f o] rows IH]; intros Hsorted Hfind Hin';
        [destruct Hin'|].
      apply StronglySorted_inv in Hsorted as [Hsorted Hall].
      simpl in Hfind.
      destruct (Z.leb_spec f swd_frequency) as [Hf|Hf].
      * injection Hfind as -> ->.
        destruct Hin' as [Heq|Hin']; [injection Heq as -> _; lia|].
        rewrite Forall_forall in Hall.
        specialize (Hall _ (proj2 (list_elem_of_In _ _) Hin')).
        simpl in Hall. lia.
      * destruct Hin' as [Heq|Hin']; [injection Heq as -> _; lia|].
        now apply IH.
    + intros status tail Hans. rewrite Hans. reflexivity.
  - exact _SWD_FREQ_descending.
  - reflexivity.
  - reflexivity.
Qed.

Lemma set_swd_freq_v2_first_row_witness :
  (_jtag (_version (session probe_ack v2j22)) = Some 22
   /\ _set_swd_freq_v2 (session probe_ack v2j22) 1000000 []
      = (Ok tt, [SWD_SET_FREQ_call 3]))
  /\ (_jtag (_version (session probe_ack v2j21)) = Some 21
      /\ _set_swd_freq_v2 (session probe_ack v2j21) 1000000 []
         = (Err (OutdatedStlinkFirmware "ST-Link/V2 V2J21S4" "J22"), [])).
Proof.
  split; (split; [reflexivity|]).
  - destruct (set_swd_freq_v2_first_row (session probe_ack v2j22)
                1000000 22 [] eq_refl) as (_ & Hsel & _).
    assert (Hge : 22 <= 22) by lia.
    specialize (Hsel Hge).
    change (first_row_at_most 1000000 _SWD_FREQ)
      with (Some (950000, 3)) in Hsel.
    cbv beta iota in Hsel.
    destruct Hsel as (_ & _ & _ & Hrun).
    exact (Hrun x80 [x00] eq_refl).
  - destruct (set_swd_freq_v2_first_row (session probe_ack v2j21)
                1000000 21 [] eq_refl) as (Hold & _).
    assert (Hlt : 21 < 22) by lia.
    exact (Hold Hlt).
Defined.

(** ** Preconditions of the memory operations *)

Lemma mem16_gate_cases (self : Stlink) :
  mem16_gate self = Err TypeError
  \/ mem16_gate self = Ok (firmware_gate_fails self).
Proof.
  unfold mem16_gate, firmware_gate_fails, py_le, py_lt.
  destruct (_api (_version self)) as [api|]; [|now left].
  destruct (api <=? 2); [|right; now destruct (_jtag (_version self))].
  destruct (_jtag (_version self)) as [jtag|]; [now right | now left].
Qed.

Ltac first_test :=
  match goal with
  | |- context [if ?c then _ else _] => destruct c eqn:?
  end.

(** C4.  When an argument of a memory operation violates a precondition of
    the access table (alignment, size cap, firmware gate), the operation
    ends with an exception and the wire log is what it was: the transport
    has not been called.  The exception is a [StlinkException], unless the
    version test of a 16-bit operation itself cannot be evaluated. *)
Theorem precondition_failure_sends_nothing (self : Stlink) (op : mem_op)
    (tr : trace) :
  violates_precondition self op = true ->
  exists e,
    run_mem_op self op tr = (Err e, tr)
    /\ (is_StlinkException e = true \/ mem16_gate self = Err e).
Proof.
  unfold violates_precondition, misaligned.
  destruct op as [a|a d|a n|a d|a n|a d|a n|a d]; intros Hv; simpl.
  - unfold get_mem32, bind, raise. rewrite Hv. eexists; split; eauto.
  - unfold set_mem32, bind, raise. rewrite Hv. eexists; split; eauto.
  - unfold read_mem8, bind, raise, maximum_8bit_data,
      _STLINK_MAXIMUM_8BIT_DATA.
    rewrite Z.gtb_ltb, Hv. eexists; split; eauto.
  - unfold write_mem8, bind, raise, maximum_8bit_data,
      _STLINK_MAXIMUM_8BIT_DATA.
    rewrite Z.gtb_ltb, Hv. eexists; split; eauto.
  - unfold read_mem16, bind, lift, raise, maximum_16bit_data.
    rewrite Z.gtb_ltb.
    destruct (mem16_gate_cases self) as [Hg|Hg]; rewrite Hg.
    { eexists; split; eauto. }
    repeat (first_test; [eexists; split; eauto|]).
    rewrite !orb_false_r in Hv. discriminate.
  - unfold write_mem16, bind, lift, raise, maximum_16bit_data.
    rewrite Z.gtb_ltb.
    destruct (mem16_gate_cases self) as [Hg|Hg]; rewrite Hg.
    { eexists; split; eauto. }
    repeat (first_test; [eexists; split; eauto|]).
    rewrite !orb_false_r in Hv. discriminate.
  - unfold read_mem32, bind, raise, maximum_32bit_data.
    rewrite Z.gtb_ltb.
    repeat (first_test; [eexists; split; eauto|]).
    rewrite !orb_false_r in Hv. discriminate.
  - unfold write_mem32, bind, raise, maximum_32bit_data.
    rewrite Z.gtb_ltb.
    repeat (first_test; [eexists; split; eauto|]).
    rewrite !orb_false_r in Hv. discriminate.
Qed.

(** On a version that the handshake produced for a V2 or a V3 probe, the
    version test of the code fails exactly when the precondition of the
    access table does not hold. *)
Lemma firmware_gate_of_handshake (com : Com) (tr tr' : trace)
    (v : StlinkVersion) :
  _read_version com tr = (Ok v, tr') ->
  _stlink v = 2 \/ _stlink v = 3 ->
  firmware_gate_fails {| _com := com; _version := v |}
  = negb (mem16_table_precondition v).
Proof.
  unfold _read_version, bind, xfer, lift, ret, index. cbv zeta.
  match goal with
  | |- context [com_xfer com ?t ?c] =>
      destruct (com_xfer com t c) as [res|e]; [|discriminate]
  end.
  set (ver := from_bytes_big (slice 0 2 res)).
  set (jtag := Z.land (Z.shiftr ver 6) 63).
  destruct (Z.eqb_spec (Z.land (Z.shiftr ver 12) 15) 2) as [H2|H2].
  - assert (Hgate : forall swim mass,
              firmware_gate_fails
                {| _com := com;
                   _version := StlinkVersion_init
                     {| d_stlink := Z.land (Z.shiftr ver 12) 15;
                        d_dev := com_version com; d_jtag := Some jtag;
                        d_swim := swim; d_mass := mass;
                        d_api := Some (if jtag <=? 11 then 1 else 2);
                        d_bridge := None |} |}
              = negb (mem16_table_precondition
                        (StlinkVersion_init
                           {| d_stlink := Z.land (Z.shiftr ver 12) 15;
                              d_dev := com_version com; d_jtag := Some jtag;
                              d_swim := swim; d_mass := mass;
                              d_api := Some (if jtag <=? 11 then 1 else 2);
                              d_bridge := None |}))).
    { intros swim mass.
      unfold firmware_gate_fails, mem16_table_precondition. simpl.
      rewrite H2.
      destruct (Z.leb_spec jtag 11), (Z.ltb_spec jtag 29),
        (Z.leb_spec 29 jtag); simpl; try reflexivity; lia. }
    destruct (com_version com =? "V2")%string;
      [|destruct (com_version com =? "V2-1")%string];
      intros H _; injection H as <- _; apply Hgate.
  - destruct (Z.eqb_spec (Z.land (Z.shiftr ver 12) 15) 3) as [H3|H3].
    + match goal with
      | |- context [com_xfer com ?t ?c] =>
          destruct (com_xfer com t c) as [ver_ex|e]; simpl; [|discriminate]
      end.
      destruct (ver_ex !! 1%nat); simpl; [|discriminate].
      destruct (ver_ex !! 2%nat); simpl; [|discriminate].
      destruct (ver_ex !! 3%nat); simpl; [|discriminate].
      destruct (ver_ex !! 4%nat); simpl; [|discriminate].
      intros H _. injection H as <- _.
      unfold firmware_gate_fails, mem16_table_precondition. simpl.
      rewrite H3. reflexivity.
    + intros H [Hm|Hm]; injection H as <- _; simpl in Hm; congruence.
Qed.

Lemma precondition_failure_sends_nothing_witness :
  violates_precondition (session probe_ack v2j22) (Read_mem32 2 4) = true
  /\ exists e,
       run_mem_op (session probe_ack v2j22) (Read_mem32 2 4) [] = (Err e, [])
       /\ (is_StlinkException e = true
           \/ mem16_gate (session probe_ack v2j22) = Err e).
Proof.
  split; [reflexivity|].
  apply (precondition_failure_sends_nothing
           (session probe_ack v2j22) (Read_mem32 2 4) []).
  reflexivity.
Defined.

(** The boundary of the 8-bit cap: 64 bytes go out, 65 do not. *)
Example read_mem8_boundary :
  snd (read_mem8 (session probe_ack v2j22) 0x20000000 64 [])
    = [XferCall [0xf2; 0x0c; 0; 0; 0; 0x20; 64; 0; 0; 0] None (Some 64)]
  /\ read_mem8 (session probe_ack v2j22) 0x20000000 65 []
     = (Err (StlinkException
               ["Too many Bytes to read (maximum is 64 Bytes)"]), []).
Proof. split; reflexivity. Qed.

(** ** The version gate of the 16-bit operations *)

Lemma mem16_gate_old (self : Stlink) (api jtag : Z) :
  _api (_version self) = Some api -> _jtag (_version self) = Some jtag ->
  api <= 2 -> jtag < 29 ->
  mem16_gate self = Ok true.
Proof.
  intros Ha Hj Hapi Hjtag. unfold mem16_gate, py_le, py_lt.
  rewrite Ha, Hj.
  destruct (Z.leb_spec api 2); [|lia].
  now destruct (Z.ltb_spec jtag 29); [|lia].
Qed.

(** With [api <= 2] and [jtag < 29] both 16-bit operations stop before any
    exchange, and what they raise is the base class built from two
    arguments, the version string and ["J29"]. *)
Lemma mem16_old_firmware (self : Stlink) (api jtag : Z) (address size : Z)
    (data : list Z) (tr : trace) :
  _api (_version self) = Some api -> _jtag (_version self) = Some jtag ->
  api <= 2 -> jtag < 29 ->
  read_mem16 self address size tr
    = (Err (StlinkException [_str (_version self); "J29"]), tr)
  /\ write_mem16 self address data tr
     = (Err (StlinkException [_str (_version self); "J29"]), tr).
Proof.
  intros Ha Hj Hapi Hjtag.
  unfold read_mem16, write_mem16, bind, lift, raise.
  rewrite (mem16_gate_old self api jtag Ha Hj Hapi Hjtag).
  split; reflexivity.
Qed.

(** C2.  A probe at version V2J28S7 (API 2, JTAG 28) asked for a 16-bit read
    or write: nothing is sent, and the exception is
    [StlinkException(version, "J29")], which is not an instance of
    [OutdatedStlinkFirmware]; the version gate of the frequency setting, on
    a probe at J21, does raise [OutdatedStlinkFirmware(version, "J22")]. *)
Theorem mem16_gate_raises_base_exception :
  read_mem16 (session probe_ack v2j28) 0x20000000 2 []
    = (Err (StlinkException ["ST-Link/V2 V2J28S7"; "J29"]), [])
  /\ write_mem16 (session probe_ack v2j28) 0x20000000 [0; 0] []
     = (Err (StlinkException ["ST-Link/V2 V2J28S7"; "J29"]), [])
  /\ is_OutdatedStlinkFirmware
       (StlinkException ["ST-Link/V2 V2J28S7"; "J29"]) = false
  /\ StlinkException ["ST-Link/V2 V2J28S7"; "J29"]
     <> OutdatedStlinkFirmware "ST-Link/V2 V2J28S7" "J29"
  /\ _set_swd_freq_v2 (session probe_ack v2j21) 1000000 []
     = (Err (OutdatedStlinkFirmware "ST-Link/V2 V2J21S4" "J22"), []).
Proof.
  destruct (mem16_old_firmware (session probe_ack v2j28) 2 28
              0x20000000 2 [0; 0] [] eq_refl eq_refl) as [Hr Hw]; [lia..|].
  repeat split; try assumption; try reflexivity. discriminate.
Qed.

(** ** SWD frequency on a V3 probe *)

Lemma entry_khz_read_low_24 (res : list byte) (i : nat) :
  (16 + 4 * i <= length res)%nat ->
  entry_khz_read res i = entry_khz_u32 res i mod 2 ^ 24.
Proof.
  intros Hlen. unfold entry_khz_read, entry_khz_u32, slice.
  replace (15 + 4 * i - (12 + 4 * i))%nat with 3%nat by lia.
  replace (16 + 4 * i - (12 + 4 * i))%nat with 4%nat by lia.
  assert (Hd : (4 <= length (drop (12 + 4 * i) res))%nat)
    by (rewrite length_drop; lia).
  destruct (drop (12 + 4 * i) res) as [|a [|b [|c [|d l]]]];
    simpl in Hd; try lia.
  simpl.
  pose proof (u8_range a). pose proof (u8_range b).
  pose proof (u8_range c). pose proof (u8_range d).
  replace (u8 a + 256 * (u8 b + 256 * (u8 c + 256 * (u8 d + 256 * 0))))
    with (u8 a + 256 * u8 b + 65536 * u8 c + u8 d * 2 ^ 24) by lia.
  rewrite Z.mod_add by lia. rewrite Z.mod_small; lia.
Qed.

(** C1.  The probe advertises the single entry [00 00 00 01], that is
    16777216 kHz as a 32-bit little-endian value, and 1 MHz is requested:
    1000 kHz is below the entry, so no entry qualifies.  The loop reads only
    three bytes of the entry, takes it for 0 kHz, selects it and sends
    [SET_COM_FREQ] with 0 kHz instead of failing with "Requested SWD
    frequency is too low". *)
Theorem set_swd_freq_v3_reads_three_bytes :
  let self := session probe_v3_one_entry v3j5 in
  exists res count,
    com_xfer probe_v3_one_entry [] GET_COM_FREQ_call = Ok res
    /\ length res = 52%nat
    /\ res !! 8%nat = Some count /\ u8 count = 1
    /\ entry_khz_u32 res 0 = 16777216
    /\ (1000000 / 1000 >=? entry_khz_u32 res 0) = false
    /\ entry_khz_read res 0 = 0
    /\ _set_swd_freq_v3_scan res 1000000 (Z.to_nat (u8 count)) 0 0
       = (0%nat, 0)
    /\ _set_swd_freq_v3 self 1000000 []
       = (Ok tt, [GET_COM_FREQ_call; SET_COM_FREQ_call [0; 0; 0; 0]]).
Proof.
  eexists. eexists. split; [reflexivity|].
  repeat split; vm_compute; reflexivity.
Qed.

(* ===================================================================== *)
(** ** Identification: canonical names *)
(* ===================================================================== *)

Lemma str_set_length (i : nat) (c : ascii) (s : string) :
  String.length (str_set i c s) = String.length s.
Proof.
  revert i. induction s as [|d s IH]; intros [|i]; simpl; auto.
Qed.

Lemma str_set_get_other (i j : nat) (c : ascii) (s : string) :
  i <> j -> String.get j (str_set i c s) = String.get j s.
Proof.
  revert i j. induction s as [|d s IH]; intros [|i] [|j] Hne; simpl; auto;
    try congruence.
Qed.

Lemma str_set_get_same (i : nat) (c : ascii) (s : string) :
  (i < String.length s)%nat -> String.get i (str_set i c s) = Some c.
Proof.
  revert i. induction s as [|d s IH]; intros [|i] Hlt; simpl in *;
    try lia; auto.
  apply IH. lia.
Qed.

Lemma fix_mcu_names_fold (_NAME : string) (mcu_names : list string)
    (acc : gset string) (s : string) :
  s ∈ fold_left (_fix_mcu_names_step _NAME) mcu_names acc
  <-> s ∈ acc
      \/ exists n, In n mcu_names /\ matches_family _NAME n = true
                   /\ s = _fix_mcu_name n.
Proof.
  revert acc. induction mcu_names as [|m names IH]; intros acc; simpl.
  - split; [now left | intros [H|(n & [] & _)]; exact H].
  - rewrite IH. unfold _fix_mcu_names_step. fold (matches_family _NAME m).
    destruct (matches_family _NAME m) eqn:Hm.
    + rewrite elem_of_union, elem_of_singleton. split.
      * intros [[H|H]|(n & Hin & Hn & Hs)]; [now left | right | right].
        -- exists m. auto.
        -- exists n. auto.
      * intros [H|(n & [Heq|Hin] & Hn & Hs)]; [now left; left | |].
        -- subst n. left; right. exact Hs.
        -- right. exists n. auto.
    + split.
      * intros [H|(n & Hin & Hn & Hs)]; [now left | right].
        exists n. auto.
      * intros [H|(n & [Heq|Hin] & Hn & Hs)]; [now left | |].
        -- subst n. congruence.
        -- right. exists n. auto.
Qed.

Lemma canonical_names_spec (_NAME : string) (mcu_names : list string)
    (s : string) :
  s ∈ canonical_names _NAME mcu_names
  <-> exists n, In n mcu_names /\ matches_family _NAME n = true
                /\ s = _fix_mcu_name n.
Proof.
  unfold canonical_names, _fix_mcu_names.
  destruct mcu_names as [|m names].
  - simpl. split; [intros H; now apply not_elem_of_empty in H|].
    intros (n & [] & _).
  - change (s ∈ fold_left (_fix_mcu_names_step _NAME) (m :: names) ∅
            <-> exists n, In n (m :: names)
                          /\ matches_family _NAME n = true
                          /\ s = _fix_mcu_name n).
    rewrite fix_mcu_names_fold. split.
    + intros [H|H]; [now apply not_elem_of_empty in H | exact H].
    + intros H. now right.
Qed.

Lemma select_mcus_by_expected_filter {memory} (_NAME : string)
    (mcus : list (mcu_spec memory)) (expected_mcus : list string) :
  _select_mcus_by_expected _NAME mcus expected_mcus
  = List.filter
      (fun mcu =>
         existsb (fun name => startswith (mcu_name mcu) name)
           (elements (canonical_names _NAME expected_mcus)))
      mcus.
Proof.
  unfold _select_mcus_by_expected, canonical_names.
  destruct (_fix_mcu_names _NAME expected_mcus) as [names|];
    unfold default, from_option, id.
  - unfold _is_expected_mcu. destruct (bool_decide_reflect (names = ∅)) as [->|Hne].
    + rewrite elements_empty. simpl.
      induction mcus as [|m mcus IH]; simpl; auto.
    + reflexivity.
  - rewrite elements_empty. simpl.
    induction mcus as [|m mcus IH]; simpl; auto.
Qed.

(** C3, as first stated, does not hold: the canonical form of
    ["STM32F103C8"] is ["STM32F103x8"], the character at index 10 stays, and
    ["STM32F103xx"] is not among the canonical names. *)
Lemma canonical_name_keeps_index_10 :
  elements (canonical_names "STM32" ["STM32F103C8"]) = ["STM32F103x8"]
  /\ _fix_mcu_names "STM32" ["STM32F103C8"] <> Some {[ "STM32F103xx" ]}
  /\ ~ "STM32F103xx" ∈ canonical_names "STM32" ["STM32F103C8"].
Proof.
  assert (He : elements (canonical_names "STM32" ["STM32F103C8"])
               = ["STM32F103x8"]) by (vm_compute; reflexivity).
  split; [exact He|]. split.
  - intros H.
    assert (H' : elements (canonical_names "STM32" ["STM32F103C8"])
                 = elements ({[ "STM32F103xx" ]} : gset string))
      by (unfold canonical_names; now rewrite H).
    rewrite He, elements_singleton in H'. discriminate.
  - rewrite <- elem_of_elements, He, list_elem_of_singleton. discriminate.
Qed.

(** C3, amended.  For expected names that are upper-case already: a name
    is kept when it starts with the family name cut to its length; its
    canonical form is the name with the character at index 9 replaced by
    ['x'] when it has more than 9 characters, every other character and the
    length unchanged, so ["STM32F103C8"] becomes ["STM32F103x8"]; and the
    candidates kept are, in their order, exactly those whose [mcu_name]
    starts with some canonical name. *)
Theorem expected_names_canonical {memory} (_NAME : string)
    (expected_mcus : list string) (mcus : list (mcu_spec memory)) :
  (forall n, In n expected_mcus -> upper n = n) ->
  (forall s,
     s ∈ canonical_names _NAME expected_mcus
     <-> exists n, In n expected_mcus
                   /\ startswith (upper n)
                        (str_take (String.length (upper n)) _NAME) = true
                   /\ s = _fix_mcu_name (upper n))
  /\ (forall n,
        String.length (_fix_mcu_name n) = String.length n
        /\ (forall i, i <> 9%nat ->
              String.get i (_fix_mcu_name n) = String.get i n)
        /\ ((9 < String.length n)%nat ->
              String.get 9 (_fix_mcu_name n) = Some "x"%char))
  /\ _select_mcus_by_expected _NAME mcus expected_mcus
     = List.filter
         (fun mcu =>
            existsb (fun name => startswith (mcu_name mcu) name)
              (elements (canonical_names _NAME expected_mcus)))
         mcus
  /\ (forall mcu,
        In mcu (_select_mcus_by_expected _NAME mcus expected_mcus)
        <-> In mcu mcus
            /\ exists s, s ∈ canonical_names _NAME expected_mcus
                         /\ startswith (mcu_name mcu) s = true)
  /\ _fix_mcu_name (upper "STM32F103C8") = "STM32F103x8".
Proof.
  intros Hupper. split; [|split; [|split; [|split]]].
  - intros s. rewrite canonical_names_spec. unfold matches_family.
    split; intros (n & Hin & Hm & Hs); exists n;
      rewrite (Hupper n Hin) in *; auto.
  - intros n. unfold _fix_mcu_name.
    destruct (Nat.ltb_spec 9 (String.length n)) as [Hlt|Hge].
    + split; [apply str_set_length|]. split.
      * intros i Hi. apply str_set_get_other. congruence.
      * intros _. now apply str_set_get_same.
    + split; [reflexivity|]. split; [reflexivity | lia].
  - apply select_mcus_by_expected_filter.
  - intros mcu. rewrite select_mcus_by_expected_filter, filter_In, existsb_exists.
    split; intros [Hin (s & Hs & Hp)]; (split; [exact Hin|]); exists s.
    + split; [|exact Hp].
      apply elem_of_elements, list_elem_of_In. exact Hs.
    + split; [|exact Hp].
      apply list_elem_of_In, elem_of_elements. exact Hs.
  - reflexivity.
Qed.

Lemma expected_names_canonical_witness :
  (forall n, In n ["STM32F103C8"] -> upper n = n)
  /\ _select_mcus_by_expected "STM32" [stm32f103x8; stm32f103xB]
       ["STM32F103C8"]
     = [stm32f103x8].
Proof.
  assert (Hupper : forall n, In n ["STM32F103C8"] -> upper n = n).
  { intros n [<-|[]]. reflexivity. }
  split; [exact Hupper|].
  destruct (expected_names_canonical "STM32" ["STM32F103C8"]
              [stm32f103x8; stm32f103xB] Hupper) as (_ & _ & Hsel & _).
  rewrite Hsel. vm_compute. reflexivity.
Defined.

(** A lower-case name passes the family test on its upper-cased form, and
    what enters the set is made from the name as the caller wrote it. *)
Example fix_mcu_names_lower_case :
  elements (canonical_names "STM32" ["stm32f103c8"]) = ["stm32f103x8"].
Proof. vm_compute. reflexivity. Qed.

(* ===================================================================== *)
(** ** Identification: the flash size and the common value *)
(* ===================================================================== *)

Lemma select_by_specs_one {memory} (specs : list (mcu_spec memory))
    (key : mcu_spec memory -> option Z) (value : Z) (mcu : mcu_spec memory) :
  In mcu (_select_by_specs specs [(key, value)])
  <-> In mcu specs /\ key mcu = Some value.
Proof.
  unfold _select_by_specs. rewrite in_flat_map. simpl. split.
  - intros (spec & Hin & Hm).
    destruct (bool_decide_reflect (key spec = Some value)) as [Hk|Hk];
      simpl in Hm; [|destruct Hm].
    destruct Hm as [<-|[]]. auto.
  - intros [Hin Hk]. exists mcu. split; [exact Hin|].
    rewrite bool_decide_eq_true_2 by exact Hk. now left.
Qed.

Lemma selet_mcus_by_flash_size_In {memory} (get_size : memory -> string -> Z)
    (mcus : list (mcu_spec memory)) (flash_size : Z) (mcu : mcu_spec memory) :
  In mcu (_selet_mcus_by_flash_size get_size mcus flash_size)
  <-> In mcu mcus /\ get_size (mcu_memory mcu) "FLASH" = flash_size.
Proof.
  unfold _selet_mcus_by_flash_size. rewrite filter_In, Z.eqb_eq.
  split; intros [H1 H2]; auto.
Qed.

Lemma mcu_values_elem {memory V} `{Countable V}
    (mcus : list (mcu_spec memory)) (key : mcu_spec memory -> option V)
    (x : V) :
  x ∈ _mcu_values mcus key <-> exists m, In m mcus /\ key m = Some x.
Proof.
  unfold _mcu_values. rewrite elem_of_list_to_set, list_elem_of_omap.
  split; intros (m & Hin & Hk); exists m; split; auto;
    now apply list_elem_of_In.
Qed.

Lemma gset_two_distinct {V} `{Countable V} (X : gset V) :
  (1 < size X)%nat <-> exists x y, x ∈ X /\ y ∈ X /\ x <> y.
Proof.
  split.
  - unfold size, set_size. simpl.
    pose proof (NoDup_elements X) as Hnd.
    assert (Hel : forall x, x ∈ elements X -> x ∈ X)
      by (intros x; apply elem_of_elements).
    destruct (elements X) as [|a [|b l]]; simpl; try lia.
    intros _. exists a, b. split; [|split].
    + apply Hel. left.
    + apply Hel. right. left.
    + intros ->. apply NoDup_cons in Hnd as [Hn _]. apply Hn. left.
  - intros (x & y & Hx & Hy & Hne).
    destruct (size X) as [|[|n]] eqn:Hs; [| |lia].
    + apply size_empty_inv in Hs. apply Hs in Hx.
      now apply not_elem_of_empty in Hx.
    + destruct Hne. now apply (size_singleton_inv X).
Qed.

Lemma mcu_value_ok {memory V} `{Countable V}
    (mcus : list (mcu_spec memory)) (key : mcu_spec memory -> option V)
    (x : V) :
  _mcu_value mcus key = Ok x ->
  (exists m, In m mcus /\ key m = Some x)
  /\ forall m y, In m mcus -> key m = Some y -> y = x.
Proof.
  unfold _mcu_value. cbv zeta.
  set (values := _mcu_values mcus key).
  assert (Hel : forall v, v ∈ values
                <-> exists m, In m mcus /\ key m = Some v)
    by (intros v; apply mcu_values_elem).
  destruct (Nat.ltb_spec 1 (size values)) as [Hmany|Hfew]; [discriminate|].
  assert (Hels : forall v, v ∈ elements values <-> v ∈ values)
    by (intros v; apply elem_of_elements).
  destruct (elements values) as [|v l] eqn:He; [discriminate|].
  intros Hx. injection Hx as <-.
  assert (Hv : v ∈ values) by (apply Hels; left).
  split; [now apply Hel|].
  intros m y Hm Hk.
  destruct (decide (y = v)) as [|Hne]; [assumption|].
  exfalso. apply (proj1 (Nat.le_ngt _ _) Hfew).
  apply gset_two_distinct. exists y, v.
  split; [apply Hel; eauto|]. split; [exact Hv | exact Hne].
Qed.

(** C8.  When the identification succeeds, its flash size is the value read
    from the flash-size register multiplied by 1024, and every candidate
    that remains, an entry of the catalog with the device id read, has a
    FLASH region of exactly that size.  The register read is the family's
    own when the family names one, and otherwise the one that the entries
    with the device id read carry, all of them the same. *)
Theorem identified_flash_size {memory} (get_size : memory -> string -> Z)
    (swd_get_mem32 swd_get_mem16 : Z -> result Z) (_NAME : string)
    (_IDCODE_REG : Z) (_FLASH_SIZE_REG : option Z)
    (_MCUS : list (mcu_spec memory)) (expected_mcus : option (list string))
    (self : Stm32 memory) :
  Stm32_init get_size swd_get_mem32 swd_get_mem16 _NAME _IDCODE_REG
    _FLASH_SIZE_REG _MCUS expected_mcus = Ok self ->
  exists idcode address raw,
    swd_get_mem32 _IDCODE_REG = Ok idcode
    /\ flash_size_reg_address _FLASH_SIZE_REG
         (candidates_by_dev_id _MCUS idcode) = Ok address
    /\ (forall a, _FLASH_SIZE_REG = Some a -> a <> 0 -> address = a)
    /\ (truthy _FLASH_SIZE_REG = false ->
          (exists mcu,
             In mcu _MCUS /\ dev_id mcu = Some (Z.land idcode 0xfff)
             /\ flash_size_reg mcu = Some address)
          /\ forall mcu y,
               In mcu _MCUS -> dev_id mcu = Some (Z.land idcode 0xfff) ->
               flash_size_reg mcu = Some y -> y = address)
    /\ swd_get_mem16 address = Ok raw
    /\ _flash_size self = raw * 1024
    /\ _mcus self <> []
    /\ forall mcu,
         In mcu (_mcus self) ->
         get_size (mcu_memory mcu) "FLASH" = _flash_size self
         /\ In mcu _MCUS
         /\ dev_id mcu = Some (Z.land idcode 0xfff).
Proof.
  unfold Stm32_init, _load_devid_from_idcode, _load_flash_size. cbv zeta.
  destruct (swd_get_mem32 _IDCODE_REG) as [idcode|e]; [|discriminate].
  unfold flash_size_reg_address, candidates_by_dev_id.
  set (devid := Z.land idcode 0xfff).
  set (cands := _select_by_specs _MCUS [(dev_id, devid)]).
  assert (Hcands : forall mcu, In mcu cands <->
                     In mcu _MCUS /\ dev_id mcu = Some devid)
    by (intros mcu; apply select_by_specs_one).
  destruct cands as [|c0 cands0] eqn:Hc; [discriminate|].
  rewrite <- Hc in *. clear Hc.
  destruct (if truthy _FLASH_SIZE_REG
            then Ok (default 0 _FLASH_SIZE_REG)
            else _mcu_value cands flash_size_reg) as [address|e] eqn:Haddr;
    [|discriminate].
  destruct (swd_get_mem16 address) as [raw|e] eqn:Hraw; [|discriminate].
  set (sized := _selet_mcus_by_flash_size get_size cands (raw * KILO)).
  assert (Hsized : forall mcu, In mcu sized ->
                     In mcu cands
                     /\ get_size (mcu_memory mcu) "FLASH" = raw * KILO)
    by (intros mcu; apply selet_mcus_by_flash_size_In).
  destruct sized as [|s0 sized0] eqn:Hs; [discriminate|].
  rewrite <- Hs in *.
  assert (Hne : sized <> []) by (rewrite Hs; discriminate).
  clear Hs.
  intros Hinit. exists idcode, address, raw.
  split; [reflexivity|]. split; [exact Haddr|]. split; [|split].
  { intros a Ha Hnz. rewrite Ha in Haddr. simpl in Haddr.
    destruct (Z.eqb_spec a 0) as [|_]; [contradiction|].
    simpl in Haddr. now injection Haddr as <-. }
  { intros Hfalse. rewrite Hfalse in Haddr.
    apply mcu_value_ok in Haddr as [(m & Hm & Hk) Hall]. split.
    - exists m. apply Hcands in Hm as [Hm Hd]. auto.
    - intros mcu y Hin Hd Hy. apply (Hall mcu y); [|exact Hy].
      apply Hcands. auto. }
  split; [exact Hraw|].
  assert (Hcands' : forall mcu, In mcu cands ->
                      In mcu _MCUS /\ dev_id mcu = Some devid)
    by (intros mcu; apply Hcands).
  destruct expected_mcus as [[|n names]|].
  - injection Hinit as <-. simpl. repeat split; auto; apply Hsized in H;
      destruct H as [Hin Hsz]; auto; now apply Hcands'.
  - set (sel := _select_mcus_by_expected _NAME sized (n :: names)) in *.
    assert (Hsel : forall mcu, In mcu sel -> In mcu sized).
    { intros mcu. unfold sel.
      rewrite select_mcus_by_expected_filter, filter_In. tauto. }
    destruct sel as [|t0 sel0] eqn:Hsl; [discriminate Hinit|].
    injection Hinit as <-. simpl.
    split; [reflexivity|]. split; [discriminate|].
    intros mcu Hin. apply Hsel, Hsized in Hin. destruct Hin as [Hin Hsz].
    split; [exact Hsz|]. now apply Hcands'.
  - injection Hinit as <-. simpl. repeat split; auto; apply Hsized in H;
      destruct H as [Hin Hsz]; auto; now apply Hcands'.
Qed.

(** A family with its own flash-size register, and a family without one
    whose entries carry the register themselves. *)
Lemma identified_flash_size_witness :
  (exists self,
     Stm32_init regions_get_size f1_get_mem32 f1_get_mem16 "STM32"
       0xe0042000 (Some 0x1ffff7e0) f1_catalog (Some ["STM32F103C8"])
     = Ok self
     /\ _flash_size self = 65536
     /\ map mcu_name (_mcus self) = ["STM32F103x8"]
     /\ forall mcu, In mcu (_mcus self) ->
          regions_get_size (mcu_memory mcu) "FLASH" = 65536)
  /\ (exists self address,
        Stm32_init regions_get_size f1_get_mem32 f1_get_mem16 "STM32"
          0xe0042000 None f1_catalog_svd None
        = Ok self
        /\ flash_size_reg_address None
             (candidates_by_dev_id f1_catalog_svd 0x20036410) = Ok address
        /\ address = 0x1ffff7e0
        /\ f1_get_mem16 address = Ok 64
        /\ _flash_size self = 64 * 1024).
Proof.
  split.
  - eexists. split; [vm_compute; reflexivity|].
    split; [reflexivity|]. split; [reflexivity|].
    intros mcu Hin.
    destruct (identified_flash_size regions_get_size f1_get_mem32
                f1_get_mem16 "STM32" 0xe0042000 (Some 0x1ffff7e0) f1_catalog
                (Some ["STM32F103C8"]) _ eq_refl)
      as (idcode & address & raw & _ & _ & _ & _ & _ & _ & _ & Hall).
    exact (proj1 (Hall mcu Hin)).
  - assert (Hrun : Stm32_init regions_get_size f1_get_mem32 f1_get_mem16
                     "STM32" 0xe0042000 None f1_catalog_svd None
                   = Ok {| _mcus := f1_catalog_svd; _flash_size := 65536 |})
      by (vm_compute; reflexivity).
    destruct (identified_flash_size regions_get_size f1_get_mem32
                f1_get_mem16 "STM32" 0xe0042000 None f1_catalog_svd None
                _ Hrun)
      as (idcode & address & raw & Hid & Haddr & _ & Hcommon & Hraw
          & Hflash & _).
    injection Hid as <-.
    destruct (Hcommon eq_refl) as [_ Hall].
    assert (Ha : 0x1ffff7e0 = address).
    { apply (Hall (Build_mcu_spec (list region) "STM32F103x8" (Some 0x410)
                     (Some 0x1ffff7e0) (Some "svd/STM32F103.svd")
                     (f103_memory 64)));
        [left; reflexivity | reflexivity | reflexivity]. }
    subst address.
    assert (Hr : raw = 64)
      by (vm_compute in Hraw; now injection Hraw as <-).
    subst raw.
    eexists. exists 0x1ffff7e0.
    split; [exact Hrun|]. split; [exact Haddr|].
    split; [reflexivity|]. split; [reflexivity | exact Hflash].
Defined.

(** C9.  [_mcu_value] raises [McuError] exactly when two distinct values
    are present under the key; with no value at all it ends in the
    [KeyError] of [pop] on an empty set.  So when the family has no
    flash-size register of its own and no candidate with the device id
    read carries one, the identification ends in that [KeyError], which
    belongs to neither exception hierarchy of the package. *)
Theorem identification_without_flash_size_reg {memory}
    (get_size : memory -> string -> Z)
    (swd_get_mem32 swd_get_mem16 : Z -> result Z) (_NAME : string)
    (_IDCODE_REG : Z) (_FLASH_SIZE_REG : option Z)
    (_MCUS : list (mcu_spec memory)) (expected_mcus : option (list string)) :
  (forall idcode,
     swd_get_mem32 _IDCODE_REG = Ok idcode ->
     truthy _FLASH_SIZE_REG = false ->
     (exists mcu, In mcu _MCUS /\ dev_id mcu = Some (Z.land idcode 0xfff)) ->
     (forall mcu, In mcu _MCUS -> dev_id mcu = Some (Z.land idcode 0xfff) ->
                  flash_size_reg mcu = None) ->
     Stm32_init get_size swd_get_mem32 swd_get_mem16 _NAME _IDCODE_REG
       _FLASH_SIZE_REG _MCUS expected_mcus
     = Err (KeyError "pop from an empty set"))
  /\ in_taxonomy (KeyError "pop from an empty set") = false
  /\ (forall (mcus : list (mcu_spec memory)),
        (_mcu_value mcus flash_size_reg
         = Err (McuError "Error, more values in MCUs under key")
         <-> exists m1 m2 x y,
               In m1 mcus /\ In m2 mcus /\ flash_size_reg m1 = Some x
               /\ flash_size_reg m2 = Some y /\ x <> y)
        /\ ((forall m, In m mcus -> flash_size_reg m = None) ->
            _mcu_value mcus flash_size_reg
            = Err (KeyError "pop from an empty set"))
        /\ (forall x, _mcu_value mcus flash_size_reg = Ok x ->
              (exists m, In m mcus /\ flash_size_reg m = Some x)
              /\ forall m y, In m mcus -> flash_size_reg m = Some y -> y = x)).
Proof.
  assert (Hvalue : forall mcus : list (mcu_spec memory),
    (_mcu_value mcus flash_size_reg
     = Err (McuError "Error, more values in MCUs under key")
     <-> exists m1 m2 x y,
           In m1 mcus /\ In m2 mcus /\ flash_size_reg m1 = Some x
           /\ flash_size_reg m2 = Some y /\ x <> y)
    /\ ((forall m, In m mcus -> flash_size_reg m = None) ->
        _mcu_value mcus flash_size_reg
        = Err (KeyError "pop from an empty set"))
    /\ (forall x, _mcu_value mcus flash_size_reg = Ok x ->
          (exists m, In m mcus /\ flash_size_reg m = Some x)
          /\ forall m y, In m mcus -> flash_size_reg m = Some y -> y = x)).
  { intros mcus. unfold _mcu_value. cbv zeta.
    set (values := _mcu_values mcus flash_size_reg).
    assert (Hel : forall x, x ∈ values
                  <-> exists m, In m mcus /\ flash_size_reg m = Some x)
      by (intros x; apply mcu_values_elem).
    destruct (Nat.ltb_spec 1 (size values)) as [Hmany|Hfew].
    - split; [|split].
      + split; [intros _|reflexivity].
        apply gset_two_distinct in Hmany as (x & y & Hx & Hy & Hne).
        apply Hel in Hx as (m1 & Hm1 & Hk1). apply Hel in Hy as (m2 & Hm2 & Hk2).
        exists m1, m2, x, y. auto.
      + intros Hnone. exfalso.
        apply gset_two_distinct in Hmany as (x & y & Hx & _).
        apply Hel in Hx as (m1 & Hm1 & Hk1).
        rewrite (Hnone m1 Hm1) in Hk1. discriminate.
      + discriminate.
    - assert (Hone : forall x y, x ∈ values -> y ∈ values -> x = y).
      { intros x y Hx Hy. destruct (decide (x = y)) as [|Hne]; [assumption|].
        exfalso. apply (proj1 (Nat.le_ngt _ _) Hfew).
        apply gset_two_distinct. exists x, y. auto. }
      assert (Hels : forall x, x ∈ elements values <-> x ∈ values)
        by (intros x; apply elem_of_elements).
      destruct (elements values) as [|v l] eqn:He.
      + split; [|split].
        * split; [discriminate|].
          intros (m1 & m2 & x & y & Hm1 & Hm2 & Hk1 & Hk2 & Hne).
          destruct Hne. apply Hone; apply Hel; eauto.
        * reflexivity.
        * discriminate.
      + assert (Hv : v ∈ values) by (apply Hels; left).
        split; [|split].
        * split; [discriminate|].
          intros (m1 & m2 & x & y & Hm1 & Hm2 & Hk1 & Hk2 & Hne).
          destruct Hne. apply Hone; apply Hel; eauto.
        * intros Hnone. apply Hel in Hv as (m & Hm & Hk).
          rewrite (Hnone m Hm) in Hk. discriminate.
        * intros x Hx. injection Hx as <-. split; [now apply Hel|].
          intros m y Hm Hk. apply Hone; [|exact Hv]. apply Hel. eauto. }
  split; [|split; [reflexivity | exact Hvalue]].
  intros idcode Hid Hreg (c & Hc & Hcd) Hnone.
  unfold Stm32_init, _load_devid_from_idcode. cbv zeta. rewrite Hid.
  set (devid := Z.land idcode 0xfff) in *.
  set (cands := _select_by_specs _MCUS [(dev_id, devid)]).
  assert (Hcands : forall mcu, In mcu cands <->
                     In mcu _MCUS /\ dev_id mcu = Some devid)
    by (intros mcu; apply select_by_specs_one).
  destruct (Hvalue cands) as (_ & Hempty & _).
  rewrite Hreg, Hempty.
  - destruct cands as [|c0 cands0] eqn:Hcs; [|reflexivity].
    exfalso. apply (proj2 (Hcands c)). auto.
  - intros m Hm. apply Hcands in Hm as [Hm Hd]. now apply Hnone.
Qed.

(** The F1 catalog on a family that names no flash-size register. *)
Lemma identification_without_flash_size_reg_witness :
  f1_get_mem32 0xe0042000 = Ok 0x20036410
  /\ truthy None = false
  /\ Stm32_init regions_get_size f1_get_mem32 f1_get_mem16 "STM32"
       0xe0042000 None f1_catalog None
     = Err (KeyError "pop from an empty set").
Proof.
  split; [reflexivity|]. split; [reflexivity|].
  destruct (identification_without_flash_size_reg regions_get_size
              f1_get_mem32 f1_get_mem16 "STM32" 0xe0042000 None f1_catalog
              None) as (Hinit & _).
  apply (Hinit 0x20036410); [reflexivity | reflexivity | |].
  - eexists. split; [left; reflexivity | reflexivity].
  - intros mcu [<-|[<-|[<-|[]]]]; intros _; reflexivity.
Defined.


(* ===================================================================== *)
(** ** Further properties: the command builder and the frames *)
(* ===================================================================== *)

Lemma le_digits_spec (n : nat) (x : Z) :
  0 <= x < 2 ^ (8 * Z.of_nat n) ->
  length (le_digits n x) = n
  /\ Forall is_u8 (le_digits n x)
  /\ le_value (le_digits n x) = x.
Proof.
  revert x. induction n as [|n IH]; intros x Hx.
  - simpl in *. repeat split; [constructor | lia].
  - assert (Hpow : 2 ^ (8 * Z.of_nat (S n)) = 256 * 2 ^ (8 * Z.of_nat n)).
    { replace (8 * Z.of_nat (S n)) with (8 + 8 * Z.of_nat n) by lia.
      rewrite Z.pow_add_r by lia. reflexivity. }
    rewrite Hpow in Hx.
    assert (Hq : 0 <= x / 256 < 2 ^ (8 * Z.of_nat n)).
    { split; [apply Z.div_pos; lia|].
      apply Z.div_lt_upper_bound; lia. }
    destruct (IH _ Hq) as (Hlen & Hall & Hval).
    pose proof (Z.mod_pos_bound x 256 ltac:(lia)) as Hm.
    simpl. rewrite Hlen, Hval. repeat split; try reflexivity.
    + constructor; [exact Hm | exact Hall].
    + pose proof (Z.div_mod x 256 ltac:(lia)). lia.
Qed.

Lemma to_bytes_little_in_range (n : nat) (x : Z) :
  0 <= x < 2 ^ (8 * Z.of_nat n) ->
  to_bytes_little n x = Ok (le_digits n x).
Proof.
  intros [H0 H1]. unfold to_bytes_little.
  destruct (Z.ltb_spec x 0); [lia|].
  destruct (Z.leb_spec (2 ^ (8 * Z.of_nat n)) x); [lia | reflexivity].
Qed.

Lemma to_bytes_little_overflow (n : nat) (x : Z) :
  ~ (0 <= x < 2 ^ (8 * Z.of_nat n)) ->
  to_bytes_little n x = Err OverflowError.
Proof.
  intros H. unfold to_bytes_little.
  destruct (Z.ltb_spec x 0); [reflexivity|].
  destruct (Z.leb_spec (2 ^ (8 * Z.of_nat n)) x); [reflexivity | lia].
Qed.

Lemma to_bytes_little_4 (x : Z) :
  to_bytes_little 4 x
  = if in_u32 x then Ok (le_digits 4 x) else Err OverflowError.
Proof.
  unfold in_u32.
  destruct (Z.leb_spec 0 x); destruct (Z.ltb_spec x (2 ^ 32)); simpl.
  - apply to_bytes_little_in_range. simpl. lia.
  - apply to_bytes_little_overflow. simpl. lia.
  - apply to_bytes_little_overflow. simpl. lia.
  - apply to_bytes_little_overflow. simpl. lia.
Qed.

Lemma le_value_app (a b : list Z) :
  le_value (a ++ b) = le_value a + 256 ^ Z.of_nat (length a) * le_value b.
Proof.
  induction a as [|x a IH]; [simpl; lia|].
  cbn [app le_value length]. rewrite IH.
  rewrite Nat2Z.inj_succ, Z.pow_succ_r by lia. lia.
Qed.

(** X1.  [add_u16] and [add_u32] append exactly 2 and 4 integers, each a
    byte, whose little-endian value is the number, and leave the command
    built so far in front; a number that is negative or does not fit makes
    them fail with [OverflowError]. *)
Theorem cmd_builder_little_endian (cmd : list Z) (number : Z) :
  (0 <= number < 2 ^ 16 ->
     exists bs, CmdBuilder.add_u16 cmd number = Ok (cmd ++ bs)
                /\ length bs = 2%nat /\ Forall is_u8 bs
                /\ le_value bs = number)
  /\ (~ (0 <= number < 2 ^ 16) ->
        CmdBuilder.add_u16 cmd number = Err OverflowError)
  /\ (0 <= number < 2 ^ 32 ->
        exists bs, CmdBuilder.add_u32 cmd number = Ok (cmd ++ bs)
                   /\ length bs = 4%nat /\ Forall is_u8 bs
                   /\ le_value bs = number)
  /\ (~ (0 <= number < 2 ^ 32) ->
        CmdBuilder.add_u32 cmd number = Err OverflowError).
Proof.
  unfold CmdBuilder.add_u16, CmdBuilder.add_u32.
  split; [|split; [|split]].
  - intros H. rewrite to_bytes_little_in_range by (simpl; lia).
    exists (le_digits 2 number). split; [reflexivity|].
    apply (le_digits_spec 2). simpl. lia.
  - intros H. rewrite to_bytes_little_overflow; [reflexivity|].
    simpl. exact H.
  - intros H. rewrite to_bytes_little_in_range by (simpl; lia).
    exists (le_digits 4 number). split; [reflexivity|].
    apply (le_digits_spec 4). simpl. lia.
  - intros H. rewrite to_bytes_little_overflow; [reflexivity|].
    simpl. exact H.
Qed.

Lemma cmd_builder_little_endian_witness :
  0 <= 0x20000404 < 2 ^ 32
  /\ CmdBuilder.add_u32 [0xf2; 0x36] 0x20000404
     = Ok [0xf2; 0x36; 0x04; 0x04; 0x00; 0x20]
  /\ ~ (0 <= 65536 < 2 ^ 16)
  /\ CmdBuilder.add_u16 [0xf2] 65536 = Err OverflowError.
Proof.
  assert (H1 : 0 <= 0x20000404 < 2 ^ 32) by lia.
  assert (H2 : ~ (0 <= 65536 < 2 ^ 16)) by lia.
  destruct (cmd_builder_little_endian [0xf2; 0x36] 0x20000404)
    as (_ & _ & H32 & _).
  destruct (cmd_builder_little_endian [0xf2] 65536) as (_ & H16 & _).
  split; [exact H1|]. split.
  - destruct (H32 H1) as (bs & Hrun & _).
    rewrite Hrun. vm_compute in Hrun. injection Hrun as <-. reflexivity.
  - split; [exact H2 | exact (H16 H2)].
Defined.

Lemma gate_passes_mem16 (self : Stlink) (op : mem_op) :
  is_mem16 op = true -> gate_passes self op = true ->
  mem16_gate self = Ok false /\ firmware_gate_fails self = false.
Proof.
  unfold gate_passes. intros ->.
  destruct (mem16_gate_cases self) as [Hg|Hg]; rewrite Hg; [discriminate|].
  destruct (firmware_gate_fails self); [discriminate | auto].
Qed.

Ltac split_tests :=
  repeat match goal with
         | |- context [if ?c then _ else _] => destruct c eqn:?
         end.

Lemma mem_op_cases (self : Stlink) (op : mem_op) (tr : trace) :
  (sendable self op = true
   /\ run_mem_op self op tr
      = (drop_value (com_xfer (_com self) tr (mem_frame op)),
         tr ++ [mem_frame op]))
  \/ (sendable self op = false
      /\ exists e, run_mem_op self op tr = (Err e, tr)).
Proof.
  unfold sendable, gate_passes, violates_precondition, misaligned.
  destruct op as [a|a d|a n|a d|a n|a d|a n|a d];
    cbn [run_mem_op mem_fields_in_range is_mem16 mem_frame].
  - unfold get_mem32, bind, lift, raise, ret, xfer.
    rewrite to_bytes_little_4.
    destruct (negb (a mod 4 =? 0)), (in_u32 a); simpl; eauto.
    left. split; [reflexivity|]. now destruct (com_xfer _ _ _).
  - unfold set_mem32, bind, lift, raise, ret, xfer.
    rewrite !to_bytes_little_4.
    destruct (negb (a mod 4 =? 0)), (in_u32 a), (in_u32 d); simpl; eauto.
    left. split; [reflexivity|]. now destruct (com_xfer _ _ _).
  - unfold read_mem8, bind, lift, raise, ret, xfer, maximum_8bit_data,
      _STLINK_MAXIMUM_8BIT_DATA.
    rewrite !to_bytes_little_4, Z.gtb_ltb.
    destruct (64 <? n), (in_u32 a), (in_u32 n); simpl; eauto.
    left. split; [reflexivity|]. now destruct (com_xfer _ _ _).
  - unfold write_mem8, bind, lift, raise, ret, xfer, maximum_8bit_data,
      _STLINK_MAXIMUM_8BIT_DATA.
    rewrite !to_bytes_little_4, Z.gtb_ltb. fold (zlen d).
    destruct (64 <? zlen d), (in_u32 a), (in_u32 (zlen d)); simpl; eauto.
    left. split; [reflexivity|]. now destruct (com_xfer _ _ _).
  - unfold read_mem16, bind, lift, raise, ret, xfer, maximum_16bit_data.
    rewrite !to_bytes_little_4, Z.gtb_ltb.
    destruct (mem16_gate_cases self) as [Hg|Hg]; rewrite Hg.
    { right. rewrite !andb_false_r. eauto. }
    destruct (firmware_gate_fails self), (negb (a mod 2 =? 0)),
      (negb (n mod 2 =? 0)), (STLINK_MAXIMUM_TRANSFER_SIZE (_com self) <? n),
      (in_u32 a), (in_u32 n); simpl; eauto.
    left. split; [reflexivity|]. now destruct (com_xfer _ _ _).
  - unfold write_mem16, bind, lift, raise, ret, xfer, maximum_16bit_data.
    rewrite !to_bytes_little_4, Z.gtb_ltb. fold (zlen d).
    destruct (mem16_gate_cases self) as [Hg|Hg]; rewrite Hg.
    { right. rewrite !andb_false_r. eauto. }
    destruct (firmware_gate_fails self), (negb (a mod 2 =? 0)),
      (negb (zlen d mod 2 =? 0)),
      (STLINK_MAXIMUM_TRANSFER_SIZE (_com self) <? zlen d),
      (in_u32 a), (in_u32 (zlen d)); simpl; eauto.
    left. split; [reflexivity|]. now destruct (com_xfer _ _ _).
  - unfold read_mem32, bind, lift, raise, ret, xfer, maximum_32bit_data.
    rewrite !to_bytes_little_4, Z.gtb_ltb.
    destruct (negb (a mod 4 =? 0)), (negb (n mod 4 =? 0)),
      (STLINK_MAXIMUM_TRANSFER_SIZE (_com self) <? n),
      (in_u32 a), (in_u32 n); simpl; eauto.
    left. split; [reflexivity|]. now destruct (com_xfer _ _ _).
  - unfold write_mem32, bind, lift, raise, ret, xfer, maximum_32bit_data.
    rewrite !to_bytes_little_4, Z.gtb_ltb. fold (zlen d).
    destruct (negb (a mod 4 =? 0)), (negb (zlen d mod 4 =? 0)),
      (STLINK_MAXIMUM_TRANSFER_SIZE (_com self) <? zlen d),
      (in_u32 a), (in_u32 (zlen d)); simpl; eauto.
    left. split; [reflexivity|]. now destruct (com_xfer _ _ _).
Qed.

Lemma sendable_parts (self : Stlink) (op : mem_op) :
  sendable self op = true
  <-> violates_precondition self op = false
      /\ mem_fields_in_range op = true
      /\ gate_passes self op = true.
Proof.
  unfold sendable. rewrite !andb_true_iff, negb_true_iff. tauto.
Qed.

Lemma mem_frame_bytes (op : mem_op) :
  mem_fields_in_range op = true ->
  Forall is_u8 (tx (mem_frame op))
  /\ length (tx (mem_frame op))
     = match op with Get_mem32 _ => 6%nat | _ => 10%nat end
  /\ exists opcode fields,
       tx (mem_frame op) = [0xf2; opcode] ++ fields
       /\ le_value (take 4 fields)
          = match op with
            | Get_mem32 a | Set_mem32 a _ | Read_mem8 a _ | Write_mem8 a _
            | Read_mem16 a _ | Write_mem16 a _ | Read_mem32 a _
            | Write_mem32 a _ => a
            end
       /\ le_value (drop 4 fields)
          = match op with
            | Get_mem32 _ => 0
            | Set_mem32 _ d => d
            | Read_mem8 _ n | Read_mem16 _ n | Read_mem32 _ n => n
            | Write_mem8 _ d | Write_mem16 _ d | Write_mem32 _ d => zlen d
            end.
Proof.
  assert (Hu : forall x, in_u32 x = true -> 0 <= x < 2 ^ (8 * Z.of_nat 4)).
  { unfold in_u32. intros x Hx. apply andb_true_iff in Hx as [H0 H1].
    apply Z.leb_le in H0. apply Z.ltb_lt in H1. simpl. lia. }
  assert (H2 : forall a b, in_u32 a = true -> in_u32 b = true ->
            forall opcode, is_u8 opcode ->
            Forall is_u8 ([0xf2; opcode] ++ le_digits 4 a ++ le_digits 4 b)
            /\ length ([0xf2; opcode] ++ le_digits 4 a ++ le_digits 4 b)
               = 10%nat
            /\ le_value (take 4 (le_digits 4 a ++ le_digits 4 b)) = a
            /\ le_value (drop 4 (le_digits 4 a ++ le_digits 4 b)) = b).
  { intros a b Ha Hb opcode Hop.
    destruct (le_digits_spec 4 a (Hu a Ha)) as (La & Fa & Va).
    destruct (le_digits_spec 4 b (Hu b Hb)) as (Lb & Fb & Vb).
    split; [|split; [|split]].
    - apply Forall_cons. split; [unfold is_u8; lia|].
      apply Forall_cons. split; [exact Hop|].
      apply Forall_app. split; assumption.
    - rewrite !length_app, La, Lb. reflexivity.
    - rewrite take_app_length' by exact La. exact Va.
    - rewrite drop_app_length' by exact La. exact Vb. }
  destruct op as [a|a d|a n|a d|a n|a d|a n|a d];
    cbn [mem_fields_in_range mem_frame tx]; intros Hr;
    try (apply andb_true_iff in Hr as [Ha Hb];
         match goal with
         | |- context [[242; ?opc] ++ _] =>
             destruct (H2 _ _ Ha Hb opc ltac:(unfold is_u8; lia))
               as (Hf & Hl & Hva & Hvb)
         end;
         split; [exact Hf|]; split; [exact Hl|];
         eexists; eexists; split; [reflexivity|]; split; assumption).
  destruct (le_digits_spec 4 a (Hu a Hr)) as (La & Fa & Va).
  split; [|split].
  - apply Forall_cons. split; [unfold is_u8; lia|].
    apply Forall_cons. split; [unfold is_u8; lia | exact Fa].
  - rewrite length_app, La. reflexivity.
  - eexists; eexists. split; [reflexivity|]. split.
    + rewrite take_ge by lia. exact Va.
    + rewrite drop_ge by lia. reflexivity.
Qed.

(** X2.  A memory operation whose arguments pass every test (alignment,
    cap, version test, 32-bit range of address and size) is one exchange:
    the log grows by exactly the frame of the access table, whose command is
    [0xF2], the opcode, the address and then the size or the value, each as
    four bytes little-endian, and its outcome is that of the transport. *)
Theorem sendable_op_is_one_exchange (self : Stlink) (op : mem_op)
    (tr : trace) :
  sendable self op = true ->
  run_mem_op self op tr
    = (drop_value (com_xfer (_com self) tr (mem_frame op)),
       tr ++ [mem_frame op])
  /\ Forall is_u8 (tx (mem_frame op))
  /\ length (tx (mem_frame op))
     = match op with Get_mem32 _ => 6%nat | _ => 10%nat end
  /\ exists opcode fields,
       tx (mem_frame op) = [0xf2; opcode] ++ fields
       /\ le_value (take 4 fields)
          = match op with
            | Get_mem32 a | Set_mem32 a _ | Read_mem8 a _ | Write_mem8 a _
            | Read_mem16 a _ | Write_mem16 a _ | Read_mem32 a _
            | Write_mem32 a _ => a
            end
       /\ le_value (drop 4 fields)
          = match op with
            | Get_mem32 _ => 0
            | Set_mem32 _ d => d
            | Read_mem8 _ n | Read_mem16 _ n | Read_mem32 _ n => n
            | Write_mem8 _ d | Write_mem16 _ d | Write_mem32 _ d => zlen d
            end.
Proof.
  intros Hs. split.
  - destruct (mem_op_cases self op tr) as [[_ Hrun]|[Hns _]];
      [exact Hrun | congruence].
  - apply mem_frame_bytes. now apply sendable_parts in Hs.
Qed.

Lemma sendable_op_is_one_exchange_witness :
  sendable (session probe_ack v2j22) (Write_mem32 0x20000000 [1; 2; 3; 4])
    = true
  /\ run_mem_op (session probe_ack v2j22)
       (Write_mem32 0x20000000 [1; 2; 3; 4]) []
     = (Ok tt,
        [XferCall [0xf2; 0x08; 0; 0; 0; 0x20; 4; 0; 0; 0]
           (Some [1; 2; 3; 4]) None]).
Proof.
  split; [reflexivity|].
  destruct (sendable_op_is_one_exchange (session probe_ack v2j22)
              (Write_mem32 0x20000000 [1; 2; 3; 4]) [] eq_refl)
    as [Hrun _].
  rewrite Hrun. reflexivity.
Defined.

(** X3.  Whatever its arguments, a memory operation calls the transport at
    most once; when it does, alignment, cap and version test hold and
    address and size fit 32 bits, so no negative or oversized field is ever
    put in a frame; when it does not, it has raised. *)
Theorem only_valid_frames_are_sent (self : Stlink) (op : mem_op)
    (tr tr' : trace) (r : result unit) :
  run_mem_op self op tr = (r, tr') ->
  (tr' = tr /\ exists e, r = Err e)
  \/ (tr' = tr ++ [mem_frame op]
      /\ violates_precondition self op = false
      /\ mem_fields_in_range op = true
      /\ (is_mem16 op = true -> mem16_gate self = Ok false)
      /\ r = drop_value (com_xfer (_com self) tr (mem_frame op))).
Proof.
  intros Hrun.
  destruct (mem_op_cases self op tr) as [[Hs Hok]|[_ [e He]]].
  - right. rewrite Hok in Hrun. injection Hrun as <- <-.
    apply sendable_parts in Hs as (Hv & Hf & Hg).
    repeat split; auto.
    intros H16. now apply (gate_passes_mem16 self op).
  - left. rewrite He in Hrun. injection Hrun as <- <-. eauto.
Qed.

Lemma only_valid_frames_are_sent_witness :
  run_mem_op (session probe_ack v2j22) (Read_mem8 (-4) 8) []
    = (Err OverflowError, [])
  /\ ([] : trace) = []
  /\ exists e, Err OverflowError = Err e :> result unit.
Proof.
  assert (Hrun : run_mem_op (session probe_ack v2j22) (Read_mem8 (-4) 8) []
                 = (Err OverflowError, [])) by reflexivity.
  split; [exact Hrun|].
  destruct (only_valid_frames_are_sent _ _ _ _ _ Hrun)
    as [Hnone|(Hsent & _)]; [exact Hnone|].
  discriminate Hsent.
Defined.

(* ===================================================================== *)
(** ** Further properties: words read from the target *)
(* ===================================================================== *)

Lemma from_bytes_little_bound (bs : list byte) :
  0 <= from_bytes_little bs < 256 ^ Z.of_nat (length bs).
Proof.
  induction bs as [|b bs IH]; [simpl; lia|].
  cbn [from_bytes_little length].
  rewrite Nat2Z.inj_succ, Z.pow_succ_r by lia.
  pose proof (u8_range b). lia.
Qed.

Lemma slice_length {A} (a b : nat) (l : list A) :
  (length (slice a b l) <= b - a)%nat.
Proof. unfold slice. rewrite length_take. lia. Qed.

Lemma word_bound (i : nat) (res : list byte) :
  0 <= from_bytes_little (slice i (i + 4) res) < 2 ^ 32.
Proof.
  pose proof (from_bytes_little_bound (slice i (i + 4) res)) as [H0 H1].
  pose proof (slice_length i (i + 4) res) as Hl.
  split; [exact H0|].
  eapply Z.lt_le_trans; [exact H1|].
  change (2 ^ 32) with (256 ^ 4).
  apply Z.pow_le_mono_r; lia.
Qed.

(** X4.  A word that [get_idcode], [get_reg] or [get_mem32] returns is an
    unsigned 32-bit value, whatever the probe answered and however short
    the answer was; an IDCODE is moreover positive.  A short answer raises
    nothing: [get_reg] fails only when the transport does, and [get_idcode]
    only then or with its "No IDCODE" exception. *)
Theorem word_reads_are_u32 (self : Stlink) (tr tr' : trace) (v : Z) :
  (get_idcode self tr = (Ok v, tr') -> 0 < v < 2 ^ 32)
  /\ (forall register,
        get_reg self register tr = (Ok v, tr') -> 0 <= v < 2 ^ 32)
  /\ (forall address,
        get_mem32 self address tr = (Ok v, tr') -> 0 <= v < 2 ^ 32)
  /\ (forall register e,
        get_reg self register tr = (Err e, tr') ->
        com_xfer (_com self) tr (READREG_call register) = Err e)
  /\ (forall e,
        get_idcode self tr = (Err e, tr') ->
        com_xfer (_com self) tr READ_IDCODES_call = Err e
        \/ e = StlinkException ["No IDCODE, probably MCU is not connected"]).
Proof.
  split; [|split; [|split; [|split]]].
  - unfold get_idcode, bind, xfer, raise, ret. cbv zeta.
    match goal with
    | |- context [com_xfer ?c ?t ?x] =>
        destruct (com_xfer c t x) as [res|e]; [|discriminate]
    end.
    pose proof (word_bound 4 res) as Hb. simpl in Hb.
    destruct (Z.eqb_spec (from_bytes_little (slice 4 8 res)) 0);
      [discriminate|].
    intros H. injection H as <- _. lia.
  - intros register. unfold get_reg, bind, xfer, ret. cbv zeta.
    match goal with
    | |- context [com_xfer ?c ?t ?x] =>
        destruct (com_xfer c t x) as [res|e]; [|discriminate]
    end.
    intros H. injection H as <- _. apply (word_bound 4).
  - intros address. unfold get_mem32, bind, xfer, raise, ret, lift.
    cbv zeta.
    destruct (negb (address mod 4 =? 0)); [discriminate|].
    destruct (to_bytes_little 4 address); [|discriminate].
    match goal with
    | |- context [com_xfer ?c ?t ?x] =>
        destruct (com_xfer c t x) as [res|e]; [|discriminate]
    end.
    intros H. injection H as <- _. apply (word_bound 4).
  - intros register e. unfold get_reg, bind, xfer, ret. cbv zeta.
    change (XferCall [CMD.DEBUG.COMMAND; CMD.DEBUG.APIV2.READREG; register]
              None (Some 8)) with (READREG_call register).
    destruct (com_xfer (_com self) tr (READREG_call register)) as [res|e'];
      [discriminate|].
    intros H. now injection H as <- _.
  - intros e. unfold get_idcode, bind, xfer, raise, ret. cbv zeta.
    change (XferCall [CMD.DEBUG.COMMAND; CMD.DEBUG.APIV2.READ_IDCODES]
              None (Some 12)) with READ_IDCODES_call.
    destruct (com_xfer (_com self) tr READ_IDCODES_call) as [res|e'].
    + destruct (from_bytes_little (slice 4 8 res) =? 0); [|discriminate].
      intros H. injection H as <- _. now right.
    + intros H. injection H as <- _. now left.
Qed.

Lemma word_reads_are_u32_witness :
  get_mem32 (session probe_idcode v2j28) 0xe0042000 []
    = (Ok 0x0BB11477,
       [XferCall [0xf2; 0x36; 0; 0x20; 0x04; 0xe0] None (Some 8)])
  /\ 0 <= 0x0BB11477 < 2 ^ 32.
Proof.
  assert (Hrun : get_mem32 (session probe_idcode v2j28) 0xe0042000 []
                 = (Ok 0x0BB11477,
                    [XferCall [0xf2; 0x36; 0; 0x20; 0x04; 0xe0] None
                       (Some 8)])) by reflexivity.
  split; [exact Hrun|].
  destruct (word_reads_are_u32 (session probe_idcode v2j28) []
              [XferCall [0xf2; 0x36; 0; 0x20; 0x04; 0xe0] None (Some 8)]
              0x0BB11477) as (_ & _ & Hmem & _).
  exact (Hmem _ Hrun).
Defined.

Lemma py_range_length (start stop step : nat) :
  length (py_range start stop step)
  = ((stop - start + step - 1) / step)%nat.
Proof. unfold py_range. now rewrite length_map, length_seq. Qed.

Lemma py_range_lookup (start stop step k : nat) :
  (k < (stop - start + step - 1) / step)%nat ->
  py_range start stop step !! k = Some (start + k * step)%nat.
Proof.
  intros Hk. unfold py_range. rewrite list_lookup_fmap.
  rewrite lookup_seq_lt by exact Hk. reflexivity.
Qed.

(** X5.  [get_reg_all] sends [[0xF2, 0x3A]] for 88 bytes and cuts the
    answer, from offset 4 on, into words of four bytes: an answer of
    [n >= 4] bytes gives [(n - 4 + 3) / 4] values, 21 for the 88 bytes asked
    for, the value [k] being the little-endian word at offset [4 + 4 * k];
    every value is an unsigned 32-bit number; an answer of at most 4 bytes
    gives the empty list. *)
Theorem get_reg_all_words (self : Stlink) (tr : trace) (res : list byte) :
  com_xfer (_com self) tr READALLREGS_call = Ok res ->
  exists regs,
    get_reg_all self tr = (Ok regs, tr ++ [READALLREGS_call])
    /\ length regs = ((length res - 4 + 3) / 4)%nat
    /\ (length res = 88%nat -> length regs = 21%nat)
    /\ ((length res <= 4)%nat -> regs = [])
    /\ (forall k, (k < length regs)%nat ->
          regs !! k
          = Some (from_bytes_little (slice (4 + 4 * k) (8 + 4 * k) res)))
    /\ Forall (fun v => 0 <= v < 2 ^ 32) regs.
Proof.
  intros Hres. unfold get_reg_all, bind, xfer, ret. cbv zeta.
  change (XferCall [CMD.DEBUG.COMMAND; CMD.DEBUG.APIV2.READALLREGS]
            None (Some 88)) with READALLREGS_call.
  rewrite Hres. eexists. split; [reflexivity|].
  assert (Hlen : length
            (map (fun index => from_bytes_little (slice index (index + 4) res))
               (py_range 4 (length res) 4))
          = ((length res - 4 + 3) / 4)%nat).
  { rewrite length_map, py_range_length.
    replace (length res - 4 + 4 - 1)%nat with (length res - 4 + 3)%nat by lia.
    reflexivity. }
  split; [exact Hlen|]. split; [|split; [|split]].
  - intros H88. rewrite Hlen, H88. reflexivity.
  - intros Hshort. apply length_zero_iff_nil. rewrite Hlen.
    replace (length res - 4)%nat with 0%nat by lia. reflexivity.
  - intros k Hk. rewrite Hlen in Hk.
    rewrite list_lookup_fmap, py_range_lookup.
    + simpl. do 3 f_equal; lia.
    + replace (length res - 4 + 4 - 1)%nat
        with (length res - 4 + 3)%nat by lia. exact Hk.
  - apply Forall_forall. intros v Hv.
    apply list_elem_of_fmap in Hv as (index & -> & _).
    apply word_bound.
Qed.

Lemma get_reg_all_words_witness :
  com_xfer probe_regs [] READALLREGS_call
    = Ok (concat (replicate 22 [x00; x01; x02; x03]))
  /\ exists regs,
       get_reg_all (session probe_regs v2j28) []
         = (Ok regs, [READALLREGS_call])
       /\ regs = replicate 21 0x03020100.
Proof.
  split; [reflexivity|].
  destruct (get_reg_all_words (session probe_regs v2j28) []
              (concat (replicate 22 [x00; x01; x02; x03])) eq_refl)
    as (regs & Hrun & _).
  exists regs. split; [exact Hrun|].
  vm_compute in Hrun. injection Hrun as <-. reflexivity.
Defined.

Ltac case_xfer :=
  match goal with
  | |- context [match com_xfer ?c ?t ?x with _ => _ end] =>
      destruct (com_xfer c t x)
  end.

(** X6.  [set_reg] puts the value after the register number as four bytes
    little-endian and makes one exchange; a value below 0 or above
    [2^32 - 1] raises [OverflowError] and nothing is sent.  The register
    number goes into the frame as it is given. *)
Theorem set_reg_frame (self : Stlink) (register data : Z) (tr : trace) :
  (0 <= data < 2 ^ 32 ->
     set_reg self register data tr
       = (drop_value (com_xfer (_com self) tr (WRITEREG_call register data)),
          tr ++ [WRITEREG_call register data])
     /\ length (tx (WRITEREG_call register data)) = 7%nat
     /\ tx (WRITEREG_call register data) !! 2%nat = Some register
     /\ le_value (drop 3 (tx (WRITEREG_call register data))) = data
     /\ Forall is_u8 (drop 3 (tx (WRITEREG_call register data))))
  /\ (~ (0 <= data < 2 ^ 32) ->
        set_reg self register data tr = (Err OverflowError, tr)).
Proof.
  split.
  - intros Hd.
    destruct (le_digits_spec 4 data) as (Hl & Hf & Hv); [simpl; lia|].
    split; [|repeat split].
    + unfold set_reg, bind, lift, xfer, ret. cbv zeta.
      rewrite to_bytes_little_in_range by (simpl; lia).
      change (XferCall
                ([CMD.DEBUG.COMMAND; CMD.DEBUG.APIV2.WRITEREG; register]
                 ++ le_digits 4 data) None (Some 2))
        with (WRITEREG_call register data).
      now case_xfer.
    + exact Hv.
    + exact Hf.
  - intros Hd. unfold set_reg, bind, lift.
    rewrite to_bytes_little_overflow; [reflexivity|]. simpl. exact Hd.
Qed.

Lemma set_reg_frame_witness :
  0 <= 0x08000101 < 2 ^ 32
  /\ set_reg (session probe_ack v2j22) 15 0x08000101 []
     = (Ok tt, [XferCall [0xf2; 0x34; 15; 0x01; 0x01; 0x00; 0x08] None
                  (Some 2)])
  /\ ~ (0 <= -1 < 2 ^ 32)
  /\ set_reg (session probe_ack v2j22) 15 (-1) [] = (Err OverflowError, []).
Proof.
  assert (H1 : 0 <= 0x08000101 < 2 ^ 32) by lia.
  assert (H2 : ~ (0 <= -1 < 2 ^ 32)) by lia.
  split; [exact H1|]. split.
  - destruct (set_reg_frame (session probe_ack v2j22) 15 0x08000101 [])
      as [Hok _].
    destruct (Hok H1) as [Hrun _]. rewrite Hrun. reflexivity.
  - split; [exact H2|].
    destruct (set_reg_frame (session probe_ack v2j22) 15 (-1) [])
      as [_ Herr].
    exact (Herr H2).
Defined.

(* ===================================================================== *)
(** ** Further properties: opening the session *)
(* ===================================================================== *)

Lemma exit_calls_short (mode : Z) : (length (exit_calls mode) <= 1)%nat.
Proof.
  unfold exit_calls.
  destruct (mode =? 0), (mode =? 2), (mode =? 3); simpl; lia.
Qed.

(** X7.  [_leave_state] asks for the current mode and answers the mode byte
    with at most one exit command: [[0xF3, 0x07]] in DFU mode,
    [[0xF2, 0x21]] in DEBUG mode, [[0xF4, 0x01]] in SWIM mode, and nothing
    in any other mode, where it succeeds at once.  An empty answer raises
    [IndexError] after the one exchange. *)
Theorem leave_state_exits_mode (self : Stlink) (tr : trace) :
  (forall mode tail,
     com_xfer (_com self) tr GET_CURRENT_MODE_call = Ok (mode :: tail) ->
     snd (_leave_state self tr)
       = tr ++ GET_CURRENT_MODE_call :: exit_calls (u8 mode)
     /\ (exit_calls (u8 mode) = [] -> fst (_leave_state self tr) = Ok tt)
     /\ (forall call,
           exit_calls (u8 mode) = [call] ->
           fst (_leave_state self tr)
           = drop_value
               (com_xfer (_com self) (tr ++ [GET_CURRENT_MODE_call]) call))
     /\ (u8 mode <> 0 -> u8 mode <> 2 -> u8 mode <> 3 ->
         exit_calls (u8 mode) = []))
  /\ (com_xfer (_com self) tr GET_CURRENT_MODE_call = Ok [] ->
      _leave_state self tr = (Err IndexError, tr ++ [GET_CURRENT_MODE_call])).
Proof.
  split.
  - intros mode tail Hres.
    unfold _leave_state, bind, xfer, lift, ret, index. cbv zeta.
    change (XferCall [CMD.GET_CURRENT_MODE] None (Some 2))
      with GET_CURRENT_MODE_call.
    rewrite Hres. simpl. unfold exit_calls.
    change CMD.MODE.DFU with 0. change CMD.MODE.DEBUG with 2.
    change CMD.MODE.SWIM with 3.
    change CMD.DFU.COMMAND with 0xf3. change CMD.DFU.EXIT with 0x07.
    change CMD.DEBUG.COMMAND with 0xf2. change CMD.DEBUG.EXIT with 0x21.
    change CMD.SWIM.COMMAND with 0xf4. change CMD.SWIM.EXIT with 0x01.
    destruct (Z.eqb_spec (u8 mode) 0) as [H0|H0];
      [|destruct (Z.eqb_spec (u8 mode) 2) as [H2|H2];
        [|destruct (Z.eqb_spec (u8 mode) 3) as [H3|H3]]].
    + split; [|split; [|split]].
      * case_xfer; simpl; now rewrite <- app_assoc.
      * discriminate.
      * intros call Hc. injection Hc as <-.
        now case_xfer.
      * intros Hn. contradiction.
    + split; [|split; [|split]].
      * case_xfer; simpl; now rewrite <- app_assoc.
      * discriminate.
      * intros call Hc. injection Hc as <-.
        now case_xfer.
      * intros _ Hn. contradiction.
    + split; [|split; [|split]].
      * case_xfer; simpl; now rewrite <- app_assoc.
      * discriminate.
      * intros call Hc. injection Hc as <-.
        now case_xfer.
      * intros _ _ Hn. contradiction.
    + simpl. repeat split; auto. discriminate.
  - intros Hres.
    unfold _leave_state, bind, xfer, lift, index. cbv zeta.
    change (XferCall [CMD.GET_CURRENT_MODE] None (Some 2))
      with GET_CURRENT_MODE_call.
    rewrite Hres. reflexivity.
Qed.

Lemma leave_state_exits_mode_witness :
  com_xfer probe_v2_debug [] GET_CURRENT_MODE_call = Ok [x02; x00]
  /\ _leave_state (session probe_v2_debug v2j22) []
     = (Ok tt, [GET_CURRENT_MODE_call; XferCall [0xf2; 0x21] None None]).
Proof.
  split; [reflexivity|].
  destruct (leave_state_exits_mode (session probe_v2_debug v2j22) [])
    as [Hmode _].
  destruct (Hmode x02 [x00] eq_refl) as (Htr & _ & Hres & _).
  specialize (Hres _ eq_refl).
  destruct (_leave_state (session probe_v2_debug v2j22) []) as [r t].
  simpl in Htr, Hres. subst r t. reflexivity.
Defined.

Lemma land_low_bits (x : Z) (n : Z) :
  0 <= n -> 0 <= Z.land x (Z.ones n) < 2 ^ n.
Proof.
  intros Hn. rewrite Z.land_ones by exact Hn.
  apply Z.mod_pos_bound. apply Z.pow_pos_nonneg; lia.
Qed.

Lemma read_version_cases (com : Com) (tr tr' : trace) (v : StlinkVersion) :
  _read_version com tr = (Ok v, tr') ->
  exists res,
    com_xfer com tr GET_VERSION_call = Ok res
    /\ let ver := from_bytes_big (slice 0 2 res) in
       let major := Z.land (Z.shiftr ver 12) 0xf in
       _stlink v = major
       /\ ((major = 2 /\ tr' = tr ++ [GET_VERSION_call]
            /\ _jtag v = Some (Z.land (Z.shiftr ver 6) 0x3f)
            /\ _api v
               = Some (if Z.land (Z.shiftr ver 6) 0x3f <=? 11 then 1 else 2)
            /\ _bridge v = None
            /\ (_swim v = None \/ _swim v = Some (Z.land ver 0x3f))
            /\ (_mass v = None \/ _mass v = Some (Z.land ver 0x3f)))
           \/ (major = 3
               /\ tr' = tr ++ [GET_VERSION_call; GET_VERSION_EX_call]
               /\ _api v = Some 3
               /\ exists s j m b,
                    _swim v = Some (u8 s) /\ _jtag v = Some (u8 j)
                    /\ _mass v = Some (u8 m) /\ _bridge v = Some (u8 b))
           \/ (major <> 2 /\ major <> 3 /\ tr' = tr ++ [GET_VERSION_call]
               /\ _jtag v = None /\ _swim v = None /\ _mass v = None
               /\ _api v = None /\ _bridge v = None
               /\ _str v = "ST-Link/" +:+ com_version com +:+ " V"
                           +:+ pretty major)).
Proof.
  unfold _read_version, bind, xfer, lift, ret, index. cbv zeta.
  change (CmdBuilder.add_u8 (CmdBuilder.init CMD.GET_VERSION) 128)
    with [0xf1; 0x80].
  change (XferCall [241; 128] None (Some 6)) with GET_VERSION_call.
  destruct (com_xfer com tr GET_VERSION_call) as [res|e]; [|discriminate].
  set (ver := from_bytes_big (slice 0 2 res)).
  set (major := Z.land (Z.shiftr ver 12) 15).
  intros H. exists res. split; [reflexivity|].
  destruct (Z.eqb_spec major 2) as [H2|H2].
  - destruct (com_version com =? "V2")%string;
      [|destruct (com_version com =? "V2-1")%string];
      injection H as <- <-; (split; [reflexivity|]); left;
      repeat split; auto.
  - destruct (Z.eqb_spec major 3) as [H3|H3].
    + change (XferCall [CMD.GET_VERSION_EX; 128] None (Some 16))
        with GET_VERSION_EX_call in H.
      destruct (com_xfer com (tr ++ [GET_VERSION_call]) GET_VERSION_EX_call)
        as [ver_ex|e]; [|discriminate].
      cbv beta iota in H.
      destruct (ver_ex !! 1%nat) as [s|]; cbv beta iota in H; [|discriminate].
      destruct (ver_ex !! 2%nat) as [j|]; cbv beta iota in H; [|discriminate].
      destruct (ver_ex !! 3%nat) as [m|]; cbv beta iota in H; [|discriminate].
      destruct (ver_ex !! 4%nat) as [b|]; cbv beta iota in H; [|discriminate].
      injection H as <- <-. split; [reflexivity|]. right; left.
      split; [exact H3|]. split; [now rewrite <- app_assoc|].
      split; [reflexivity|]. exists s, j, m, b. repeat split.
    + injection H as <- <-. split; [reflexivity|]. right; right.
      repeat split; auto.
Qed.

(** X8.  Every version that the handshake produces has a major below 16.
    For major 2: the JTAG minor is below 64, the API level is 1 exactly for
    a JTAG minor of at most 11 and 2 otherwise, there is no bridge minor,
    and a SWIM or mass-storage minor, when present, is below 64.  For major
    3: the API level is 3 and the four minors are bytes. *)
Theorem handshake_version_ranges (com : Com) (tr tr' : trace)
    (v : StlinkVersion) :
  _read_version com tr = (Ok v, tr') ->
  0 <= _stlink v < 16
  /\ (_stlink v = 2 ->
        exists jtag,
          _jtag v = Some jtag /\ 0 <= jtag < 64
          /\ (jtag <= 11 -> _api v = Some 1)
          /\ (11 < jtag -> _api v = Some 2)
          /\ _bridge v = None
          /\ (forall swim, _swim v = Some swim -> 0 <= swim < 64)
          /\ (forall mass, _mass v = Some mass -> 0 <= mass < 64))
  /\ (_stlink v = 3 ->
        _api v = Some 3
        /\ exists swim jtag mass bridge,
             _swim v = Some swim /\ _jtag v = Some jtag
             /\ _mass v = Some mass /\ _bridge v = Some bridge
             /\ 0 <= swim < 256 /\ 0 <= jtag < 256
             /\ 0 <= mass < 256 /\ 0 <= bridge < 256).
Proof.
  intros H. apply read_version_cases in H as (res & _ & H).
  cbv zeta in H. destruct H as [Hmajor Hcases].
  set (ver := from_bytes_big (slice 0 2 res)) in *.
  split; [|split].
  - rewrite Hmajor. apply (land_low_bits _ 4). lia.
  - intros H2.
    destruct Hcases as [(_ & _ & Hj & Ha & Hb & Hs & Hm)
                       |[(H3 & _)|(Hn2 & _)]]; [|congruence..].
    exists (Z.land (Z.shiftr ver 6) 63).
    pose proof (land_low_bits (Z.shiftr ver 6) 6 ltac:(lia)) as Hjr.
    pose proof (land_low_bits ver 6 ltac:(lia)) as Hlr.
    change (Z.ones 6) with 63 in *. change (2 ^ 6) with 64 in *.
    split; [exact Hj|]. split; [exact Hjr|].
    split; [|split; [|split; [|split]]].
    + intros Hle. rewrite Ha.
      now destruct (Z.leb_spec (Z.land (Z.shiftr ver 6) 63) 11); [|lia].
    + intros Hgt. rewrite Ha.
      now destruct (Z.leb_spec (Z.land (Z.shiftr ver 6) 63) 11); [lia|].
    + exact Hb.
    + intros swim Hsw. destruct Hs as [Hs|Hs]; rewrite Hs in Hsw;
        [discriminate|]. injection Hsw as <-. exact Hlr.
    + intros mass Hms. destruct Hm as [Hm|Hm]; rewrite Hm in Hms;
        [discriminate|]. injection Hms as <-. exact Hlr.
  - intros H3.
    destruct Hcases as [(H2 & _)
                       |[(_ & _ & Ha & s & j & m & b & Hs & Hj & Hm & Hb)
                        |(_ & Hn3 & _)]]; [congruence| |congruence].
    split; [exact Ha|].
    exists (u8 s), (u8 j), (u8 m), (u8 b).
    repeat split; auto; apply u8_range.
Qed.

Lemma handshake_version_ranges_witness :
  exists v tr',
    _read_version probe_v2_debug [] = (Ok v, tr')
    /\ _stlink v = 2 /\ _jtag v = Some 37 /\ _api v = Some 2
    /\ 0 <= _stlink v < 16.
Proof.
  eexists. eexists. split; [reflexivity|].
  split; [reflexivity|]. split; [reflexivity|]. split; [reflexivity|].
  exact (proj1 (handshake_version_ranges probe_v2_debug [] _ _ eq_refl)).
Defined.



Lemma appends_ret {A} (a : A) : appends (ret a).
Proof. intros tr. exists []. simpl. now rewrite app_nil_r. Qed.

Lemma appends_raise {A} (e : exn) : appends (raise e : M A).
Proof. intros tr. exists []. simpl. now rewrite app_nil_r. Qed.

Lemma appends_lift {A} (r : result A) : appends (lift r).
Proof. intros tr. exists []. simpl. now rewrite app_nil_r. Qed.

Lemma appends_xfer (com : Com) (t : list Z) (d : option (list Z))
    (n : option Z) : appends (xfer com t d n).
Proof. intros tr. eexists. reflexivity. Qed.

Lemma appends_bind {A B} (m : M A) (k : A -> M B) :
  appends m -> (forall a, appends (k a)) -> appends (bind m k).
Proof.
  intros Hm Hk tr. unfold bind.
  destruct (Hm tr) as [l Hl]. destruct (m tr) as [[a|e] tr1]; simpl in *.
  - destruct (Hk a tr1) as [l' Hl']. exists (l ++ l').
    rewrite Hl', Hl. now rewrite app_assoc.
  - exists l. exact Hl.
Qed.

Ltac appends_step :=
  first [ apply appends_ret | apply appends_raise | apply appends_lift
        | apply appends_xfer
        | apply appends_bind; [|intros ?] ].

Ltac appends_if :=
  match goal with
  | |- appends (if ?c then _ else _) => destruct c
  | |- appends (let '(_, _) := ?p in _) => destruct p
  end.

Ltac appends_auto := repeat first [appends_step | appends_if].

Lemma appends_set_swd_freq_v2_rows (self : Stlink) (swd_frequency : Z)
    (rows : list (Z * Z)) :
  appends (_set_swd_freq_v2_rows self swd_frequency rows).
Proof.
  induction rows as [|[freq data] rows IH]; simpl; [apply appends_raise|].
  destruct (swd_frequency >=? freq); [|exact IH]. appends_auto.
Qed.

Lemma appends_set_swd_freq (self : Stlink) (swd_frequency : Z) :
  appends (_set_swd_freq self swd_frequency).
Proof.
  unfold _set_swd_freq.
  destruct (_stlink (_version self) =? 2);
    [|destruct (_stlink (_version self) =? 3); [|apply appends_ret]].
  - unfold _set_swd_freq_v2.
    apply appends_bind; [apply appends_lift|]. intros outdated.
    destruct outdated;
      [apply appends_raise | apply appends_set_swd_freq_v2_rows].
  - unfold _set_swd_freq_v3.
    apply appends_bind; [apply appends_lift|]. intros outdated.
    destruct outdated; [apply appends_raise|]. appends_auto.
Qed.

(** X10.  A session that [Stlink.__init__] hands out is complete: it holds
    the driver it was given and the version that the handshake decoded, the
    log starts with the version request, contains the request for the
    current mode and ends with the command that enters SWD.  A requested
    frequency of 0 is treated as no request. *)
Theorem session_is_complete (swd_frequency : option Z) (com : Com)
    (tr tr' : trace) (self : Stlink) :
  Stlink_init swd_frequency com tr = (Ok self, tr') ->
  _com self = com
  /\ (exists tr1, _read_version com tr = (Ok (_version self), tr1))
  /\ (exists mid1 mid2,
        tr' = tr ++ [GET_VERSION_call] ++ mid1 ++ [GET_CURRENT_MODE_call]
                 ++ mid2 ++ [ENTER_SWD_call])
  /\ Stlink_init (Some 0) com tr = Stlink_init None com tr.
Proof.
  intros H.
  change (Stlink_init swd_frequency com tr)
    with (bind (_read_version com)
            (fun version =>
               let self := {| _com := com; _version := version |} in
               bind (_leave_state self)
                 (fun _ =>
                    bind (frequency_step swd_frequency self)
                      (fun _ =>
                         bind (_enter_debug_swd self)
                           (fun _ => ret self)))) tr) in H.
  unfold bind at 1 in H.
  destruct (_read_version com tr) as [[v|e] tr1] eqn:Hv; [|discriminate].
  cbv zeta in H. set (s := {| _com := com; _version := v |}) in *.
  unfold bind at 1 in H.
  destruct (_leave_state s tr1) as [[u|e] tr2] eqn:Hl; [|discriminate].
  unfold bind at 1 in H.
  assert (Hfreq : appends (frequency_step swd_frequency s)).
  { unfold frequency_step. destruct swd_frequency as [f|];
      [|apply appends_ret].
    destruct (f =? 0); [apply appends_ret | apply appends_set_swd_freq]. }
  destruct (Hfreq tr2) as [l3 Hl3].
  destruct (frequency_step swd_frequency s tr2) as [[u'|e] tr3];
    [|discriminate].
  simpl in Hl3. unfold bind in H.
  assert (Henter : snd (_enter_debug_swd s tr3) = tr3 ++ [ENTER_SWD_call]).
  { unfold _enter_debug_swd, bind, xfer, ret. cbv zeta. now case_xfer. }
  destruct (_enter_debug_swd s tr3) as [[u''|e] tr4]; [|discriminate].
  simpl in Henter. unfold ret in H. injection H as <- <-.
  split; [reflexivity|]. split; [exists tr1; reflexivity|].
  split; [|reflexivity].
  apply read_version_cases in Hv as (res & _ & Hv). cbv zeta in Hv.
  destruct Hv as [_ Hv].
  assert (Htr1 : exists mid1, tr1 = tr ++ [GET_VERSION_call] ++ mid1).
  { destruct Hv as [(_ & -> & _)|[(_ & -> & _)|(_ & _ & -> & _)]].
    - exists []. reflexivity.
    - exists [GET_VERSION_EX_call]. reflexivity.
    - exists []. reflexivity. }
  destruct Htr1 as [mid1 ->].
  assert (Htr2 : exists l2, tr2 = (tr ++ [GET_VERSION_call] ++ mid1)
                               ++ GET_CURRENT_MODE_call :: l2).
  { revert Hl. unfold _leave_state, bind, xfer, lift, ret, index.
    cbv zeta.
    change (XferCall [CMD.GET_CURRENT_MODE] None (Some 2))
      with GET_CURRENT_MODE_call.
    destruct (com_xfer (_com s) _ GET_CURRENT_MODE_call) as [r|e];
      [|discriminate].
    destruct (r !! 0%nat) as [mode|]; [|discriminate].
    cbv beta iota.
    destruct (u8 mode =? CMD.MODE.DFU);
      [|destruct (u8 mode =? CMD.MODE.DEBUG);
        [|destruct (u8 mode =? CMD.MODE.SWIM)]].
    - case_xfer; [|discriminate]. intros E. injection E as _ <-.
      rewrite <- app_assoc. eexists. reflexivity.
    - case_xfer; [|discriminate]. intros E. injection E as _ <-.
      rewrite <- app_assoc. eexists. reflexivity.
    - case_xfer; [|discriminate]. intros E. injection E as _ <-.
      rewrite <- app_assoc. eexists. reflexivity.
    - intros E. injection E as _ <-. exists []. reflexivity. }
  destruct Htr2 as [l2 ->].
  exists mid1, (l2 ++ l3). rewrite Henter, Hl3.
  rewrite <- ?app_assoc. simpl. rewrite <- ?app_assoc. reflexivity.
Qed.

Lemma session_is_complete_witness :
  Stlink_init (Some 1000000) probe_v2_debug [] =
    (Ok (session probe_v2_debug v2j37),
     [GET_VERSION_call; GET_CURRENT_MODE_call;
      XferCall [0xf2; 0x21] None None; SWD_SET_FREQ_call 3;
      ENTER_SWD_call])
  /\ _com (session probe_v2_debug v2j37) = probe_v2_debug
  /\ _str (_version (session probe_v2_debug v2j37)) = "ST-Link/V2 V2J37S7".
Proof.
  assert (Hrun : Stlink_init (Some 1000000) probe_v2_debug [] =
            (Ok (session probe_v2_debug v2j37),
             [GET_VERSION_call; GET_CURRENT_MODE_call;
              XferCall [0xf2; 0x21] None None; SWD_SET_FREQ_call 3;
              ENTER_SWD_call])) by (vm_compute; reflexivity).
  split; [exact Hrun|]. split; [|reflexivity].
  exact (proj1 (session_is_complete (Some 1000000) probe_v2_debug [] _ _
                  Hrun)).
Defined.

(* ===================================================================== *)
(** ** Further properties: SWD frequency on a V3 probe *)
(* ===================================================================== *)

Lemma v3_scan_spec (res : list byte) (swd_frequency : Z) (n i : nat)
    (k : Z) :
  let r := _set_swd_freq_v3_scan res swd_frequency n i k in
  (i <= fst r <= i + n)%nat
  /\ (forall j, (i <= j < fst r)%nat ->
        swd_frequency / 1000 < entry_khz_read res j)
  /\ ((fst r < i + n)%nat ->
        snd r = entry_khz_read res (fst r)
        /\ entry_khz_read res (fst r) <= swd_frequency / 1000).
Proof.
  revert i k. induction n as [|n IH]; intros i k;
    cbn [_set_swd_freq_v3_scan]; cbv zeta.
  - cbn [fst snd]. repeat split; intros; lia.
  - fold (entry_khz_read res i).
    destruct (Z.geb_spec (swd_frequency / 1000) (entry_khz_read res i))
      as [Hge|Hlt]; cbn [fst snd].
    + repeat split; intros; lia.
    + specialize (IH (S i) (entry_khz_read res i)). cbv zeta in IH.
      destruct IH as (Hr & Hbefore & Hfound).
      split; [lia|]. split.
      * intros j Hj. destruct (Nat.eq_dec j i) as [->|Hne]; [lia|].
        apply Hbefore. lia.
      * intros Hlt'. apply Hfound. lia.
Qed.

Lemma entry_khz_read_bound (res : list byte) (i : nat) :
  0 <= entry_khz_read res i < 2 ^ 24.
Proof.
  unfold entry_khz_read.
  pose proof (from_bytes_little_bound
                (slice (12 + 4 * i) (15 + 4 * i) res)) as [H0 H1].
  pose proof (slice_length (12 + 4 * i) (15 + 4 * i) res) as Hl.
  split; [exact H0|].
  eapply Z.lt_le_trans; [exact H1|].
  change (2 ^ 24) with (256 ^ 3).
  apply Z.pow_le_mono_r; lia.
Qed.

(** X11.  On a V3 probe: with an API level below 3 the request fails with
    [OutdatedStlinkFirmware(version, "V3")] and nothing is sent.  Otherwise
    the advertised entries are read, each from the three bytes at offset
    [12 + 4 * i]; when every one of the [res[8]] entries is above the
    request in kHz (also when there is none) the call fails with "Requested
    SWD frequency is too low" after the one exchange; otherwise the first
    entry that is at most the request is sent back as four bytes
    little-endian, and the outcome is decided by the first byte of the
    answer. *)
Theorem set_swd_freq_v3_first_entry (self : Stlink) (swd_frequency api : Z)
    (tr : trace) :
  _api (_version self) = Some api ->
  (api < 3 ->
     _set_swd_freq_v3 self swd_frequency tr
     = (Err (OutdatedStlinkFirmware (_str (_version self)) "V3"), tr))
  /\ (3 <= api ->
        forall res count,
          com_xfer (_com self) tr GET_COM_FREQ_call = Ok res ->
          res !! 8%nat = Some count ->
          ((forall j, (j < Z.to_nat (u8 count))%nat ->
              swd_frequency / 1000 < entry_khz_read res j) ->
           _set_swd_freq_v3 self swd_frequency tr
           = (Err (StlinkException ["Requested SWD frequency is too low"]),
              tr ++ [GET_COM_FREQ_call]))
          /\ (forall i,
                (i < Z.to_nat (u8 count))%nat ->
                entry_khz_read res i <= swd_frequency / 1000 ->
                (forall j, (j < i)%nat ->
                   swd_frequency / 1000 < entry_khz_read res j) ->
                let khz := le_digits 4 (entry_khz_read res i) in
                le_value khz = entry_khz_read res i
                /\ _set_swd_freq_v3 self swd_frequency tr
                   = (set_freq_outcome
                        (com_xfer (_com self) (tr ++ [GET_COM_FREQ_call])
                           (SET_COM_FREQ_call khz)),
                      tr ++ [GET_COM_FREQ_call; SET_COM_FREQ_call khz]))).
Proof.
  intros Hapi. split.
  - intros Hlt. unfold _set_swd_freq_v3, bind, lift, py_lt, raise.
    rewrite Hapi. now destruct (Z.ltb_spec api 3); [|lia].
  - intros Hge res count Hres Hcount.
    assert (Hrun : _set_swd_freq_v3 self swd_frequency tr
              = (let '(i, freq_khz) :=
                   _set_swd_freq_v3_scan res swd_frequency
                     (Z.to_nat (u8 count)) 0 0 in
                 if Z.of_nat i =? u8 count
                 then raise (StlinkException
                               ["Requested SWD frequency is too low"])
                 else
                   khz <- lift (to_bytes_little 4 freq_khz) ;;
                   res' <- xfer (_com self)
                             ([0xf2; 0x61; 0; 0] ++ khz) None (Some 2) ;;
                   status <- lift (index res' 0) ;;
                   if negb (u8 status =? 0x80)
                   then raise (StlinkException
                                 ["Error switching SWD frequency"])
                   else ret tt) (tr ++ [GET_COM_FREQ_call])).
    { unfold _set_swd_freq_v3. unfold bind at 1, lift at 1, py_lt.
      rewrite Hapi. destruct (Z.ltb_spec api 3); [lia|].
      unfold bind at 1, xfer at 1. cbv zeta.
      change (XferCall [CMD.DEBUG.COMMAND; CMD.DEBUG.APIV3.GET_COM_FREQ; 0]
                None (Some 52)) with GET_COM_FREQ_call.
      rewrite Hres. unfold bind at 1, lift at 1, index. rewrite Hcount.
      reflexivity. }
    pose proof (u8_range count) as Hc.
    pose proof (v3_scan_spec res swd_frequency (Z.to_nat (u8 count)) 0 0)
      as Hscan.
    cbv zeta in Hscan.
    destruct (_set_swd_freq_v3_scan res swd_frequency
                (Z.to_nat (u8 count)) 0 0) as [i' k'] eqn:Hs.
    simpl in Hscan. destruct Hscan as (Hi' & Hbefore & Hfound).
    split.
    + intros Hall. rewrite Hrun.
      destruct (Z.eqb_spec (Z.of_nat i') (u8 count)) as [_|Hne];
        [reflexivity|].
      exfalso. assert (Hlt : (i' < Z.to_nat (u8 count))%nat) by lia.
      destruct (Hfound Hlt) as [_ Hle]. specialize (Hall i' Hlt). lia.
    + intros i Hi Hle Hfirst khz.
      assert (Heq : i' = i).
      { destruct (Nat.lt_trichotomy i' i) as [Hlt|[Heq|Hgt]].
        - destruct (Hfound ltac:(lia)) as [_ Hle'].
          specialize (Hfirst i' Hlt). lia.
        - exact Heq.
        - specialize (Hbefore i ltac:(lia)). lia. }
      subst i'. destruct (Hfound Hi) as [Hk _]. subst k'.
      pose proof (entry_khz_read_bound res i) as Hb.
      assert (H32 : 0 <= entry_khz_read res i < 2 ^ (8 * Z.of_nat 4))
        by (simpl; lia).
      split; [apply (le_digits_spec 4 _ H32)|].
      rewrite Hrun.
      destruct (Z.eqb_spec (Z.of_nat i) (u8 count)) as [Heq|_]; [lia|].
      unfold bind at 1, lift at 1.
      rewrite (to_bytes_little_in_range 4 _ H32). fold khz.
      unfold bind, xfer, lift, raise, ret, index. cbv zeta.
      change (XferCall ([242; 97; 0; 0] ++ khz) None (Some 2))
        with (SET_COM_FREQ_call khz).
      unfold set_freq_outcome.
      destruct (com_xfer (_com self) (tr ++ [GET_COM_FREQ_call])
                  (SET_COM_FREQ_call khz)) as [[|status tail]|e];
        simpl; rewrite <- ?app_assoc; try reflexivity.
      now destruct (u8 status =? 128).
Qed.

Lemma set_swd_freq_v3_first_entry_witness :
  _api (_version (session probe_v3_three_entries v3j5)) = Some 3
  /\ _set_swd_freq_v3 (session probe_v3_three_entries v3j5) 10000000 []
     = (Ok tt,
        [GET_COM_FREQ_call; SET_COM_FREQ_call [0x40; 0x1f; 0; 0]])
  /\ _set_swd_freq_v3 (session probe_v3_three_entries v3j5) 1000000 []
     = (Err (StlinkException ["Requested SWD frequency is too low"]),
        [GET_COM_FREQ_call]).
Proof.
  split; [reflexivity|].
  destruct (set_swd_freq_v3_first_entry (session probe_v3_three_entries v3j5)
              10000000 3 [] eq_refl) as [_ H1].
  destruct (set_swd_freq_v3_first_entry (session probe_v3_three_entries v3j5)
              1000000 3 [] eq_refl) as [_ H2].
  assert (Hge : 3 <= 3) by lia.
  split.
  - destruct (H1 Hge _ x03 eq_refl eq_refl) as [_ Hsel].
    assert (Hi : (1 < Z.to_nat (u8 x03))%nat) by (vm_compute; lia).
    assert (Hle : entry_khz_read
                    ([x80; x00; x00; x00; x00; x00; x00; x00;
                      x03; x00; x00; x00;
                      xc0; x5d; x00; x00;
                      x40; x1f; x00; x00;
                      xe4; x0c; x00; x00] ++ replicate 28 x00) 1
                  <= 10000000 / 1000) by (vm_compute; discriminate).
    destruct (Hsel 1%nat Hi Hle) as [_ Hrun].
    + intros j Hj. assert (j = 0%nat) as -> by lia. vm_compute. reflexivity.
    + rewrite Hrun. reflexivity.
  - destruct (H2 Hge _ x03 eq_refl eq_refl) as [Hlow _].
    apply Hlow. intros j Hj.
    assert (Hj3 : (j < 3)%nat) by (vm_compute in Hj; lia).
    destruct j as [|[|[|j]]]; [vm_compute; reflexivity..|lia].
Defined.

(* ===================================================================== *)
(** ** Further properties: the steps of the identification *)
(* ===================================================================== *)

Lemma select_by_specs_filter {memory} (specs : list (mcu_spec memory))
    (key : mcu_spec memory -> option Z) (value : Z) :
  _select_by_specs specs [(key, value)]
  = List.filter (fun spec => bool_decide (key spec = Some value)) specs.
Proof.
  unfold _select_by_specs. induction specs as [|s specs IH]; [reflexivity|].
  simpl in *. destruct (bool_decide (key s = Some value)); simpl;
    now rewrite IH.
Qed.

Lemma filter_sublist {A} (f : A -> bool) (l : list A) :
  sublist (List.filter f l) l.
Proof.
  induction l as [|x l IH]; simpl; [constructor|].
  destruct (f x); now constructor.
Qed.

Lemma Stm32_init_steps {memory} (get_size : memory -> string -> Z)
    (swd_get_mem32 swd_get_mem16 : Z -> result Z) (_NAME : string)
    (_IDCODE_REG : Z) (_FLASH_SIZE_REG : option Z)
    (_MCUS : list (mcu_spec memory)) (expected_mcus : option (list string)) :
  Stm32_init get_size swd_get_mem32 swd_get_mem16 _NAME _IDCODE_REG
    _FLASH_SIZE_REG _MCUS expected_mcus
  = match swd_get_mem32 _IDCODE_REG with
    | Err e => Err e
    | Ok idcode =>
        let cands := candidates_by_dev_id _MCUS idcode in
        match cands with
        | [] => Err (UnknownMcuDetected (Z.land idcode 0xfff) None)
        | _ =>
            match flash_size_reg_address _FLASH_SIZE_REG cands with
            | Err e => Err e
            | Ok address =>
                match swd_get_mem16 address with
                | Err e => Err e
                | Ok raw =>
                    let sized :=
                      _selet_mcus_by_flash_size get_size cands (raw * 1024)
                    in
                    match sized with
                    | [] => Err (UnknownMcuDetected (Z.land idcode 0xfff)
                                   (Some (raw * 1024)))
                    | _ => identification_result _NAME sized (raw * 1024)
                             expected_mcus
                    end
                end
            end
        end
    end.
Proof.
  unfold Stm32_init, _load_devid_from_idcode, _load_flash_size,
    candidates_by_dev_id, flash_size_reg_address, identification_result,
    _get_mcu_names, KILO.
  cbv zeta.
  destruct (swd_get_mem32 _IDCODE_REG) as [idcode|e]; [|reflexivity].
  destruct (_select_by_specs _MCUS [(dev_id, Z.land idcode 4095)])
    as [|c cands]; [reflexivity|].
  destruct (if truthy _FLASH_SIZE_REG then _ else _) as [address|e];
    [|reflexivity].
  destruct (swd_get_mem16 address) as [raw|e]; [|reflexivity].
  destruct (_selet_mcus_by_flash_size get_size (c :: cands) (raw * 1024))
    as [|s sized]; [reflexivity|].
  destruct expected_mcus as [[|n names]|]; try reflexivity.
  now destruct (_select_mcus_by_expected _NAME (s :: sized) (n :: names)).
Qed.

(** X12.  How the identification fails.  The device id is the low 12 bits
    of the word read.  When no catalog entry carries it, the error is
    [UnknownMcuDetected(dev_id)] and the flash size plays no part.  When
    entries carry it but none has a FLASH region of the size read, the error
    is [UnknownMcuDetected(dev_id, flash_size)].  An exception of either
    read of the target comes out unchanged. *)
Theorem identification_failures {memory} (get_size : memory -> string -> Z)
    (swd_get_mem32 swd_get_mem16 : Z -> result Z) (_NAME : string)
    (_IDCODE_REG : Z) (_FLASH_SIZE_REG : option Z)
    (_MCUS : list (mcu_spec memory)) (expected_mcus : option (list string)) :
  let init :=
    Stm32_init get_size swd_get_mem32 swd_get_mem16 _NAME _IDCODE_REG
      _FLASH_SIZE_REG _MCUS expected_mcus in
  (forall e, swd_get_mem32 _IDCODE_REG = Err e -> init = Err e)
  /\ (forall idcode,
        swd_get_mem32 _IDCODE_REG = Ok idcode ->
        let devid := Z.land idcode 0xfff in
        let cands := candidates_by_dev_id _MCUS idcode in
        0 <= devid < 4096
        /\ ((forall mcu, In mcu _MCUS -> dev_id mcu <> Some devid) ->
            init = Err (UnknownMcuDetected devid None))
        /\ (forall address,
              cands <> [] ->
              flash_size_reg_address _FLASH_SIZE_REG cands = Ok address ->
              (forall e, swd_get_mem16 address = Err e -> init = Err e)
              /\ (forall raw,
                    swd_get_mem16 address = Ok raw ->
                    (forall mcu, In mcu cands ->
                       get_size (mcu_memory mcu) "FLASH" <> raw * 1024) ->
                    init = Err (UnknownMcuDetected devid
                                  (Some (raw * 1024)))))).
Proof.
  intros init. unfold init. rewrite Stm32_init_steps. split.
  - intros e He. now rewrite He.
  - intros idcode Hid. rewrite Hid. cbv zeta.
    set (devid := Z.land idcode 4095).
    set (cands := candidates_by_dev_id _MCUS idcode).
    split; [|split].
    + apply (land_low_bits idcode 12). lia.
    + intros Hnone.
      assert (Hc : cands = []).
      { destruct cands as [|c l] eqn:Hc; [reflexivity|]. exfalso.
        assert (Hin : In c cands) by (rewrite Hc; now left).
        apply select_by_specs_one in Hin as [Hin Hd].
        exact (Hnone c Hin Hd). }
      now rewrite Hc.
    + intros address Hne Haddr. rewrite Haddr.
      destruct cands as [|c l] eqn:Hc; [contradiction|]. rewrite <- Hc.
      split.
      * intros e He. now rewrite He.
      * intros raw Hraw Hsz. rewrite Hraw. cbv zeta.
        assert (Hs : _selet_mcus_by_flash_size get_size cands (raw * 1024)
                     = []).
        { destruct (_selet_mcus_by_flash_size get_size cands (raw * 1024))
            as [|s l'] eqn:Hs; [reflexivity|]. exfalso.
          assert (Hin : In s (_selet_mcus_by_flash_size get_size cands
                                (raw * 1024))) by (rewrite Hs; now left).
          apply selet_mcus_by_flash_size_In in Hin as [Hin Hg].
          exact (Hsz s Hin Hg). }
        now rewrite Hs.
Qed.

Lemma identification_failures_witness :
  unknown_get_mem32 0xe0042000 = Ok 0x10006999
  /\ Stm32_init regions_get_size unknown_get_mem32 f1_get_mem16 "STM32"
       0xe0042000 (Some 0x1ffff7e0) f1_catalog None
     = Err (UnknownMcuDetected 0x999 None)
  /\ Stm32_init regions_get_size f1_get_mem32 f1_get_mem16_256 "STM32"
       0xe0042000 (Some 0x1ffff7e0) f1_catalog None
     = Err (UnknownMcuDetected 0x410 (Some 262144)).
Proof.
  split; [reflexivity|]. split.
  - destruct (identification_failures regions_get_size unknown_get_mem32
                f1_get_mem16 "STM32" 0xe0042000 (Some 0x1ffff7e0)
                f1_catalog None) as [_ H].
    destruct (H 0x10006999 eq_refl) as (_ & Hunknown & _).
    apply Hunknown. intros mcu [<-|[<-|[<-|[]]]]; discriminate.
  - destruct (identification_failures regions_get_size f1_get_mem32
                f1_get_mem16_256 "STM32" 0xe0042000 (Some 0x1ffff7e0)
                f1_catalog None) as [_ H].
    destruct (H 0x20036410 eq_refl) as (_ & _ & Hflash).
    destruct (Hflash 0x1ffff7e0) as [_ Hsize];
      [discriminate | reflexivity |].
    apply (Hsize 256); [reflexivity|].
    intros mcu [<-|[<-|[]]]; vm_compute; discriminate.
Defined.

Lemma Stm32_init_ok {memory} (get_size : memory -> string -> Z)
    (swd_get_mem32 swd_get_mem16 : Z -> result Z) (_NAME : string)
    (_IDCODE_REG : Z) (_FLASH_SIZE_REG : option Z)
    (_MCUS : list (mcu_spec memory)) (expected_mcus : option (list string))
    (self : Stm32 memory) :
  Stm32_init get_size swd_get_mem32 swd_get_mem16 _NAME _IDCODE_REG
    _FLASH_SIZE_REG _MCUS expected_mcus = Ok self ->
  exists idcode address raw,
    swd_get_mem32 _IDCODE_REG = Ok idcode
    /\ flash_size_reg_address _FLASH_SIZE_REG
         (candidates_by_dev_id _MCUS idcode) = Ok address
    /\ swd_get_mem16 address = Ok raw
    /\ _selet_mcus_by_flash_size get_size
         (candidates_by_dev_id _MCUS idcode) (raw * 1024) <> []
    /\ identification_result _NAME
         (_selet_mcus_by_flash_size get_size
            (candidates_by_dev_id _MCUS idcode) (raw * 1024))
         (raw * 1024) expected_mcus = Ok self.
Proof.
  rewrite Stm32_init_steps.
  destruct (swd_get_mem32 _IDCODE_REG) as [idcode|e]; [|discriminate].
  cbv zeta.
  destruct (candidates_by_dev_id _MCUS idcode) as [|c cands] eqn:Hc;
    [discriminate|].
  destruct (flash_size_reg_address _FLASH_SIZE_REG (c :: cands))
    as [address|e] eqn:Ha; [|discriminate].
  destruct (swd_get_mem16 address) as [raw|e] eqn:Hr; [|discriminate].
  destruct (_selet_mcus_by_flash_size get_size (c :: cands) (raw * 1024))
    as [|s sized] eqn:Hs; [discriminate|].
  intros H. exists idcode, address, raw. rewrite Hc, Hs.
  split; [reflexivity|]. split; [exact Ha|]. split; [exact Hr|].
  split; [discriminate | exact H].
Qed.

(** X13.  The expected names only narrow a successful identification: when
    the identification without expected names succeeds, the one with a
    non-empty list of names keeps the flash size and returns, in their
    order, the candidates that the name filter selects, or fails with
    [McuNotMatch] carrying the names of all candidates and the expected
    names as given when the filter selects none; the empty list of names
    behaves as no list. *)
Theorem expected_names_narrow {memory} (get_size : memory -> string -> Z)
    (swd_get_mem32 swd_get_mem16 : Z -> result Z) (_NAME : string)
    (_IDCODE_REG : Z) (_FLASH_SIZE_REG : option Z)
    (_MCUS : list (mcu_spec memory)) (self : Stm32 memory) :
  Stm32_init get_size swd_get_mem32 swd_get_mem16 _NAME _IDCODE_REG
    _FLASH_SIZE_REG _MCUS None = Ok self ->
  Stm32_init get_size swd_get_mem32 swd_get_mem16 _NAME _IDCODE_REG
    _FLASH_SIZE_REG _MCUS (Some []) = Ok self
  /\ forall n names,
       Stm32_init get_size swd_get_mem32 swd_get_mem16 _NAME _IDCODE_REG
         _FLASH_SIZE_REG _MCUS (Some (n :: names))
       = match _select_mcus_by_expected _NAME (_mcus self) (n :: names) with
         | [] => Err (McuNotMatch (map mcu_name (_mcus self)) (n :: names))
         | selected =>
             Ok {| _mcus := selected; _flash_size := _flash_size self |}
         end.
Proof.
  intros H. pose proof H as H0.
  apply Stm32_init_ok in H0
    as (idcode & address & raw & Hid & Ha & Hr & Hne & Hres).
  simpl in Hres. injection Hres as <-.
  split; [exact H|]. intros n names.
  rewrite Stm32_init_steps, Hid. cbv zeta.
  destruct (candidates_by_dev_id _MCUS idcode) as [|c cands] eqn:Hc.
  { exfalso. apply Hne. reflexivity. }
  rewrite Ha, Hr.
  destruct (_selet_mcus_by_flash_size get_size (c :: cands) (raw * 1024))
    as [|s sized] eqn:Hs; [contradiction|].
  reflexivity.
Qed.

Lemma expected_names_narrow_witness :
  Stm32_init regions_get_size f1_get_mem32 f1_get_mem16 "STM32"
    0xe0042000 (Some 0x1ffff7e0) f1_catalog_svd None
  = Ok {| _mcus := f1_catalog_svd; _flash_size := 65536 |}
  /\ Stm32_init regions_get_size f1_get_mem32 f1_get_mem16 "STM32"
       0xe0042000 (Some 0x1ffff7e0) f1_catalog_svd (Some ["STM32F407VG"])
     = Err (McuNotMatch ["STM32F103x8"; "STM32F101x8"] ["STM32F407VG"]).
Proof.
  assert (Hrun : Stm32_init regions_get_size f1_get_mem32 f1_get_mem16
                   "STM32" 0xe0042000 (Some 0x1ffff7e0) f1_catalog_svd None
                 = Ok {| _mcus := f1_catalog_svd; _flash_size := 65536 |})
    by reflexivity.
  split; [exact Hrun|].
  destruct (expected_names_narrow _ _ _ _ _ _ _ _ Hrun) as [_ Hnarrow].
  rewrite Hnarrow. vm_compute. reflexivity.
Defined.

(** X14.  The candidates of a successful identification are entries of the
    catalog in the order of the catalog: nothing is added, reordered or
    repeated, so a catalog without repeated entries gives candidates
    without repeated entries. *)
Theorem identified_candidates_sublist {memory}
    (get_size : memory -> string -> Z)
    (swd_get_mem32 swd_get_mem16 : Z -> result Z) (_NAME : string)
    (_IDCODE_REG : Z) (_FLASH_SIZE_REG : option Z)
    (_MCUS : list (mcu_spec memory)) (expected_mcus : option (list string))
    (self : Stm32 memory) :
  Stm32_init get_size swd_get_mem32 swd_get_mem16 _NAME _IDCODE_REG
    _FLASH_SIZE_REG _MCUS expected_mcus = Ok self ->
  sublist (_mcus self) _MCUS
  /\ (NoDup _MCUS -> NoDup (_mcus self)).
Proof.
  intros H.
  apply Stm32_init_ok in H
    as (idcode & address & raw & _ & _ & _ & _ & Hres).
  assert (Hsized : sublist
            (_selet_mcus_by_flash_size get_size
               (candidates_by_dev_id _MCUS idcode) (raw * 1024)) _MCUS).
  { unfold _selet_mcus_by_flash_size, candidates_by_dev_id.
    rewrite select_by_specs_filter.
    etransitivity; apply filter_sublist. }
  assert (Hsub : sublist (_mcus self) _MCUS).
  { unfold identification_result in Hres.
    destruct expected_mcus as [[|n names]|].
    - injection Hres as <-. exact Hsized.
    - destruct (_select_mcus_by_expected _NAME _ (n :: names))
        as [|t sel] eqn:Hsel; [discriminate|].
      injection Hres as <-. simpl. rewrite <- Hsel.
      rewrite select_mcus_by_expected_filter.
      etransitivity; [apply filter_sublist | exact Hsized].
    - injection Hres as <-. exact Hsized. }
  split; [exact Hsub|].
  intros Hnd. exact (sublist_NoDup _ _ Hnd Hsub).
Qed.

Lemma identified_candidates_sublist_witness :
  Stm32_init regions_get_size f1_get_mem32 f1_get_mem16 "STM32"
    0xe0042000 (Some 0x1ffff7e0) f1_catalog (Some ["STM32F103C8"])
  = Ok {| _mcus := take 1 f1_catalog; _flash_size := 65536 |}
  /\ sublist (take 1 f1_catalog) f1_catalog.
Proof.
  assert (Hrun : Stm32_init regions_get_size f1_get_mem32 f1_get_mem16
                   "STM32" 0xe0042000 (Some 0x1ffff7e0) f1_catalog
                   (Some ["STM32F103C8"])
                 = Ok {| _mcus := take 1 f1_catalog; _flash_size := 65536 |})
    by (vm_compute; reflexivity).
  split; [exact Hrun|].
  exact (proj1 (identified_candidates_sublist _ _ _ _ _ _ _ _ _ Hrun)).
Defined.

(* ===================================================================== *)
(** ** Further properties: the identified device *)
(* ===================================================================== *)

(** X15.  On an identified device [memory_regions] never reports
    "Device has not defined memory regions": with exactly one candidate it
    gives the regions of that candidate, whose FLASH region has the
    detected flash size, and with several candidates it raises
    "Error, more regions found". *)
Theorem memory_regions_of_identified {memory regions : Type}
    (MemoryRegions : memory -> regions) (get_size : memory -> string -> Z)
    (swd_get_mem32 swd_get_mem16 : Z -> result Z) (_NAME : string)
    (_IDCODE_REG : Z) (_FLASH_SIZE_REG : option Z)
    (_MCUS : list (mcu_spec memory)) (expected_mcus : option (list string))
    (self : Stm32 memory) :
  Stm32_init get_size swd_get_mem32 swd_get_mem16 _NAME _IDCODE_REG
    _FLASH_SIZE_REG _MCUS expected_mcus = Ok self ->
  exists mcu rest,
    _mcus self = mcu :: rest
    /\ (rest = [] ->
          memory_regions MemoryRegions self
            = Ok (MemoryRegions (mcu_memory mcu))
          /\ get_size (mcu_memory mcu) "FLASH" = _flash_size self)
    /\ (rest <> [] ->
          memory_regions MemoryRegions self
          = Err (McuException "Error, more regions found")).
Proof.
  intros H.
  apply Stm32_init_ok in H
    as (idcode & address & raw & _ & _ & _ & Hne & Hres).
  set (sized := _selet_mcus_by_flash_size get_size
                  (candidates_by_dev_id _MCUS idcode) (raw * 1024)) in *.
  assert (Hsized : forall m, In m sized ->
                     get_size (mcu_memory m) "FLASH" = raw * 1024)
    by (intros m Hm; now apply selet_mcus_by_flash_size_In in Hm).
  assert (Hself : _flash_size self = raw * 1024
                  /\ _mcus self <> []
                  /\ forall m, In m (_mcus self) -> In m sized).
  { unfold identification_result in Hres.
    destruct expected_mcus as [[|n names]|].
    - injection Hres as <-. simpl. auto.
    - destruct (_select_mcus_by_expected _NAME sized (n :: names))
        as [|t sel] eqn:Hsel; [discriminate|].
      injection Hres as <-. cbn [_mcus _flash_size]. split; [reflexivity|].
      split; [discriminate|]. intros m Hm.
      rewrite <- Hsel in Hm.
      rewrite select_mcus_by_expected_filter, filter_In in Hm. tauto.
    - injection Hres as <-. simpl. auto. }
  destruct Hself as (Hflash & Hnonempty & Hin).
  unfold memory_regions.
  destruct (_mcus self) as [|mcu rest]; [contradiction|].
  exists mcu, rest. split; [reflexivity|]. split.
  - intros ->. simpl. split; [reflexivity|].
    rewrite Hflash. apply Hsized, Hin. now left.
  - intros Hrest. destruct rest as [|m rest]; [contradiction|]. reflexivity.
Qed.

Lemma memory_regions_of_identified_witness :
  Stm32_init regions_get_size f1_get_mem32 f1_get_mem16 "STM32"
    0xe0042000 (Some 0x1ffff7e0) f1_catalog None
  = Ok {| _mcus := take 1 f1_catalog; _flash_size := 65536 |}
  /\ memory_regions (fun m : list region => m)
       {| _mcus := take 1 f1_catalog; _flash_size := 65536 |}
     = Ok (f103_memory 64).
Proof.
  assert (Hrun : Stm32_init regions_get_size f1_get_mem32 f1_get_mem16
                   "STM32" 0xe0042000 (Some 0x1ffff7e0) f1_catalog None
                 = Ok {| _mcus := take 1 f1_catalog; _flash_size := 65536 |})
    by (vm_compute; reflexivity).
  split; [exact Hrun|].
  destruct (memory_regions_of_identified (fun m : list region => m)
              _ _ _ _ _ _ _ _ _ Hrun) as (mcu & rest & Hm & Hone & _).
  injection Hm as <- <-.
  exact (proj1 (Hone eq_refl)).
Defined.

(** X16.  [load_svd] hands one file to the [Swd] object when the candidates
    that name an SVD file all name the same one, does nothing and reports
    nothing when no candidate names one, and raises "Specify MCU to load
    SVD file", without loading anything, when two candidates name different
    files. *)
Theorem load_svd_needs_agreement {memory : Type}
    (resource_filename : string -> string)
    (swd_load_svd : string -> result unit) (self : Stm32 memory) :
  ((forall mcu, In mcu (_mcus self) -> svd_file mcu = None) ->
     load_svd resource_filename swd_load_svd self = Ok [])
  /\ (forall x,
        (exists mcu, In mcu (_mcus self) /\ svd_file mcu = Some x) ->
        (forall mcu y, In mcu (_mcus self) -> svd_file mcu = Some y ->
                       y = x) ->
        load_svd resource_filename swd_load_svd self
        = match swd_load_svd (resource_filename x) with
          | Ok _ => Ok [resource_filename x]
          | Err e => Err e
          end)
  /\ (forall m1 m2 x y,
        In m1 (_mcus self) -> In m2 (_mcus self) ->
        svd_file m1 = Some x -> svd_file m2 = Some y -> x <> y ->
        load_svd resource_filename swd_load_svd self
        = Err (McuException "Specify MCU to load SVD file")).
Proof.
  unfold load_svd. cbv zeta.
  set (files := _mcu_values (_mcus self) svd_file).
  assert (Hel : forall x, x ∈ files
                <-> exists m, In m (_mcus self) /\ svd_file m = Some x)
    by (intros x; apply mcu_values_elem).
  split; [|split].
  - intros Hnone.
    assert (Hempty : size files = 0%nat).
    { apply size_empty_iff. intros x. split; [|intros Hx; now apply not_elem_of_empty in Hx].
      intros Hx. apply Hel in Hx as (m & Hm & Hs).
      rewrite (Hnone m Hm) in Hs. discriminate. }
    rewrite Hempty. reflexivity.
  - intros x Hsome Hall.
    assert (Heq : files = {[ x ]}).
    { apply set_eq. intros y. rewrite elem_of_singleton, Hel. split.
      - intros (m & Hm & Hs). exact (Hall m y Hm Hs).
      - intros ->. exact Hsome. }
    rewrite Heq, size_singleton, elements_singleton. reflexivity.
  - intros m1 m2 x y H1 H2 Hx Hy Hne.
    assert (Hmany : (1 < size files)%nat).
    { apply gset_two_distinct. exists x, y.
      split; [apply Hel; eauto|]. split; [apply Hel; eauto | exact Hne]. }
    destruct (Nat.eqb_spec (size files) 1); [lia|].
    now destruct (Nat.ltb_spec 1 (size files)); [|lia].
Qed.

Lemma load_svd_needs_agreement_witness :
  load_svd (fun f => "swd/" +:+ f) (fun _ => Ok tt)
    {| _mcus := f1_catalog_svd; _flash_size := 65536 |}
  = Err (McuException "Specify MCU to load SVD file")
  /\ load_svd (fun f => "swd/" +:+ f) (fun _ => Ok tt)
       {| _mcus := take 1 f1_catalog_svd; _flash_size := 65536 |}
     = Ok ["swd/svd/STM32F103.svd"].
Proof.
  split.
  - destruct (load_svd_needs_agreement (fun f => "swd/" +:+ f)
                (fun _ => Ok tt)
                {| _mcus := f1_catalog_svd; _flash_size := 65536 |})
      as (_ & _ & Hmany).
    eapply Hmany;
      [left; reflexivity | right; left; reflexivity
      | reflexivity | reflexivity | discriminate].
  - destruct (load_svd_needs_agreement (fun f => "swd/" +:+ f)
                (fun _ => Ok tt)
                {| _mcus := take 1 f1_catalog_svd; _flash_size := 65536 |})
      as (_ & Hone & _).
    rewrite (Hone "svd/STM32F103.svd"); [reflexivity | |].
    + eexists. split; [left; reflexivity | reflexivity].
    + intros mcu y [<-|[]] Hy. simpl in Hy. now injection Hy as <-.
Defined.

(* ===================================================================== *)
(** ** Further properties: canonical names *)
(* ===================================================================== *)

Lemma str_set_idem (i : nat) (c : ascii) (s : string) :
  str_set i c (str_set i c s) = str_set i c s.
Proof.
  revert i. induction s as [|d s IH]; intros [|i]; simpl; auto.
  now rewrite IH.
Qed.

Lemma fix_mcu_name_idem (n : string) :
  _fix_mcu_name (_fix_mcu_name n) = _fix_mcu_name n.
Proof.
  unfold _fix_mcu_name.
  destruct (9 <? String.length n)%nat eqn:Hlen; [|now rewrite Hlen].
  now rewrite str_set_length, Hlen, str_set_idem.
Qed.

Lemma family_test_ignores_late_index (s _NAME : string) (i : nat)
    (c : ascii) :
  (String.length _NAME <= i)%nat ->
  startswith (upper (str_set i c s))
    (str_take (String.length (upper (str_set i c s))) _NAME)
  = startswith (upper s) (str_take (String.length (upper s)) _NAME).
Proof.
  revert _NAME i. induction s as [|d s IH]; intros _NAME i Hlen;
    [now destruct i|].
  destruct i as [|i].
  - destruct _NAME; [reflexivity | simpl in Hlen; lia].
  - destruct _NAME as [|a _NAME]; [reflexivity|].
    simpl. destruct (Ascii.eqb a (upper_char d)); [|reflexivity].
    apply IH. simpl in Hlen. lia.
Qed.

Lemma matches_family_fix (_NAME n : string) :
  (String.length _NAME <= 9)%nat ->
  matches_family _NAME (_fix_mcu_name n) = matches_family _NAME n.
Proof.
  intros Hlen. unfold matches_family, _fix_mcu_name.
  destruct (9 <? String.length n)%nat; [|reflexivity].
  now apply family_test_ignores_late_index.
Qed.

(** X17.  Canonicalization is idempotent: fixing a fixed name changes
    nothing, and for a family name of at most 9 characters the canonical
    names of a set of canonical names are that set again. *)
Theorem canonicalization_idempotent (_NAME : string)
    (mcu_names : list string) :
  (forall n, _fix_mcu_name (_fix_mcu_name n) = _fix_mcu_name n)
  /\ ((String.length _NAME <= 9)%nat ->
        canonical_names _NAME (elements (canonical_names _NAME mcu_names))
        = canonical_names _NAME mcu_names).
Proof.
  split; [exact fix_mcu_name_idem|].
  intros Hlen. apply set_eq. intros s.
  rewrite !canonical_names_spec. split.
  - intros (n & Hn & Hmatch & ->).
    apply list_elem_of_In, elem_of_elements, canonical_names_spec in Hn
      as (m & Hm & Hmm & ->).
    exists m. rewrite fix_mcu_name_idem. auto.
  - intros (m & Hm & Hmm & ->).
    exists (_fix_mcu_name m). split; [|split].
    + apply list_elem_of_In, elem_of_elements, canonical_names_spec.
      exists m. auto.
    + now rewrite matches_family_fix.
    + now rewrite fix_mcu_name_idem.
Qed.

Lemma canonicalization_idempotent_witness :
  (String.length "STM32" <= 9)%nat
  /\ canonical_names "STM32"
       (elements (canonical_names "STM32" ["STM32F103C8"; "stm32f407vg"]))
     = canonical_names "STM32" ["STM32F103C8"; "stm32f407vg"].
Proof.
  assert (Hlen : (String.length "STM32" <= 9)%nat) by (simpl; lia).
  split; [exact Hlen|].
  exact (proj2 (canonicalization_idempotent "STM32"
                  ["STM32F103C8"; "stm32f407vg"]) Hlen).
Defined.
